(** * refreshobservations.py: iNaturalist observations to Hugo markdown

    A shallow embedding of [.scripts/refreshobservations.py] and the
    properties of its three stages: the identifier lister
    ([retrieve_obs_ids_from_server]), the fetcher and reshaper
    ([retrieve_data_from_server], [reformat_obs]) and the reconciler (the
    module-level loop, [read_hugo_markdown], [write_markdown]).

    Conventions of the model.
    - A Python [str] is the list of its code points ([pystr]).
    - A value produced by [json.loads] is a [pyval]; JSON numbers with a
      fraction or an exponent (Python floats) are outside the model.
    - Python code that can raise or leave the process returns a [result];
      code that also prints, sends requests or touches files is a state
      transformer over [world] ([M]).
    - What the script takes from outside is gathered in the class [Env]: the
      answer of the network to the n-th request, the fate of the n-th
      attempt to write a file, [json.loads] on text, and the Unicode table
      behind [repr]. Theorems hold for every [Env]; closed examples use the
      instance built from [json_loads_ref].
    - Standard output is the list of the texts handed to [print], one per
      call ([stdout]). [print] is modelled for text that the encoder of
      standard output accepts; [output_lines] gives the lines these texts
      make. For ids of printable ASCII ([printable_id], every integer id is
      one) the texts printed are printable ASCII, [print] cannot fail on
      them and each is one line ([main_printable], [main_output_lines]);
      the statements about a whole run that depend on either are made for
      such ids. *)

From Stdlib Require Import ZArith NArith List Ascii String Bool Lia DecimalString.
From Stdlib Require Import DecimalZ DecimalPos.
From stdpp Require Import base option list gmap sorting.

Set Warnings "-register-all".

(** ** Python strings *)

Definition pystr := list N.

(** A string literal of the script, as code points. *)
Definition lit (s : string) : pystr := map N_of_ascii (list_ascii_of_string s).

Definition nl : pystr := [10%N].
Definition dquote : N := 34%N.
Definition squote : N := 39%N.
Definition backslash : N := 92%N.

(** [str(z)] for an [int]. *)
Definition str_of_Z (z : Z) : pystr := lit (NilZero.string_of_int (Z.to_int z)).

(** [sep.join(parts)]. *)
Fixpoint join (sep : pystr) (parts : list pystr) : pystr :=
  match parts with
  | [] => []
  | [p] => p
  | p :: rest => p ++ sep ++ join sep rest
  end.

(** [s.startswith(p)]. *)
Fixpoint starts_with (p s : pystr) : bool :=
  match p, s with
  | [], _ => true
  | a :: p', b :: s' => (a =? b)%N && starts_with p' s'
  | _ :: _, [] => false
  end.

(** The scan behind [str.find]: [s] is the text from index [i] on; the
    answer is the lowest index at which [p] starts, or -1. *)
Fixpoint find_from (p s : pystr) (i : Z) : Z :=
  if starts_with p s then i
  else match s with
       | [] => (-1)%Z
       | _ :: s' => find_from p s' (i + 1)%Z
       end.

(** [s.find(p, start)]; a negative [start] counts from the end. *)
Definition str_find (p s : pystr) (start : Z) : Z :=
  let n := Z.of_nat (length s) in
  let start := if (start <? 0)%Z then Z.max 0 (start + n) else start in
  if (n <? start)%Z then (-1)%Z
  else find_from p (drop (Z.to_nat start) s) start.

(** A slice bound as CPython adjusts it for a sequence of length [n]. *)
Definition slice_index (n i : Z) : Z :=
  if (i <? 0)%Z then Z.max 0 (i + n) else Z.min i n.

(** [s[a:b]]. *)
Definition py_slice (s : pystr) (a b : Z) : pystr :=
  let n := Z.of_nat (length s) in
  let a' := slice_index n a in
  let b' := slice_index n b in
  take (Z.to_nat (b' - a')) (drop (Z.to_nat a') s).

(** Lower-case hexadecimal, [width] digits. *)
Definition hexdigit (d : N) : N := if (d <? 10)%N then (48 + d)%N else (87 + d)%N.

Fixpoint hex (width : nat) (n : N) : pystr :=
  match width with
  | O => []
  | S w => hex w (n / 16)%N ++ [hexdigit (n mod 16)%N]
  end.

(** ** Python values *)

Inductive pyval :=
| PyNone
| PyBool (b : bool)
| PyInt (z : Z)
| PyStr (s : pystr)
| PyList (l : list pyval)
| PyDict (d : list (pystr * pyval)).

(** A [dict] with [str] keys, in insertion order. *)
Definition pydict := list (pystr * pyval).

Fixpoint dict_get (k : pystr) (d : pydict) : option pyval :=
  match d with
  | [] => None
  | (k', v) :: r => if decide (k = k') then Some v else dict_get k r
  end.

(** [d[k] = v]: an existing key keeps its place. *)
Fixpoint dict_set (k : pystr) (v : pyval) (d : pydict) : pydict :=
  match d with
  | [] => [(k, v)]
  | (k', v') :: r => if decide (k = k') then (k, v) :: r else (k', v') :: dict_set k v r
  end.

Definition dict_keys (d : pydict) : list pystr := map fst d.

(** The keys of a dict after [d[k] = v]. *)
Definition keys_add (k : pystr) (ks : list pystr) : list pystr :=
  if bool_decide (k ∈ ks) then ks else ks ++ [k].

(** [a == b]. Lists compare element by element; dicts compare by size and
    then key by key, whatever the insertion order; [True == 1]. *)
Fixpoint py_eq (a b : pyval) {struct a} : bool :=
  match a, b with
  | PyNone, PyNone => true
  | PyBool x, PyBool y => Bool.eqb x y
  | PyBool x, PyInt y => (Z.b2z x =? y)%Z
  | PyInt x, PyBool y => (x =? Z.b2z y)%Z
  | PyInt x, PyInt y => (x =? y)%Z
  | PyStr x, PyStr y => bool_decide (x = y)
  | PyList x, PyList y =>
      (fix go (x y : list pyval) : bool :=
         match x, y with
         | [], [] => true
         | a :: x', b :: y' => py_eq a b && go x' y'
         | _, _ => false
         end) x y
  | PyDict x, PyDict y =>
      (length x =? length y)%nat &&
      (fix go (x : pydict) : bool :=
         match x with
         | [] => true
         | (k, v) :: x' =>
             match dict_get k y with
             | Some w => py_eq v w
             | None => false
             end && go x'
         end) x
  | _, _ => false
  end.

(** The values Python can build: the keys of every dict are distinct.
    ([pydict] as a type also has lists with a repeated key.) *)
Inductive well_formed : pyval → Prop :=
| wf_none : well_formed PyNone
| wf_bool b : well_formed (PyBool b)
| wf_int z : well_formed (PyInt z)
| wf_str s : well_formed (PyStr s)
| wf_list l : Forall well_formed l → well_formed (PyList l)
| wf_dict d :
    NoDup (dict_keys d) → Forall (λ kv, well_formed (snd kv)) d → well_formed (PyDict d).

(** ** Results of Python code *)

Inductive exn := KeyError | TypeError | IndexError.

(** A computation returns, raises an exception nobody catches, or leaves
    through [sys.exit]; [OutOfFuel] marks a loop of the model cut short. *)
Inductive result (A : Type) : Type :=
| Ret (a : A)
| Raise (e : exn)
| Exit (code : Z)
| OutOfFuel.
Arguments Ret {A} a.
Arguments Raise {A} e.
Arguments Exit {A} code.
Arguments OutOfFuel {A}.

#[global] Instance result_ret : MRet result := @Ret.
#[global] Instance result_bind : MBind result := λ A B f r,
  match r with
  | Ret a => f a
  | Raise e => Raise e
  | Exit c => Exit c
  | OutOfFuel => OutOfFuel
  end.

(** The exit status the shell sees: 0 after a normal end, 1 after a
    traceback, the low byte of the argument of [sys.exit]. *)
Definition exit_status {A} (r : result A) : option Z :=
  match r with
  | Ret _ => Some 0%Z
  | Raise _ => Some 1%Z
  | Exit c => Some (c mod 256)%Z
  | OutOfFuel => None
  end.

(** [for x in l], stopping at the first exception. *)
Fixpoint mapR {A B} (f : A → result B) (l : list A) : result (list B) :=
  match l with
  | [] => Ret []
  | x :: r => y ← f x; ys ← mapR f r; Ret (y :: ys)
  end.

Fixpoint foldR {A B} (f : B → A → result B) (l : list A) (b : B) : result B :=
  match l with
  | [] => Ret b
  | x :: r => b' ← f b x; foldR f r b'
  end.

(** [o[k]] for a [str] key. *)
Definition py_getitem (o : pyval) (k : pystr) : result pyval :=
  match o with
  | PyDict d => match dict_get k d with Some v => Ret v | None => Raise KeyError end
  | _ => Raise TypeError
  end.

(** [o[0]]. *)
Definition py_getitem0 (o : pyval) : result pyval :=
  match o with
  | PyList (x :: _) => Ret x
  | PyList [] => Raise IndexError
  | PyStr (c :: _) => Ret (PyStr [c])
  | PyStr [] => Raise IndexError
  | PyDict _ => Raise KeyError
  | _ => Raise TypeError
  end.

(** [o > 0]. *)
Definition py_gt0 (o : pyval) : result bool :=
  match o with
  | PyInt z => Ret (0 <? z)%Z
  | PyBool b => Ret b
  | _ => Raise TypeError
  end.

(** ** The outside world *)

(** What [request.urlopen(url)] followed by [json.loads(response.read())]
    gives: [UrlError] when [urlopen] raises, otherwise the parsed body, or
    [None] when reading or parsing it raises. *)
Inductive http_result :=
| UrlError
| Response (parsed : option pyval).

(** The fate of one [open(path, "w")] followed by one [write]: [open]
    raises, or the file is opened (and so emptied) and the write stops with
    an error once [n] characters have reached the file, or all goes well. *)
Inductive write_fault :=
| NoFault
| OpenFails
| WriteFails (n : nat).

Class Env := {
  (** the answer to the n-th request of the run, counted from 0 *)
  net : nat → http_result;
  (** the fate of the n-th attempt to write a file, counted from 0 *)
  disk : nat → write_fault;
  (** [json.loads] on a [str]: [None] when it raises *)
  json_loads : pystr → option pyval;
  (** [str.isprintable] on one code point above U+007F *)
  isprintable : N → bool
}.

(** An entry of the content directory: a text file, or something that
    [open(..., "r")] or the UTF-8 decoder refuses (a directory, a file
    without read permission, bytes that are not UTF-8). *)
Inductive file :=
| Text (t : pystr)
| Unreadable.

(** The state the script acts on. [files] is keyed by the path as the
    script spells it; [requests] are the URLs asked for so far, oldest
    first; [stdout] the texts printed, one per call of [print], oldest
    first; [nwrites] the number of attempts to
    open a file for writing; [MIN_OBS_ID] the module-level cursor. *)
Record world := World {
  requests : list pystr;
  stdout : list pystr;
  files : gmap pystr file;
  nwrites : nat;
  MIN_OBS_ID : pyval
}.

(** The four ways in which the script changes the state. *)
Definition add_request (url : pystr) (w : world) : world :=
  World (requests w ++ [url]) (stdout w) (files w) (nwrites w) (MIN_OBS_ID w).

Definition add_line (line : pystr) (w : world) : world :=
  World (requests w) (stdout w ++ [line]) (files w) (nwrites w) (MIN_OBS_ID w).

Definition set_cursor (v : pyval) (w : world) : world :=
  World (requests w) (stdout w) (files w) (nwrites w) v.

Definition after_write (fs : gmap pystr file) (w : world) : world :=
  World (requests w) (stdout w) fs (S (nwrites w)) (MIN_OBS_ID w).

Definition M (A : Type) : Type := world → result A * world.

#[global] Instance M_ret : MRet M := λ A a w, (Ret a, w).
#[global] Instance M_bind : MBind M := λ A B f m w,
  match m w with
  | (Ret a, w') => f a w'
  | (Raise e, w') => (Raise e, w')
  | (Exit c, w') => (Exit c, w')
  | (OutOfFuel, w') => (OutOfFuel, w')
  end.

(** A computation without effects, run inside [M]. *)
Definition lift {A} (r : result A) : M A := λ w, (r, w).

(** [sys.exit(code)]. *)
Definition sys_exit {A} (code : Z) : M A := λ w, (Exit code, w).

(** [print(line)], for a text that standard output can encode: the text
    is added to what was printed. *)
Definition print (line : pystr) : M unit := λ w, (Ret (), add_line line w).

Definition get_MIN_OBS_ID : M pyval := λ w, (Ret (MIN_OBS_ID w), w).

Definition set_MIN_OBS_ID (v : pyval) : M unit := λ w, (Ret (), set_cursor v w).

(** [request.urlopen(url)] and the later [json.loads(response.read())]:
    the request is recorded and the network answers. The pause
    [time.sleep(1)] after it has no counterpart in the model. *)
Definition urlopen `{Env} (url : pystr) : M http_result := λ w,
  (Ret (net (length (requests w))), add_request url w).

(** [hugo_file.read()] of a file opened with [open(path, "r",
    encoding="UTF-8")]: universal newlines turn "\r\n" and "\r" into "\n". *)
Fixpoint universal_newlines (s : pystr) : pystr :=
  match s with
  | [] => []
  | c :: r =>
      if (c =? 13)%N
      then 10%N :: match r with
                   | [] => []
                   | d :: r' => if (d =? 10)%N then universal_newlines r' else universal_newlines r
                   end
      else c :: universal_newlines r
  end.

(** Opening [path] for reading and reading it whole; [None] when either
    step raises. *)
Definition fs_read (path : pystr) (fs : gmap pystr file) : option pystr :=
  match fs !! path with
  | Some (Text t) => Some (universal_newlines t)
  | Some Unreadable => None
  | None => None
  end.

(** Text the UTF-8 encoder accepts: no surrogate code point. *)
Definition utf8_encodable (s : pystr) : bool :=
  forallb (λ c, (c <? 55296)%N || (57343 <? c)%N) s.

(** [open(path, "w", encoding="UTF-8")] then [write(text)] then the close
    at the end of the [with] block. The result says whether all of it
    went through without an exception. Opening the file empties it before
    anything is written. *)
Definition fs_write (fault : write_fault) (path text : pystr) (fs : gmap pystr file)
  : bool * gmap pystr file :=
  match fault with
  | OpenFails => (false, fs)
  | NoFault =>
      if utf8_encodable text then (true, <[path := Text text]> fs)
      else (false, <[path := Text []]> fs)
  | WriteFails n =>
      if utf8_encodable text then (false, <[path := Text (take n text)]> fs)
      else (false, <[path := Text []]> fs)
  end.

(** ** [repr] and [str] *)

Section Repr.
Context `{Env}.

(** One character of [repr(s)] for a [str], inside the quote [quote]. *)
Definition repr_char (quote c : N) : pystr :=
  if (c =? quote)%N || (c =? backslash)%N then [backslash; c]
  else if (c =? 9)%N then lit "\t"
  else if (c =? 10)%N then lit "\n"
  else if (c =? 13)%N then lit "\r"
  else if (c <? 32)%N || (c =? 127)%N then lit "\x" ++ hex 2 c
  else if (c <? 127)%N then [c]
  else if isprintable c then [c]
  else if (c <=? 255)%N then lit "\x" ++ hex 2 c
  else if (c <=? 65535)%N then lit "\u" ++ hex 4 c
  else lit "\U" ++ hex 8 c.

Definition repr_str (s : pystr) : pystr :=
  let quote :=
    if bool_decide (squote ∈ s) && negb (bool_decide (dquote ∈ s)) then dquote else squote in
  [quote] ++ flat_map (repr_char quote) s ++ [quote].

Fixpoint py_repr (v : pyval) : pystr :=
  match v with
  | PyNone => lit "None"
  | PyBool true => lit "True"
  | PyBool false => lit "False"
  | PyInt z => str_of_Z z
  | PyStr s => repr_str s
  | PyList l => lit "[" ++ join (lit ", ") (map py_repr l) ++ lit "]"
  | PyDict d =>
      lit "{" ++
      join (lit ", ") (map (λ kv, repr_str (fst kv) ++ lit ": " ++ py_repr (snd kv)) d) ++
      lit "}"
  end.

(** [str(v)], which is also what an f-string field [{v}] prints. *)
Definition py_str (v : pyval) : pystr :=
  match v with
  | PyStr s => s
  | _ => py_repr v
  end.

End Repr.

(** ** [json.dumps] *)

(** One character inside a JSON string, as [json.dumps] writes it with its
    default [ensure_ascii=True]: printable ASCII stays, the rest is escaped. *)
Definition json_escape_char (c : N) : pystr :=
  if (c =? dquote)%N then [backslash; dquote]
  else if (c =? backslash)%N then [backslash; backslash]
  else if (32 <=? c)%N && (c <=? 126)%N then [c]
  else if (c =? 8)%N then lit "\b"
  else if (c =? 12)%N then lit "\f"
  else if (c =? 10)%N then lit "\n"
  else if (c =? 13)%N then lit "\r"
  else if (c =? 9)%N then lit "\t"
  else if (c <? 65536)%N then lit "\u" ++ hex 4 c
  else
    let n := (c - 65536)%N in
    lit "\u" ++ hex 4 (55296 + (n / 1024) mod 1024)%N ++
    lit "\u" ++ hex 4 (56320 + n mod 1024)%N.

Definition json_string (s : pystr) : pystr :=
  [dquote] ++ flat_map json_escape_char s ++ [dquote].

(** [json.dumps(v)] with the default separators [", "] and [": "]. *)
Fixpoint json_dumps (v : pyval) : pystr :=
  match v with
  | PyNone => lit "null"
  | PyBool true => lit "true"
  | PyBool false => lit "false"
  | PyInt z => str_of_Z z
  | PyStr s => json_string s
  | PyList l => lit "[" ++ join (lit ", ") (map json_dumps l) ++ lit "]"
  | PyDict d =>
      lit "{" ++
      join (lit ", ") (map (λ kv, json_string (fst kv) ++ lit ": " ++ json_dumps (snd kv)) d) ++
      lit "}"
  end.

(** Printable ASCII, the alphabet of what [json.dumps] writes. *)
Definition is_printable (c : N) : bool := (32 <=? c)%N && (c <=? 126)%N.

Definition printable (s : pystr) : bool := forallb is_printable s.

(** Text without a carriage return: universal newlines leave it alone. *)
Definition no_cr (s : pystr) : bool := forallb (λ c, negb (c =? 13)%N) s.

(** Induction on values that reaches inside lists and dicts. *)
Fixpoint pyval_nested_ind (P : pyval → Prop)
    (HNone : P PyNone) (HBool : ∀ b, P (PyBool b)) (HInt : ∀ z, P (PyInt z))
    (HStr : ∀ s, P (PyStr s))
    (HList : ∀ l, Forall P l → P (PyList l))
    (HDict : ∀ d, Forall (λ kv, P (snd kv)) d → P (PyDict d))
    (v : pyval) {struct v} : P v :=
  match v with
  | PyNone => HNone
  | PyBool b => HBool b
  | PyInt z => HInt z
  | PyStr s => HStr s
  | PyList l =>
      HList l
        ((fix go (l : list pyval) : Forall P l :=
            match l with
            | [] => List.Forall_nil P
            | x :: r =>
                @List.Forall_cons _ P x r
                  (pyval_nested_ind P HNone HBool HInt HStr HList HDict x) (go r)
            end) l)
  | PyDict d =>
      HDict d
        ((fix go (d : pydict) : Forall (λ kv, P (snd kv)) d :=
            match d with
            | [] => List.Forall_nil _
            | kv :: r =>
                @List.Forall_cons _ (λ kv, P (snd kv)) kv r
                  (pyval_nested_ind P HNone HBool HInt HStr HList HDict (snd kv)) (go r)
            end) d)
  end.

(** ** The script *)

Definition CONTENT_LOCATION : pystr := lit "./".
Definition USER_ID : pystr := lit "brandonrozek".

(** One reshaped observation: the dict with the keys [id], [metadata] and
    [content] that [reformat_obs] builds. *)
Record obs_data := ObsData {
  obs_id : pystr;
  obs_metadata : pydict;
  obs_content : pystr
}.

Definition desired_fields : list pystr :=
  [ lit "quality_grade"; lit "identifications_most_agree";
    lit "species_guess"; lit "identifications_most_disagree";
    lit "captive"; lit "project_ids";
    lit "community_taxon_id"; lit "geojson";
    lit "owners_identification_from_vision";
    lit "identifications_count"; lit "obscured";
    lit "num_identification_agreements";
    lit "num_identification_disagreements";
    lit "place_guess"; lit "photos" ].

(** [findall(p, s)], collected in a list: the generator's loop, given as
    many rounds as [s] has positions (see [findall_loop_enough]). *)
Fixpoint findall_loop (fuel : nat) (p s : pystr) (i : Z) : list Z :=
  match fuel with
  | O => []
  | S fuel' =>
      if (i =? -1)%Z then []
      else i :: findall_loop fuel' p s (str_find p s (i + 1)%Z)
  end.

Definition findall (p s : pystr) : list Z :=
  findall_loop (length s + 2) p s (str_find p s 0%Z).

(** [l[i]] for a list of positions. *)
Definition list_item (l : list Z) (i : nat) : result Z :=
  match l !! i with
  | Some x => Ret x
  | None => Raise IndexError
  end.

Definition create_markdown_str (frontmatter : pydict) (content : pystr) : pystr :=
  lit "---" ++ nl ++
  json_dumps (PyDict frontmatter) ++ nl ++
  lit "---" ++ nl ++
  lit "{{< unsafe >}}" ++ nl ++
  content ++ nl ++
  lit "{{< /unsafe >}}" ++ nl.

Definition file_from_id (idnum : pystr) : pystr :=
  CONTENT_LOCATION ++ lit "/" ++ idnum ++ lit ".md".

Section Script.
Context `{Env}.

(** [reformat_obs(obsid, obs_json)]; every [obs_json[...]] may raise. *)
Definition reformat_obs (obsid obs_json : pyval) : result obs_data :=
  uri ← py_getitem obs_json (lit "uri");
  let metadata := dict_set (lit "syndication") uri [] in
  observed ← py_getitem obs_json (lit "time_observed_at");
  let metadata := dict_set (lit "date") observed metadata in
  taxon ← py_getitem obs_json (lit "taxon");
  name ← py_getitem taxon (lit "name");
  taxon' ← py_getitem obs_json (lit "taxon");
  common_name ← py_getitem taxon' (lit "preferred_common_name");
  let metadata :=
    dict_set (lit "taxon")
      (PyDict [(lit "name", name); (lit "common_name", common_name)]) metadata in
  metadata ← foldR (λ md key, v ← py_getitem obs_json key; Ret (dict_set key v md))
               desired_fields metadata;
  Ret (ObsData (py_str obsid) metadata []).

(** The value of [json.loads(response.read())['results']] inside its
    [try]: [None] when any step raises. *)
Definition results_of (body : option pyval) : option pyval :=
  match body with
  | Some j => match py_getitem j (lit "results") with Ret v => Some v | _ => None end
  | None => None
  end.

(** The same for [json.loads(response.read())['results'][0]]. *)
Definition results0_of (body : option pyval) : option pyval :=
  match results_of body with
  | Some r => match py_getitem0 r with Ret v => Some v | _ => None end
  | None => None
  end.

(** The URL of a listing page. *)
Definition listing_url (id_below : pystr) : pystr :=
  lit "https://api.inaturalist.org/v1/observations?order=desc&order_by=created_at&only_id=true&user_id="
  ++ USER_ID ++ id_below.

(** The URL of one observation. *)
Definition detail_url (id_num : pyval) : pystr :=
  lit "https://api.inaturalist.org/v1/observations/" ++ py_str id_num.

(** The [while] loop of [retrieve_obs_ids_from_server]; [server_data] is
    the list collected so far. The test [if server_data is None] of the
    source never fires ([server_data] is a list) and has no counterpart. *)
Fixpoint retrieve_obs_ids_loop (fuel : nat) (server_data : list pyval) : M (list pyval) :=
  match fuel with
  | O => λ w, (OutOfFuel, w)
  | S fuel' =>
      min_obs_id ← get_MIN_OBS_ID;
      positive ← lift (py_gt0 min_obs_id);
      let id_below := if positive : bool then lit "&id_below=" ++ py_str min_obs_id else [] in
      response ← urlopen (listing_url id_below);
      match response with
      | UrlError =>
          print (lit "Unable to grab observations from iNaturalist.");;
          sys_exit (-1)
      | Response body =>
          server_data_part ←
            match results_of body with
            | Some v => mret (Some v)
            | None => print (lit "Malformed JSON response from server.");; mret None
            end;
          match server_data_part with
          | Some (PyList page) =>
              if (length page =? 0)%nat then mret server_data
              else
                ids ← lift (mapR (λ d, py_getitem d (lit "id")) page);
                set_MIN_OBS_ID (List.last ids PyNone);;
                retrieve_obs_ids_loop fuel' (server_data ++ ids)
          | _ =>
              print (lit "Unexpected JSON response, should be of form list.");;
              sys_exit (-1)
          end
      end
  end.

Definition retrieve_obs_ids_from_server (fuel : nat) : M (list pyval) :=
  server_data ← retrieve_obs_ids_loop fuel [];
  print (lit "Parsed a total of " ++ str_of_Z (Z.of_nat (length server_data))
         ++ lit " ids from server");;
  mret server_data.

(** The [for] loop of [retrieve_data_from_server]. *)
Fixpoint retrieve_data_loop (server_ids : list pyval) (server_data : list obs_data)
  : M (list obs_data) :=
  match server_ids with
  | [] => mret server_data
  | id_num :: rest =>
      response ← urlopen (detail_url id_num);
      match response with
      | UrlError =>
          print (lit "Unable to grab observation " ++ py_str id_num ++ lit " from iNaturalist.");;
          retrieve_data_loop rest server_data
      | Response body =>
          match results0_of body with
          | None =>
              print (lit "Malformed JSON response for observation " ++ py_str id_num ++ lit ".");;
              retrieve_data_loop rest server_data
          | Some part =>
              server_data_part ← lift (reformat_obs id_num part);
              retrieve_data_loop rest (server_data ++ [server_data_part])
          end
      end
  end.

Definition retrieve_data_from_server (fuel : nat) : M (list obs_data) :=
  server_ids ← retrieve_obs_ids_from_server fuel;
  server_data ← retrieve_data_loop server_ids [];
  print (lit "Successfully obtained " ++ str_of_Z (Z.of_nat (length server_data))
         ++ lit " observations from the server.");;
  mret server_data.

(** [json_contents] after [if not isinstance(json_contents, dict)]. *)
Definition dict_or_none (o : option pyval) : option pydict :=
  match o with
  | Some (PyDict d) => Some d
  | _ => None
  end.

(** [hugo_markdown_to_json(markdown_contents)]: [None], or the pair of the
    front matter (a dict or [None]) and the text between the wrappers. *)
Definition hugo_markdown_to_json (markdown_contents : pystr)
  : result (option (option pydict * pystr)) :=
  let front_matter_indices := findall (lit "---") markdown_contents in
  if (length front_matter_indices <? 2)%nat then Ret None
  else
    i0 ← list_item front_matter_indices 0;
    i1 ← list_item front_matter_indices 1;
    let front_matter := py_slice markdown_contents (i0 + 3)%Z i1 in
    let json_contents := dict_or_none (json_loads front_matter) in
    let html_contents := py_slice markdown_contents (i1 + 19)%Z (-17)%Z in
    Ret (Some (json_contents, html_contents)).

(** [read_hugo_markdown(idnum)]: whatever raises inside the [try], the
    unpacking of a [None] included, ends in [return None]. *)
Definition read_hugo_markdown (idnum : pystr) (w : world) : option (option pydict * pystr) :=
  match fs_read (file_from_id idnum) (files w) with
  | None => None
  | Some text =>
      match hugo_markdown_to_json text with
      | Ret (Some (frontmatter, contents)) => Some (frontmatter, contents)
      | _ => None
      end
  end.

(** [write_markdown(id_num, frontmatter, contents)]. *)
Definition write_markdown (id_num : pystr) (frontmatter : pydict) (contents : pystr) : M unit :=
  λ w,
    let '(ok, fs) :=
      fs_write (disk (nwrites w)) (file_from_id id_num)
        (create_markdown_str frontmatter contents) (files w) in
    let w' := after_write fs w in
    if ok then (Ret (), w') else print (lit "Failed to write " ++ id_num) w'.

(** [Path(fname).stem] for an entry that [glob(CONTENT_LOCATION + "/*.md")]
    lists. The store is keyed by the paths [file_from_id] builds, so the
    entry of a stem is [file_from_id stem]; [glob] lists it when the stem is
    not empty, has no slash and does not start with a dot (hidden names are
    skipped). *)
Definition path_stem (path : pystr) : option pystr :=
  let prefix := CONTENT_LOCATION ++ lit "/" in
  let name := drop (length prefix) path in
  let stem := take (length name - 3) name in
  if bool_decide (path = prefix ++ stem ++ lit ".md")
     && negb (bool_decide (stem = []))
     && negb (bool_decide (47%N ∈ stem))
     && negb (starts_with (lit ".") stem)
  then Some stem else None.

(** [saved_ids], the set built from [glob] at start-up. *)
Definition saved_ids_of (fs : gmap pystr file) : gset pystr :=
  list_to_set (omap path_stem (elements (dom fs))).

(** One round of the module-level [for data in server_data] loop. *)
Definition reconcile_one (saved_ids : gset pystr) (data : obs_data) : M unit :=
  let id_num := obs_id data in
  if bool_decide (id_num ∈ saved_ids) then
    λ w,
      match read_hugo_markdown id_num w with
      | None => (Raise TypeError, w)
      | Some (saved_fm, saved_content) =>
          match saved_fm with
          | None => print (lit "Unable to read saved data id " ++ id_num) w
          | Some fm =>
              if negb (py_eq (PyDict fm) (PyDict (obs_metadata data))) then
                (print (lit "Updating id " ++ id_num);;
                 write_markdown id_num (obs_metadata data) (obs_content data)) w
              else (Ret (), w)
          end
      end
  else
    print (lit "Creating id " ++ id_num);;
    write_markdown id_num (obs_metadata data) (obs_content data).

Fixpoint reconcile (saved_ids : gset pystr) (server_data : list obs_data) : M unit :=
  match server_data with
  | [] => mret ()
  | data :: rest => reconcile_one saved_ids data;; reconcile saved_ids rest
  end.

(** The module body, from [saved_filenames = glob(...)] to
    [print("Completed")]. *)
Definition main (fuel : nat) : M unit :=
  λ w,
    let saved_ids := saved_ids_of (files w) in
    (server_data ← retrieve_data_from_server fuel;
     reconcile saved_ids server_data;;
     print (lit "Completed")) w.

End Script.

(** The state in which the script starts: nothing requested or printed
    yet, [MIN_OBS_ID = -1], and the content directory as given. *)
Definition initial_world (fs : gmap pystr file) : world :=
  World [] [] fs 0 (PyInt (-1)).

(** ** A reference [json.loads]

    A parser for JSON text after CPython's scanner (strict mode), used to
    run the script on concrete files. Number literals with a fraction or an
    exponent, [NaN] and [Infinity] denote floats and are refused here. *)

Definition is_ws (c : N) : bool :=
  (c =? 32)%N || (c =? 9)%N || (c =? 10)%N || (c =? 13)%N.

Fixpoint skip_ws (s : pystr) : pystr :=
  match s with
  | [] => []
  | c :: r => if is_ws c then skip_ws r else s
  end.

Definition is_digit (c : N) : bool := (48 <=? c)%N && (c <=? 57)%N.

Definition hexval (c : N) : option N :=
  if is_digit c then Some (c - 48)%N
  else if (97 <=? c)%N && (c <=? 102)%N then Some (c - 87)%N
  else if (65 <=? c)%N && (c <=? 70)%N then Some (c - 55)%N
  else None.

(** The four hexadecimal digits of a [\uXXXX] escape. *)
Definition hex4 (s : pystr) : option (N * pystr) :=
  match s with
  | a :: b :: c :: d :: r =>
      x ← hexval a; y ← hexval b; z ← hexval c; t ← hexval d;
      Some ((((x * 16 + y) * 16 + z) * 16 + t)%N, r)
  | _ => None
  end.

Definition simple_escape (e : N) : option N :=
  if (e =? dquote)%N then Some dquote
  else if (e =? backslash)%N then Some backslash
  else if (e =? 47)%N then Some 47%N
  else if (e =? 98)%N then Some 8%N
  else if (e =? 102)%N then Some 12%N
  else if (e =? 110)%N then Some 10%N
  else if (e =? 114)%N then Some 13%N
  else if (e =? 116)%N then Some 9%N
  else None.

Definition is_high_surrogate (u : N) : bool := (55296 <=? u)%N && (u <=? 56319)%N.
Definition is_low_surrogate (u : N) : bool := (56320 <=? u)%N && (u <=? 57343)%N.

(** The body of a string, after its opening quote. *)
Fixpoint scan_string (fuel : nat) (s acc : pystr) : option (pystr * pystr) :=
  match fuel with
  | O => None
  | S f =>
      match s with
      | [] => None
      | c :: r =>
          if (c =? dquote)%N then Some (rev acc, r)
          else if (c =? backslash)%N then
            match r with
            | [] => None
            | e :: r1 =>
                if (e =? 117)%N then
                  '(u, r2) ← hex4 r1;
                  if is_high_surrogate u && (6 <? length r2)%nat
                     && starts_with (lit "\u") r2
                  then
                    '(u2, r4) ← hex4 (drop 2 r2);
                    if is_low_surrogate u2
                    then scan_string f r4
                           ((65536 + (u - 55296) * 1024 + (u2 - 56320))%N :: acc)
                    else scan_string f r2 (u :: acc)
                  else scan_string f r2 (u :: acc)
                else
                  x ← simple_escape e;
                  scan_string f r1 (x :: acc)
            end
          else if (c <? 32)%N then None
          else scan_string f r (c :: acc)
      end
  end.

Fixpoint scan_digits (s : pystr) (acc : N) : N * pystr :=
  match s with
  | [] => (acc, [])
  | c :: r => if is_digit c then scan_digits r (acc * 10 + (c - 48))%N else (acc, s)
  end.

(** An [int] literal; [None] for anything else, floats included. *)
Definition scan_int (s : pystr) : option (Z * pystr) :=
  let '(neg, s1) :=
    match s with
    | c :: r => if (c =? 45)%N then (true, r) else (false, s)
    | [] => (false, s)
    end in
  match s1 with
  | [] => None
  | c :: r =>
      let '(n, s2) :=
        if (c =? 48)%N then (Some 0%N, r)
        else if is_digit c then
          let '(n, s2) := scan_digits s1 0 in (Some n, s2)
        else (None, s1) in
      match n with
      | None => None
      | Some n =>
          let fraction :=
            match s2 with
            | d :: e :: _ => (d =? 46)%N && is_digit e
            | _ => false
            end in
          let exponent :=
            match s2 with
            | d :: r2 =>
                ((d =? 101)%N || (d =? 69)%N) &&
                match r2 with
                | g :: r3 =>
                    if (g =? 45)%N || (g =? 43)%N
                    then match r3 with h :: _ => is_digit h | [] => false end
                    else is_digit g
                | [] => false
                end
            | [] => false
            end in
          if fraction || exponent then None
          else Some (if neg : bool then (- Z.of_N n)%Z else Z.of_N n, s2)
      end
  end.

Fixpoint parse_value (fuel : nat) (s : pystr) : option (pyval * pystr) :=
  match fuel with
  | O => None
  | S f =>
      match s with
      | [] => None
      | c :: r =>
          if (c =? dquote)%N then
            '(str, r') ← scan_string (S (length r)) r [];
            Some (PyStr str, r')
          else if (c =? 123)%N then
            match skip_ws r with
            | [] => None
            | d :: r' =>
                if (d =? 125)%N then Some (PyDict [], r')
                else parse_members f (d :: r') []
            end
          else if (c =? 91)%N then
            match skip_ws r with
            | [] => None
            | d :: r' =>
                if (d =? 93)%N then Some (PyList [], r')
                else parse_elements f (d :: r') []
            end
          else if starts_with (lit "null") s then Some (PyNone, drop 4 s)
          else if starts_with (lit "true") s then Some (PyBool true, drop 4 s)
          else if starts_with (lit "false") s then Some (PyBool false, drop 5 s)
          else
            '(z, r') ← scan_int s;
            Some (PyInt z, r')
      end
  end
with parse_elements (fuel : nat) (s : pystr) (acc : list pyval) : option (pyval * pystr) :=
  match fuel with
  | O => None
  | S f =>
      '(v, r) ← parse_value f s;
      match skip_ws r with
      | [] => None
      | c :: r' =>
          if (c =? 93)%N then Some (PyList (rev (v :: acc)), r')
          else if (c =? 44)%N then parse_elements f (skip_ws r') (v :: acc)
          else None
      end
  end
with parse_members (fuel : nat) (s : pystr) (acc : pydict) : option (pyval * pystr) :=
  match fuel with
  | O => None
  | S f =>
      match s with
      | [] => None
      | q :: r0 =>
          if (q =? dquote)%N then
            '(k, r) ← scan_string (S (length r0)) r0 [];
            match skip_ws r with
            | [] => None
            | colon :: r1 =>
                if (colon =? 58)%N then
                  '(v, r2) ← parse_value f (skip_ws r1);
                  let acc := dict_set k v acc in
                  match skip_ws r2 with
                  | [] => None
                  | c :: r' =>
                      if (c =? 125)%N then Some (PyDict acc, r')
                      else if (c =? 44)%N then parse_members f (skip_ws r') acc
                      else None
                  end
                else None
            end
          else None
      end
  end.

Definition json_loads_ref (s : pystr) : option pyval :=
  if starts_with [65279%N] s then None
  else
    match parse_value (2 * length s + 2) (skip_ws s) with
    | Some (v, r) => if bool_decide (skip_ws r = []) then Some v else None
    | None => None
    end.

(** [str.isprintable] up to U+00FF; above, only the surrogates are taken
    as not printable. *)
Definition isprintable_ref (c : N) : bool :=
  negb (((128 <=? c)%N && (c <=? 160)%N) || (c =? 173)%N
        || ((55296 <=? c)%N && (c <=? 57343)%N)).

(** The environment of a run against a given network and disk. *)
Definition ref_env (network : nat → http_result) (faults : nat → write_fault) : Env :=
  {| net := network; disk := faults;
     json_loads := json_loads_ref; isprintable := isprintable_ref |}.

(** ** Notions used in the statements *)

(** The positions at which [p] starts in a text, lowest first; [s] is the
    text from index [i] on. Overlapping occurrences all count. *)
Fixpoint occurrences_from (p s : pystr) (i : nat) : list nat :=
  (if starts_with p s then [i] else []) ++
  match s with
  | [] => []
  | _ :: s' => occurrences_from p s' (S i)
  end.

Definition occurrences (p s : pystr) : list nat := occurrences_from p s 0.

(** The occurrences at index [k] or later. *)
Definition remaining (p s : pystr) (k : nat) : list nat :=
  if (k <=? length s)%nat then occurrences_from p (drop k s) k else [].

(** The answer [r] is a listing page with the ids [ids]: a JSON object
    whose [results] is a list of objects, each with an [id]. *)
Definition is_page (r : http_result) (ids : list pyval) : Prop :=
  ∃ body page,
    r = Response (Some body) ∧
    py_getitem body (lit "results") = Ret (PyList page) ∧
    mapR (λ d, py_getitem d (lit "id")) page = Ret ids.

(** The answer to a listing request is a failure: the request failed, or
    the body is not JSON, or it has no [results], or they are not a list. *)
Definition listing_failure (r : http_result) : Prop :=
  match r with
  | UrlError => True
  | Response body =>
      match results_of body with
      | Some (PyList _) => False
      | _ => True
      end
  end.

(** An id that [MIN_OBS_ID > 0] can be asked of: an [int] (or a [bool]). *)
Definition is_number (v : pyval) : Prop :=
  match v with
  | PyInt _ | PyBool _ => True
  | _ => False
  end.

(** The detail document an answer carries, if any. *)
Definition parsed_detail (r : http_result) : option pyval :=
  match r with
  | UrlError => None
  | Response body => results0_of body
  end.

(** [o[k1][k2]...], or [None] where Python raises. *)
Fixpoint lookup_path (o : pyval) (path : list pystr) : option pyval :=
  match path with
  | [] => Some o
  | k :: rest =>
      match o with
      | PyDict d =>
          match dict_get k d with
          | Some v => lookup_path v rest
          | None => None
          end
      | _ => None
      end
  end.

(** The fields [reformat_obs] reads, in the order in which it reads them. *)
Definition required_fields : list (list pystr) :=
  [ [lit "uri"]; [lit "time_observed_at"];
    [lit "taxon"; lit "name"]; [lit "taxon"; lit "preferred_common_name"] ]
  ++ map (λ k, [k]) desired_fields.

(** The keys of the metadata [reformat_obs] builds, in insertion order. *)
Definition metadata_keys : list pystr :=
  [lit "syndication"; lit "date"; lit "taxon"] ++ desired_fields.

(** The lines a failed listing request leaves on standard output. *)
Definition listing_failure_lines (r : http_result) : list pystr :=
  match r with
  | UrlError => [lit "Unable to grab observations from iNaturalist."]
  | Response body =>
      match results_of body with
      | None => [lit "Malformed JSON response from server.";
                 lit "Unexpected JSON response, should be of form list."]
      | Some _ => [lit "Unexpected JSON response, should be of form list."]
      end
  end.

(** [obs[k1][k2]...] where the lookup succeeds. *)
Definition field (obs : pyval) (path : list pystr) : pyval :=
  default PyNone (lookup_path obs path).

(** The metadata [reformat_obs] builds from a document that has every
    required field: three renamed entries, then the desired fields. *)
Definition reshaped_metadata (obs : pyval) : pydict :=
  [ (lit "syndication", field obs [lit "uri"]);
    (lit "date", field obs [lit "time_observed_at"]);
    (lit "taxon",
     PyDict [ (lit "name", field obs [lit "taxon"; lit "name"]);
              (lit "common_name", field obs [lit "taxon"; lit "preferred_common_name"]) ]) ]
  ++ map (λ k, (k, field obs [k])) desired_fields.

(** A file name that [glob] lists for [*.md] and whose stem is the id: not
    empty, no slash, no leading dot. *)
Definition plain_name (s : pystr) : Prop :=
  s ≠ [] ∧ (47%N ∉ s) ∧ starts_with (lit ".") s = false.

(** The characters of [str(z)] for an [int]: the minus sign and digits. *)
Definition id_char (c : N) : bool := (c =? 45)%N || is_digit c.

(** The state [w] with the content directory [fs]. *)
Definition with_files (fs : gmap pystr file) (w : world) : world :=
  World (requests w) (stdout w) fs (nwrites w) (MIN_OBS_ID w).

(** The lines printed from [w] to [w'] do not include the closing
    [Completed]. *)
Definition no_completed (w w' : world) : Prop :=
  ∃ lines, stdout w' = stdout w ++ lines ∧ lit "Completed" ∉ lines.

(** A line that announces a write: [Creating id ...] or [Updating id ...]. *)
Definition write_notice (line : pystr) : bool :=
  starts_with (lit "Creating id ") line || starts_with (lit "Updating id ") line.

(** From [w] to [w'] the script opened a file for writing as many times as
    it printed a line that announces a write. *)
Definition announced (w w' : world) : Prop :=
  ∃ lines, stdout w' = stdout w ++ lines ∧
           nwrites w' = nwrites w + length (filter (λ l, write_notice l = true) lines).

(** The text on standard output: [print] writes its text and a newline. *)
Definition output (w : world) : pystr := flat_map (λ line, line ++ nl) (stdout w).

(** The lines of a text, cut at the newlines; [cur] is the line being
    read. Text after the last newline counts as a line when it is not
    empty. *)
Fixpoint split_lines (text cur : pystr) : list pystr :=
  match text with
  | [] => match cur with [] => [] | _ => [cur] end
  | c :: rest =>
      if (c =? 10)%N then cur :: split_lines rest []
      else split_lines rest (cur ++ [c])
  end.

(** The lines of standard output. *)
Definition output_lines (w : world) : list pystr := split_lines (output w) [].

(** From [w] to [w'] the script printed only texts of printable ASCII:
    texts that every encoder of standard output accepts and that are one
    line each. *)
Definition printable_output (w w' : world) : Prop :=
  ∃ lines, stdout w' = stdout w ++ lines ∧ Forall (λ l, printable l = true) lines.


Section Notions.
Context `{Env}.

(** The [id_below] part of the URL that follows a page ending in [last_id]. *)
Definition id_below_of (last_id : pyval) : pystr :=
  match py_gt0 last_id with
  | Ret true => lit "&id_below=" ++ py_str last_id
  | _ => []
  end.

(** The line printed when the detail of [id_num] cannot be had. *)
Definition failure_line (id_num : pyval) (r : http_result) : pystr :=
  match r with
  | UrlError => lit "Unable to grab observation " ++ py_str id_num ++ lit " from iNaturalist."
  | Response _ => lit "Malformed JSON response for observation " ++ py_str id_num ++ lit "."
  end.

(** The state after the listing loop went through the pages [pages]. *)
Fixpoint after_pages (pages : list (list pyval)) (w : world) : world :=
  match pages with
  | [] => w
  | ids :: rest =>
      after_pages rest
        (set_cursor (List.last ids PyNone)
           (add_request (listing_url (id_below_of (MIN_OBS_ID w))) w))
  end.

(** The pages the network sends, from request [k] on: each has ids and
    ends in a number. *)
Definition pages_from (k : nat) (pages : list (list pyval)) : Prop :=
  ∀ i ids, pages !! i = Some ids →
    is_page (net (k + i)) ids ∧ ids ≠ [] ∧ is_number (List.last ids PyNone).


(** The ids whose detail document arrived, each with its document, when
    the first of [ids] is asked for with request number [k]. *)
Fixpoint fetched_details (k : nat) (ids : list pyval) : list (pyval * pyval) :=
  match ids with
  | [] => []
  | id_num :: rest =>
      match parsed_detail (net k) with
      | Some obs => [(id_num, obs)]
      | None => []
      end ++ fetched_details (S k) rest
  end.

(** A record that survives the trip through a file: its content is
    written and read back unchanged, the JSON text of its metadata has no
    [---] in it, and [json.loads] makes of that text a dict equal to the
    metadata. *)
Definition round_trips (data : obs_data) : Prop :=
  utf8_encodable (obs_content data) = true ∧
  no_cr (obs_content data) = true ∧
  occurrences (lit "---") (json_dumps (PyDict (obs_metadata data))) = [] ∧
  ∃ stored,
    json_loads (nl ++ json_dumps (PyDict (obs_metadata data)) ++ nl) = Some (PyDict stored) ∧
    py_eq (PyDict stored) (PyDict (obs_metadata data)) = true.

(** A record the reconciler leaves alone once its id is among the saved
    ids: the stored file reads back with equal metadata, or with front
    matter that is not a JSON object. *)
Definition settled (data : obs_data) (w : world) : Prop :=
  match read_hugo_markdown (obs_id data) w with
  | Some (Some fm, _) => py_eq (PyDict fm) (PyDict (obs_metadata data)) = true
  | Some (None, _) => True
  | None => False
  end.

(** An id whose text is printable ASCII, as the text of every integer is:
    a line that shows it can be printed, and is one line. *)
Definition printable_id (v : pyval) : Prop := printable (py_str v) = true.


End Notions.

(** ** Sample data for the closed examples *)

(** A listing page as the service sends it. *)
Definition listing_body (ids : list Z) : pyval :=
  PyDict [ (lit "total_results", PyInt (Z.of_nat (length ids)));
           (lit "results", PyList (map (λ i, PyDict [(lit "id", PyInt i)]) ids)) ].

(** A detail document with every field [reformat_obs] reads. *)
Definition sample_obs (grade : pystr) : pyval :=
  PyDict
    ([ (lit "uri", PyStr (lit "https://www.inaturalist.org/observations/1"));
       (lit "time_observed_at", PyStr (lit "2023-05-01T10:00:00-04:00"));
       (lit "taxon", PyDict [ (lit "name", PyStr (lit "Quercus rubra"));
                              (lit "preferred_common_name", PyStr (lit "northern red oak")) ]);
       (lit "quality_grade", PyStr grade) ]
     ++ map (λ k, (k, PyNone)) (drop 1 desired_fields)).

Definition detail_body (obs : pyval) : pyval :=
  PyDict [ (lit "total_results", PyInt 1); (lit "results", PyList [obs]) ].

(** A network that gives the answers of [script] in turn and fails after. *)
Definition scripted (script : list http_result) (n : nat) : http_result :=
  nth n script UrlError.

Definition no_fault (n : nat) : write_fault := NoFault.

(** Two pages of ids, then the empty page. *)
Definition env_two_pages : Env :=
  ref_env (scripted [ Response (Some (listing_body [31%Z; 30%Z]));
                      Response (Some (listing_body [7%Z]));
                      Response (Some (listing_body [])) ]) no_fault.

(** A page that ends in the id 0, then the empty page. *)
Definition env_id_zero : Env :=
  ref_env (scripted [ Response (Some (listing_body [0%Z]));
                      Response (Some (listing_body [])) ]) no_fault.

(** A document without the field [k]. *)
Definition without (k : pystr) (obs : pyval) : pyval :=
  match obs with
  | PyDict d => PyDict (filter (λ kv, fst kv ≠ k) d)
  | _ => obs
  end.

(** Two ids; the detail of the second has no [photos]. *)
Definition env_missing_photos : Env :=
  ref_env (scripted [ Response (Some (listing_body [5%Z; 6%Z]));
                      Response (Some (listing_body []));
                      Response (Some (detail_body (sample_obs (lit "research"))));
                      Response (Some (detail_body
                                        (without (lit "photos") (sample_obs (lit "casual"))))) ])
    no_fault.

(** The single id 123 and its detail. *)
Definition env_single_record : Env :=
  ref_env (scripted [ Response (Some (listing_body [123%Z]));
                      Response (Some (listing_body []));
                      Response (Some (detail_body (sample_obs (lit "research")))) ])
    no_fault.

(** Two ids; the request for the detail of the first fails. *)
Definition env_detail_down : Env :=
  ref_env (scripted [ Response (Some (listing_body [456%Z; 123%Z]));
                      Response (Some (listing_body []));
                      UrlError;
                      Response (Some (detail_body (sample_obs (lit "research")))) ])
    no_fault.

(** Two ids with their details. *)
Definition env_two_records : Env :=
  ref_env (scripted [ Response (Some (listing_body [123%Z; 124%Z]));
                      Response (Some (listing_body []));
                      Response (Some (detail_body (sample_obs (lit "research"))));
                      Response (Some (detail_body (sample_obs (lit "casual")))) ])
    no_fault.

(** No network; the disk is sound, or every write fails after the file
    was opened. *)
Definition env_quiet : Env := ref_env (scripted []) no_fault.


(** A store with the single file [.//<id>.md]. *)
Definition store_with (id_num text : pystr) : gmap pystr file :=
  {[ file_from_id id_num := Text text ]}.

(** A record with two metadata keys, and the same metadata with the keys
    in the other order, and with one value changed. *)
Definition data_small : obs_data :=
  ObsData (lit "7") [(lit "a", PyInt 1); (lit "b", PyInt 2)] [].

Definition metadata_swapped : pydict := [(lit "b", PyInt 2); (lit "a", PyInt 1)].

Definition metadata_changed : pydict := [(lit "a", PyInt 1); (lit "b", PyInt 3)].

(** Metadata with the delimiter inside a string. *)
Definition metadata_dashes : pydict := [(lit "place_guess", PyStr (lit "A --- B"))].

(** One page of ids, then a request that fails. *)
Definition env_listing_down : Env :=
  ref_env (scripted [ Response (Some (listing_body [9%Z; 8%Z])); UrlError ]) no_fault.

(** A service that answers every listing request with the same page. *)
Definition env_endless : Env :=
  ref_env (λ _, Response (Some (listing_body [5%Z]))) no_fault.

(** A page whose second entry has no [id]. *)
Definition env_entry_without_id : Env :=
  ref_env (scripted [ Response (Some (PyDict [(lit "results",
                        PyList [PyDict [(lit "id", PyInt 4)]; PyDict []])])) ]) no_fault.

(** A page whose ids are strings. *)
Definition env_string_ids : Env :=
  ref_env (scripted [ Response (Some (PyDict [(lit "results",
                        PyList [PyDict [(lit "id", PyStr (lit "12"))]])])) ]) no_fault.

(** One page of ids, then an answer that is not JSON. *)
Definition env_listing_garbled : Env :=
  ref_env (scripted [ Response (Some (listing_body [9%Z])); Response None ]) no_fault.

(** A detail document whose [taxon] is [null]. *)
Definition obs_without_taxon : pyval :=
  PyDict [ (lit "uri", PyStr (lit "https://www.inaturalist.org/observations/2"));
           (lit "time_observed_at", PyNone);
           (lit "taxon", PyNone) ].

(** A stored file whose front matter is a JSON list. *)
Definition text_with_list : pystr :=
  lit "---" ++ nl ++ lit "[1, 2]" ++ nl ++ lit "---" ++ nl ++
  lit "{{< unsafe >}}" ++ nl ++ nl ++ lit "{{< /unsafe >}}" ++ nl.







(** * Properties *)

Arguments lit : simpl never.
Arguments listing_url : simpl never.
Arguments detail_url : simpl never.
Arguments py_str : simpl never.
Arguments str_of_Z : simpl never.
Arguments json_dumps : simpl never.
Arguments create_markdown_str : simpl never.
Arguments file_from_id : simpl never.
Arguments findall : simpl never.
Arguments py_slice : simpl never.

(** A line of the script that starts otherwise is not [Completed]. *)
Ltac not_completed :=
  let H := fresh in
  intros H; apply (f_equal (take 2)) in H; vm_compute in H; discriminate H.

(** The ids a closed run lists are integers, hence printable. *)
Ltac listed_ids_printable :=
  let ids := fresh "ids" in
  let w1 := fresh "w1" in
  let Heq := fresh "Heq" in
  intros ids w1 Heq; vm_compute in Heq; injection Heq as <- <-;
  repeat constructor.


(** ** [str.find] and [findall] *)

Lemma find_from_occurrences p s i :
  find_from p s (Z.of_nat i) =
  match occurrences_from p s i with
  | [] => (-1)%Z
  | j :: _ => Z.of_nat j
  end.
Proof.
  revert i. induction s as [|c s IH]; intros i; simpl.
  - destruct (starts_with p []); reflexivity.
  - destruct (starts_with p (c :: s)); simpl; [reflexivity|].
    rewrite <- IH. f_equal. lia.
Qed.

Lemma occurrences_from_length p s i : length (occurrences_from p s i) ≤ S (length s).
Proof.
  revert i. induction s as [|c s IH]; intros i; simpl.
  - destruct (starts_with p []); simpl; lia.
  - specialize (IH (S i)). destruct (starts_with p (c :: s)); simpl; lia.
Qed.

(** After its first element [j], the list of occurrences goes on with the
    occurrences past [j]. *)
Lemma occurrences_from_cons p s i j rest :
  occurrences_from p s i = j :: rest →
  i ≤ j ∧ j ≤ i + length s ∧
  rest = if (j - i <? length s)%nat
         then occurrences_from p (drop (S (j - i)) s) (S j) else [].
Proof.
  revert i. induction s as [|c s IH]; intros i; simpl.
  - destruct (starts_with p []); simpl; [|discriminate].
    intros [= <- <-]. replace (i - i) with 0 by lia. simpl. repeat split; lia.
  - destruct (starts_with p (c :: s)); simpl.
    + intros [= <- <-]. replace (i - i) with 0 by lia. simpl. repeat split; lia.
    + intros Hocc. destruct (IH _ Hocc) as (Hle & Hub & ->).
      split; [lia|]. split; [lia|].
      replace (j - i) with (S (j - S i)) by lia. simpl.
      destruct (j - S i <? length s)%nat eqn:Hlt.
      * replace (S (j - S i) <? S (length s))%nat with true
          by (symmetry; apply Nat.ltb_lt; apply Nat.ltb_lt in Hlt; lia).
        reflexivity.
      * replace (S (j - S i) <? S (length s))%nat with false
          by (symmetry; apply Nat.ltb_ge; apply Nat.ltb_ge in Hlt; lia).
        reflexivity.
Qed.

(** Membership in [occurrences_from]: exactly the positions at which [p]
    starts. *)
Lemma occurrences_from_spec p s i j :
  j ∈ occurrences_from p s i ↔
  i ≤ j ∧ j ≤ i + length s ∧ starts_with p (drop (j - i) s) = true.
Proof.
  revert i. induction s as [|c s IH]; intros i; simpl.
  - rewrite drop_nil. destruct (starts_with p []) eqn:Hp; simpl.
    + rewrite list_elem_of_singleton. split; [intros ->; repeat split; lia|].
      intros (? & ? & _). lia.
    + rewrite elem_of_nil. split; [tauto|]. intros (_ & _ & ?). discriminate.
  - rewrite elem_of_app, IH. split.
    + intros [Hhd | (Hle & Hub & Hst)].
      * destruct (starts_with p (c :: s)) eqn:Hp.
        -- apply list_elem_of_singleton in Hhd as ->.
           replace (i - i) with 0 by lia. simpl. repeat split; try lia. exact Hp.
        -- apply elem_of_nil in Hhd. tauto.
      * split; [lia|]. split; [lia|].
        replace (j - i) with (S (j - S i)) by lia. exact Hst.
    + intros (Hle & Hub & Hst).
      destruct (decide (j = i)) as [->|Hne].
      * left. replace (i - i) with 0 in Hst by lia. simpl in Hst. rewrite Hst.
        apply list_elem_of_singleton. reflexivity.
      * right. split; [lia|]. split; [lia|].
        replace (j - i) with (S (j - S i)) in Hst by lia. exact Hst.
Qed.

Lemma str_find_remaining p s k :
  str_find p s (Z.of_nat k) =
  match remaining p s k with
  | [] => (-1)%Z
  | j :: _ => Z.of_nat j
  end.
Proof.
  unfold str_find, remaining.
  replace (Z.of_nat k <? 0)%Z with false by (symmetry; apply Z.ltb_ge; lia).
  destruct (k <=? length s)%nat eqn:Hk.
  - apply Nat.leb_le in Hk.
    replace (Z.of_nat (length s) <? Z.of_nat k)%Z with false
      by (symmetry; apply Z.ltb_ge; lia).
    rewrite Nat2Z.id. apply find_from_occurrences.
  - apply Nat.leb_gt in Hk.
    replace (Z.of_nat (length s) <? Z.of_nat k)%Z with true
      by (symmetry; apply Z.ltb_lt; lia).
    reflexivity.
Qed.

Lemma remaining_cons p s k j rest :
  remaining p s k = j :: rest → k ≤ j ∧ j ≤ length s ∧ rest = remaining p s (S j).
Proof.
  unfold remaining. destruct (k <=? length s)%nat eqn:Hk; [|discriminate].
  apply Nat.leb_le in Hk. intros Hocc.
  apply occurrences_from_cons in Hocc as (Hle & Hub & ->).
  rewrite length_drop in Hub. rewrite length_drop.
  split; [lia|]. split; [lia|].
  destruct (j - k <? length s - k)%nat eqn:Hlt.
  - apply Nat.ltb_lt in Hlt.
    replace (S j <=? length s)%nat with true by (symmetry; apply Nat.leb_le; lia).
    rewrite drop_drop. do 2 f_equal. lia.
  - apply Nat.ltb_ge in Hlt.
    replace (S j <=? length s)%nat with false by (symmetry; apply Nat.leb_gt; lia).
    reflexivity.
Qed.

Lemma remaining_length p s k : length (remaining p s k) ≤ S (length s) - k.
Proof.
  unfold remaining. destruct (k <=? length s)%nat eqn:Hk; simpl; [|lia].
  apply Nat.leb_le in Hk.
  pose proof (occurrences_from_length p (drop k s) k) as Hlen.
  rewrite length_drop in Hlen. lia.
Qed.

(** With more rounds than occurrences left, the generator's loop yields
    them all and stops by itself. *)
Lemma findall_loop_remaining p s fuel k :
  length (remaining p s k) < fuel →
  findall_loop fuel p s (str_find p s (Z.of_nat k)) = map Z.of_nat (remaining p s k).
Proof.
  revert k. induction fuel as [|fuel IH]; intros k Hfuel; [lia|].
  simpl. rewrite str_find_remaining.
  destruct (remaining p s k) as [|j rest] eqn:Hrem; [reflexivity|].
  replace (Z.of_nat j =? -1)%Z with false by (symmetry; apply Z.eqb_neq; lia).
  apply remaining_cons in Hrem as (_ & _ & ->).
  simpl. f_equal.
  replace (Z.of_nat j + 1)%Z with (Z.of_nat (S j)) by lia.
  apply IH. simpl in Hfuel. lia.
Qed.

Lemma findall_occurrences p s : findall p s = map Z.of_nat (occurrences p s).
Proof.
  unfold findall.
  change (occurrences p s) with (remaining p s 0).
  apply (findall_loop_remaining p s _ 0).
  pose proof (remaining_length p s 0). lia.
Qed.

(** The rounds [findall] gives its loop are enough: more change nothing. *)
Lemma findall_loop_enough p s fuel :
  length s + 2 ≤ fuel →
  findall_loop fuel p s (str_find p s 0) = findall p s.
Proof.
  intros Hfuel. rewrite findall_occurrences.
  change (occurrences p s) with (remaining p s 0).
  apply (findall_loop_remaining p s _ 0).
  pose proof (remaining_length p s 0). lia.
Qed.

(** A slice with bounds inside the text is the text between them. *)
Lemma py_slice_between s (a b : nat) :
  a ≤ b → b ≤ length s →
  py_slice s (Z.of_nat a) (Z.of_nat b) = take (b - a) (drop a s).
Proof.
  intros Hab Hb. unfold py_slice, slice_index.
  replace (Z.of_nat a <? 0)%Z with false by (symmetry; apply Z.ltb_ge; lia).
  replace (Z.of_nat b <? 0)%Z with false by (symmetry; apply Z.ltb_ge; lia).
  rewrite !Z.min_l by lia. rewrite Nat2Z.id. f_equal. lia.
Qed.

(** ** The delimiter inside a document *)

Lemma starts_with_dashes_app Y R :
  starts_with (lit "---") (Y ++ 10%N :: R) = starts_with (lit "---") Y.
Proof.
  change (lit "---") with [45%N; 45%N; 45%N].
  destruct Y as [|a [|b [|c Y]]]; cbn [starts_with app];
    repeat match goal with
           | |- context [(?x =? 45)%N] => destruct (x =? 45)%N
           end; reflexivity.
Qed.

Lemma occurrences_from_nil_shift p s i j :
  occurrences_from p s i = [] → occurrences_from p s j = [].
Proof.
  revert i j. induction s as [|c s IH]; intros i j; cbn [occurrences_from].
  - destruct (starts_with p []); [discriminate|reflexivity].
  - destruct (starts_with p (c :: s)); [discriminate|]. cbn [app]. apply IH.
Qed.

Lemma occurrences_from_no_match D R i :
  occurrences (lit "---") D = [] →
  occurrences_from (lit "---") (D ++ 10%N :: R) i =
  occurrences_from (lit "---") (10%N :: R) (i + length D).
Proof.
  unfold occurrences. revert i. induction D as [|d D IH]; intros i Hocc.
  - cbn [app length]. rewrite Nat.add_0_r. reflexivity.
  - cbn [length]. replace (i + S (length D)) with (S i + length D) by lia.
    rewrite <- IH.
    + rewrite <- app_comm_cons. cbn [occurrences_from].
      rewrite app_comm_cons, starts_with_dashes_app.
      cbn [occurrences_from] in Hocc.
      destruct (starts_with (lit "---") (d :: D)); [discriminate|]. reflexivity.
    + cbn [occurrences_from] in Hocc.
      destruct (starts_with (lit "---") (d :: D)); [discriminate|].
      eapply occurrences_from_nil_shift. exact Hocc.
Qed.

Lemma create_markdown_str_occurrences fm content :
  occurrences (lit "---") (json_dumps (PyDict fm)) = [] →
  ∃ rest, occurrences (lit "---") (create_markdown_str fm content)
          = 0 :: (length (json_dumps (PyDict fm)) + 5) :: rest.
Proof.
  intros Hocc. unfold create_markdown_str, occurrences.
  set (D := json_dumps (PyDict fm)) in *.
  change (lit "---" ++ nl ++ D ++ nl ++ lit "---" ++ nl ++ lit "{{< unsafe >}}" ++ nl ++ content ++ nl ++ lit "{{< /unsafe >}}" ++ nl)
    with (45%N :: 45%N :: 45%N :: 10%N :: (D ++ 10%N :: 45%N :: 45%N :: 45%N :: (nl ++ lit "{{< unsafe >}}" ++ nl ++ content ++ nl ++ lit "{{< /unsafe >}}" ++ nl))).
  change (lit "---") with [45%N; 45%N; 45%N].
  cbn [occurrences_from starts_with N.eqb Pos.eqb andb app].
  change [45%N; 45%N; 45%N] with (lit "---").
  rewrite occurrences_from_no_match by exact Hocc.
  change (lit "---") with [45%N; 45%N; 45%N].
  cbn [occurrences_from starts_with N.eqb Pos.eqb andb app].
  eexists. f_equal. f_equal. lia.
Qed.

Lemma py_slice_middle (pre mid post : pystr) :
  py_slice (pre ++ mid ++ post) (Z.of_nat (length pre)) (Z.of_nat (length pre + length mid)) = mid.
Proof.
  rewrite py_slice_between; [|lia|rewrite !length_app; lia].
  rewrite drop_app_length.
  replace (length pre + length mid - length pre) with (length mid) by lia.
  apply take_app_length.
Qed.

Lemma py_slice_tail (pre mid post : pystr) (k : Z) :
  k = (- Z.of_nat (length post))%Z → post ≠ [] →
  py_slice (pre ++ mid ++ post) (Z.of_nat (length pre)) k = mid.
Proof.
  intros -> Hpost. unfold py_slice, slice_index. rewrite !length_app.
  assert (0 < length post) by (destruct post; [congruence|cbn; lia]).
  replace (Z.of_nat (length pre) <? 0)%Z with false by (symmetry; apply Z.ltb_ge; lia).
  replace (- Z.of_nat (length post) <? 0)%Z with true by (symmetry; apply Z.ltb_lt; lia).
  rewrite Z.min_l, Z.max_r by lia. rewrite Nat2Z.id, drop_app_length.
  replace (Z.to_nat _) with (length mid) by lia.
  apply take_app_length.
Qed.

(** ** Equality of values *)

Lemma py_eq_list x y :
  py_eq (PyList x) (PyList y) =
  (fix go (x y : list pyval) : bool :=
     match x, y with
     | [], [] => true
     | a :: x', b :: y' => py_eq a b && go x' y'
     | _, _ => false
     end) x y.
Proof. reflexivity. Qed.

Lemma py_eq_dict x y :
  py_eq (PyDict x) (PyDict y) =
  (length x =? length y)%nat &&
  forallb (λ kv, match dict_get (fst kv) y with
                 | Some w => py_eq (snd kv) w
                 | None => false
                 end) x.
Proof.
  cbn [py_eq]. f_equal. induction x as [|[k v] x IH]; [reflexivity|].
  cbn [forallb fst snd]. rewrite <- IH. reflexivity.
Qed.

Lemma dict_get_elem k v d :
  NoDup (dict_keys d) → (k, v) ∈ d → dict_get k d = Some v.
Proof.
  induction d as [|[k' v'] d IH]; intros Hdup Hin.
  - apply elem_of_nil in Hin. tauto.
  - cbn [dict_keys map fst] in Hdup. apply NoDup_cons in Hdup as [Hfresh Hdup].
    cbn [dict_get]. apply elem_of_cons in Hin as [[= -> ->]|Hin].
    + destruct (decide (k' = k')); [reflexivity|congruence].
    + destruct (decide (k = k')) as [->|Hne]; [|apply IH; assumption].
      exfalso. apply Hfresh. apply list_elem_of_fmap. exists (k', v). auto.
Qed.

Lemma py_eq_refl v : well_formed v → py_eq v v = true.
Proof.
  induction v as [|b|z|s|l IH|d IH] using pyval_nested_ind; intros Hwf.
  - reflexivity.
  - cbn. destruct b; reflexivity.
  - cbn. apply Z.eqb_refl.
  - cbn. apply bool_decide_eq_true. reflexivity.
  - inversion Hwf as [| | | |l' Hl|]; subst. rewrite py_eq_list.
    induction IH as [|x l Hx _ IHl]; [reflexivity|].
    apply Forall_cons in Hl as [Hwx Hl].
    rewrite (Hx Hwx). cbn [andb]. apply IHl; [constructor|]; exact Hl.
  - inversion Hwf as [| | | | |d' Hdup Hd]; subst. rewrite py_eq_dict.
    rewrite Nat.eqb_refl. cbn [andb]. apply forallb_forall. intros [k v] Hin.
    apply list_elem_of_In in Hin. cbn [fst snd].
    rewrite (dict_get_elem k v d Hdup Hin).
    rewrite Forall_forall in IH, Hd. apply (IH (k, v) Hin). apply (Hd (k, v) Hin).
Qed.

(** X3. Equality of metadata is by value and ignores the order of the
    keys: a dict with distinct keys equals every reordering of itself. *)
Theorem py_eq_ignores_key_order (d1 d2 : pydict) :
  d1 ≡ₚ d2 →
  well_formed (PyDict d1) →
  py_eq (PyDict d1) (PyDict d2) = true ∧ py_eq (PyDict d2) (PyDict d1) = true.
Proof.
  intros Hperm Hwf. inversion Hwf as [| | | | |d' Hdup Hd]; subst.
  assert (Hdup2 : NoDup (dict_keys d2)).
  { unfold dict_keys in *. eapply NoDup_Permutation_proper; [|exact Hdup].
    symmetry. apply fmap_Permutation. exact Hperm. }
  rewrite !py_eq_dict, (Permutation_length Hperm), Nat.eqb_refl. cbn [andb].
  rewrite Forall_forall in Hd.
  split; apply forallb_forall; intros [k v] Hin; apply list_elem_of_In in Hin; cbn [fst snd].
  - rewrite (dict_get_elem k v d2 Hdup2) by (rewrite <- Hperm; exact Hin).
    apply py_eq_refl. apply (Hd (k, v) Hin).
  - rewrite (dict_get_elem k v d1 Hdup) by (rewrite Hperm; exact Hin).
    apply py_eq_refl. apply (Hd (k, v)). rewrite Hperm. exact Hin.
Qed.

Lemma occurrences_from_sorted p s i :
  Forall (λ j, i ≤ j) (occurrences_from p s i) ∧ StronglySorted lt (occurrences_from p s i).
Proof.
  revert i. induction s as [|c s IH]; intros i; cbn [occurrences_from].
  - destruct (starts_with p []); cbn; split; repeat constructor.
  - destruct (IH (S i)) as [Hge Hsorted].
    assert (Hge' : Forall (λ j, i ≤ j) (occurrences_from p s (S i))).
    { eapply Forall_impl; [exact Hge|]. cbn. intros; lia. }
    destruct (starts_with p (c :: s)); cbn [app].
    + split; [constructor; [lia|exact Hge']|].
      constructor; [exact Hsorted|]. eapply Forall_impl; [exact Hge|]. cbn. intros; lia.
    + split; assumption.
Qed.

(** X4. [findall] does what its docstring says: it yields all the
    positions of the pattern in the string, each once, lowest first. *)
Theorem findall_yields_all_positions (p s : pystr) :
  findall p s = map Z.of_nat (occurrences p s) ∧
  StronglySorted lt (occurrences p s) ∧
  ∀ j, j ∈ occurrences p s ↔ j ≤ length s ∧ starts_with p (drop j s) = true.
Proof.
  split; [apply findall_occurrences|]. split; [apply occurrences_from_sorted|].
  intros j. unfold occurrences. rewrite occurrences_from_spec.
  rewrite Nat.sub_0_r. cbn. split; [intros (_ & ? & ?)|intros (? & ?)]; repeat split; auto; lia.
Qed.

Section Properties.
Context `{Env}.

(** ** Reading a stored file *)

(** What [hugo_markdown_to_json] returns, in terms of the occurrences of
    the delimiter. *)
Lemma hugo_markdown_to_json_occurrences s :
  hugo_markdown_to_json s =
  match occurrences (lit "---") s with
  | i0 :: i1 :: _ =>
      Ret (Some (dict_or_none (json_loads (py_slice s (Z.of_nat i0 + 3) (Z.of_nat i1))),
                 py_slice s (Z.of_nat i1 + 19) (-17)))
  | _ => Ret None
  end.
Proof.
  unfold hugo_markdown_to_json. rewrite findall_occurrences, length_map.
  destruct (occurrences (lit "---") s) as [|i0 [|i1 rest]]; reflexivity.
Qed.

(** C10. For every input string, [hugo_markdown_to_json] returns and never
    raises. It returns [None] exactly when the input has fewer than two
    occurrences of the delimiter [---]. Otherwise it returns a pair, whose
    first component is [None] whenever the text between the first two
    delimiters does not parse to a JSON object. On an input with fewer than
    two delimiters the callers that unpack the result as a pair fail:
    [read_hugo_markdown] ends in its [except] branch and returns [None], and
    the unpacking in the module-level loop raises [TypeError]. *)
Theorem hugo_markdown_to_json_total (s : pystr) :
  (∃ r, hugo_markdown_to_json s = Ret r) ∧
  (hugo_markdown_to_json s = Ret None ↔ length (occurrences (lit "---") s) < 2) ∧
  (∀ i0 i1 rest, occurrences (lit "---") s = i0 :: i1 :: rest →
     ∃ fm html,
       hugo_markdown_to_json s = Ret (Some (fm, html)) ∧
       ((∀ d, json_loads (py_slice s (Z.of_nat i0 + 3) (Z.of_nat i1)) ≠ Some (PyDict d)) →
        fm = None)) ∧
  (length (occurrences (lit "---") s) < 2 →
   ∀ idnum w, fs_read (file_from_id idnum) (files w) = Some s →
     read_hugo_markdown idnum w = None ∧
     ∀ saved data, obs_id data = idnum → idnum ∈ saved →
       fst (reconcile_one saved data w) = Raise TypeError).
Proof.
  rewrite hugo_markdown_to_json_occurrences.
  destruct (occurrences (lit "---") s) as [|i0 [|i1 rest]] eqn:Hocc; simpl.
  - split; [eauto|]. split; [split; [lia|reflexivity]|].
    split; [discriminate|]. intros _ idnum w Hread.
    assert (Hnone : read_hugo_markdown idnum w = None).
    { unfold read_hugo_markdown. rewrite Hread.
      rewrite hugo_markdown_to_json_occurrences, Hocc. reflexivity. }
    split; [exact Hnone|]. intros saved data <- Hin.
    unfold reconcile_one. rewrite bool_decide_true by exact Hin.
    rewrite Hnone. reflexivity.
  - split; [eauto|]. split; [split; [lia|reflexivity]|].
    split; [discriminate|]. intros _ idnum w Hread.
    assert (Hnone : read_hugo_markdown idnum w = None).
    { unfold read_hugo_markdown. rewrite Hread.
      rewrite hugo_markdown_to_json_occurrences, Hocc. reflexivity. }
    split; [exact Hnone|]. intros saved data <- Hin.
    unfold reconcile_one. rewrite bool_decide_true by exact Hin.
    rewrite Hnone. reflexivity.
  - split; [eauto|]. split; [split; [discriminate|lia]|].
    split; [|lia].
    intros j0 j1 rest' [= <- <- <-].
    eexists _, _. split; [reflexivity|].
    intros Hnot.
    destruct (json_loads (py_slice s (Z.of_nat i0 + 3) (Z.of_nat i1))) as [[]|];
      simpl; try reflexivity.
    exfalso. eapply Hnot. reflexivity.
Qed.

(** ** The monad of the script *)

Lemma M_bind_unfold {A B} (m : M A) (f : A → M B) (w : world) :
  (m ≫= f) w =
  match m w with
  | (Ret a, w') => f a w'
  | (Raise e, w') => (Raise e, w')
  | (Exit c, w') => (Exit c, w')
  | (OutOfFuel, w') => (OutOfFuel, w')
  end.
Proof. reflexivity. Qed.

Lemma mapR_length {A B} (f : A → result B) l ys : mapR f l = Ret ys → length ys = length l.
Proof.
  revert ys. induction l as [|x l IH]; intros ys; simpl.
  - intros [= <-]. reflexivity.
  - destruct (f x); simpl; try discriminate.
    destruct (mapR f l); simpl; try discriminate.
    intros [= <-]. simpl. f_equal. apply IH. reflexivity.
Qed.

Arguments mapR : simpl never.

Lemma is_number_gt0 v : is_number v → ∃ b, py_gt0 v = Ret b.
Proof. destruct v; simpl; try tauto; eauto. Qed.

Lemma id_below_of_gt0 v b :
  py_gt0 v = Ret b → id_below_of v = if b then lit "&id_below=" ++ py_str v else [].
Proof. unfold id_below_of. intros ->. reflexivity. Qed.

(** ** The listing loop *)

(** A page with ids: the loop records the request, moves the cursor to the
    last id and goes round again. *)
Lemma listing_step_page fuel acc w ids :
  is_number (MIN_OBS_ID w) →
  is_page (net (length (requests w))) ids →
  ids ≠ [] →
  retrieve_obs_ids_loop (S fuel) acc w =
  retrieve_obs_ids_loop fuel (acc ++ ids)
    (set_cursor (List.last ids PyNone)
       (add_request (listing_url (id_below_of (MIN_OBS_ID w))) w)).
Proof.
  intros Hnum (body & page & Hnet & Hres & Hids) Hne.
  apply is_number_gt0 in Hnum as [b Hb].
  rewrite (id_below_of_gt0 _ _ Hb).
  cbn. unfold mbind, M_bind, get_MIN_OBS_ID, lift. rewrite Hb.
  unfold urlopen. rewrite Hnet. cbn. rewrite Hres. cbn.
  pose proof (mapR_length _ _ _ Hids) as Hlen.
  destruct page as [|d page]; [destruct ids; [congruence|discriminate]|].
  cbn. unfold lift. rewrite Hids. reflexivity.
Qed.

(** A page without ids ends the loop with what was collected. *)
Lemma listing_step_empty fuel acc w :
  is_number (MIN_OBS_ID w) →
  is_page (net (length (requests w))) [] →
  retrieve_obs_ids_loop (S fuel) acc w =
  (Ret acc, add_request (listing_url (id_below_of (MIN_OBS_ID w))) w).
Proof.
  intros Hnum (body & page & Hnet & Hres & Hids).
  apply is_number_gt0 in Hnum as [b Hb].
  rewrite (id_below_of_gt0 _ _ Hb).
  cbn. unfold mbind, M_bind, get_MIN_OBS_ID, lift. rewrite Hb.
  unfold urlopen. rewrite Hnet. cbn. rewrite Hres. cbn.
  pose proof (mapR_length _ _ _ Hids) as Hlen.
  destruct page; [reflexivity|discriminate].
Qed.

(** A failed answer ends the process with [sys.exit(-1)]. *)
Lemma listing_step_failure fuel acc w :
  is_number (MIN_OBS_ID w) →
  listing_failure (net (length (requests w))) →
  ∃ w', retrieve_obs_ids_loop (S fuel) acc w = (Exit (-1), w') ∧
        requests w' = requests w ++ [listing_url (id_below_of (MIN_OBS_ID w))] ∧
        files w' = files w ∧ nwrites w' = nwrites w.
Proof.
  intros Hnum Hfail.
  apply is_number_gt0 in Hnum as [b Hb].
  rewrite (id_below_of_gt0 _ _ Hb).
  cbn. unfold mbind, M_bind, get_MIN_OBS_ID, lift. rewrite Hb.
  unfold urlopen, listing_failure in *.
  destruct (net (length (requests w))) as [|body]; cbn.
  - eexists. split; [reflexivity|]. cbn. auto.
  - destruct (results_of body) as [[]|]; cbn; try tauto;
      (eexists; split; [reflexivity|]; cbn; auto).
Qed.

Lemma after_pages_frame pages w :
  files (after_pages pages w) = files w ∧
  nwrites (after_pages pages w) = nwrites w ∧
  stdout (after_pages pages w) = stdout w ∧
  length (requests (after_pages pages w)) = length (requests w) + length pages.
Proof.
  revert w. induction pages as [|ids pages IH]; intros w; simpl.
  - repeat split; lia.
  - destruct (IH (set_cursor (List.last ids PyNone)
                    (add_request (listing_url (id_below_of (MIN_OBS_ID w))) w)))
      as (-> & -> & -> & ->).
    cbn. rewrite length_app. cbn. repeat split; lia.
Qed.

(** The requests of the loop, the one that follows the last page
    included: each carries the cursor left by the page before it. *)
Lemma after_pages_requests pages w :
  requests (after_pages pages w)
    ++ [listing_url (id_below_of (MIN_OBS_ID (after_pages pages w)))] =
  requests w ++ listing_url (id_below_of (MIN_OBS_ID w))
    :: map (λ ids, listing_url (id_below_of (List.last ids PyNone))) pages.
Proof.
  revert w. induction pages as [|ids pages IH]; intros w; simpl; [reflexivity|].
  rewrite IH. cbn. rewrite <- app_assoc. reflexivity.
Qed.

Lemma after_pages_number pages w :
  is_number (MIN_OBS_ID w) →
  Forall (λ ids, is_number (List.last ids PyNone)) pages →
  is_number (MIN_OBS_ID (after_pages pages w)).
Proof.
  intros Hw Hpages. revert w Hw.
  induction Hpages as [|ids pages Hids _ IH]; intros w Hw; simpl; [exact Hw|].
  apply IH. exact Hids.
Qed.

Lemma pages_from_cons k ids pages :
  pages_from k (ids :: pages) →
  is_page (net k) ids ∧ ids ≠ [] ∧ is_number (List.last ids PyNone) ∧
  pages_from (S k) pages.
Proof.
  intros Hp. destruct (Hp 0 ids eq_refl) as (H0 & H1 & H2).
  rewrite Nat.add_0_r in H0.
  split; [exact H0|]. split; [exact H1|]. split; [exact H2|].
  intros j ids' Hj. replace (S k + j) with (k + S j) by lia. apply (Hp (S j)). exact Hj.
Qed.

Lemma pages_from_numbers k pages :
  pages_from k pages → Forall (λ ids, is_number (List.last ids PyNone)) pages.
Proof.
  intros Hp. apply Forall_lookup. intros i ids Hi. apply (Hp i ids Hi).
Qed.

(** The loop goes through a run of pages with ids, one round each. *)
Lemma listing_loop_pages pages fuel acc w :
  is_number (MIN_OBS_ID w) →
  pages_from (length (requests w)) pages →
  retrieve_obs_ids_loop (length pages + fuel) acc w =
  retrieve_obs_ids_loop fuel (acc ++ concat pages) (after_pages pages w).
Proof.
  revert acc w. induction pages as [|ids pages IH]; intros acc w Hnum Hpages.
  - simpl. rewrite app_nil_r. reflexivity.
  - apply pages_from_cons in Hpages as (Hpage & Hne & Hlast & Hrest).
    change (length (ids :: pages) + fuel) with (S (length pages + fuel)).
    rewrite (listing_step_page _ _ _ ids Hnum Hpage Hne).
    rewrite IH.
    + simpl. rewrite <- app_assoc. reflexivity.
    + exact Hlast.
    + cbn. rewrite length_app. cbn.
      replace (length (requests w) + 1) with (S (length (requests w))) by lia.
      exact Hrest.
Qed.

(** If the loop returns, the last answer it got was a page without ids. *)
Lemma listing_loop_returns fuel acc w ids w' :
  retrieve_obs_ids_loop fuel acc w = (Ret ids, w') →
  ∃ n, length (requests w') = S n ∧ length (requests w) ≤ n ∧ is_page (net n) [].
Proof.
  revert acc w. induction fuel as [|fuel IH]; intros acc w; [discriminate|].
  cbn. unfold mbind, M_bind, get_MIN_OBS_ID, lift.
  destruct (py_gt0 (MIN_OBS_ID w)) as [b| | |]; try discriminate.
  unfold urlopen.
  destruct (net (length (requests w))) as [|body] eqn:Hnet; cbn; [discriminate|].
  destruct (results_of body) as [v|] eqn:Hres; cbn; [|discriminate].
  destruct v as [| | | |page|]; try discriminate.
  destruct page as [|d page]; cbn.
  - intros [= <- <-]. exists (length (requests w)). cbn.
    rewrite length_app. cbn. split; [lia|]. split; [lia|].
    unfold results_of in Hres. destruct body as [j|]; [|discriminate].
    destruct (py_getitem j (lit "results")) eqn:Hj; try discriminate.
    injection Hres as ->.
    exists j, []. rewrite Hnet. repeat split. exact Hj.
  - unfold lift.
    destruct (mapR _ (d :: page)) as [ids'| | |]; try discriminate.
    cbn. intros Hloop. apply IH in Hloop as (n & Hlen & Hle & Hpage).
    exists n. split; [exact Hlen|]. split; [|exact Hpage].
    cbn in Hle. rewrite length_app in Hle. cbn in Hle. lia.
Qed.

(** The listing stage leaves the files alone. *)
Lemma listing_loop_frame fuel acc w :
  files (snd (retrieve_obs_ids_loop fuel acc w)) = files w ∧
  nwrites (snd (retrieve_obs_ids_loop fuel acc w)) = nwrites w.
Proof.
  revert acc w. induction fuel as [|fuel IH]; intros acc w; [cbn; auto|].
  cbn. unfold mbind, M_bind, get_MIN_OBS_ID, lift.
  destruct (py_gt0 (MIN_OBS_ID w)) as [b| | |]; cbn; auto.
  unfold urlopen.
  destruct (net (length (requests w))) as [|body]; cbn; auto.
  destruct (results_of body) as [v|]; cbn; auto.
  destruct v as [| | | |page|]; cbn; auto.
  destruct page as [|d page]; cbn; auto.
  unfold lift. destruct (mapR _ (d :: page)) as [ids'| | |]; cbn; auto.
  match goal with
  | |- context [retrieve_obs_ids_loop fuel ?a ?w0] =>
      destruct (IH a w0) as [Hfiles Hwrites]; rewrite Hfiles, Hwrites
  end.
  cbn. auto.
Qed.

Lemma listing_frame fuel w :
  files (snd (retrieve_obs_ids_from_server fuel w)) = files w ∧
  nwrites (snd (retrieve_obs_ids_from_server fuel w)) = nwrites w.
Proof.
  unfold retrieve_obs_ids_from_server. rewrite M_bind_unfold.
  pose proof (listing_loop_frame fuel [] w) as Hframe.
  destruct (retrieve_obs_ids_loop fuel [] w) as [[ids| | |] w']; cbn in *; auto.
Qed.

(** The listing stage on a run of pages with ids followed by the empty
    page. *)
Lemma listing_returns_pages fuel w pages :
  is_number (MIN_OBS_ID w) →
  pages_from (length (requests w)) pages →
  is_page (net (length (requests w) + length pages)) [] →
  length pages < fuel →
  retrieve_obs_ids_from_server fuel w =
  (Ret (concat pages),
   add_line (lit "Parsed a total of " ++ str_of_Z (Z.of_nat (length (concat pages)))
             ++ lit " ids from server")
     (add_request (listing_url (id_below_of (MIN_OBS_ID (after_pages pages w))))
        (after_pages pages w))).
Proof.
  intros Hnum Hpages Hempty Hfuel.
  replace fuel with (length pages + S (fuel - S (length pages))) by lia.
  unfold retrieve_obs_ids_from_server. rewrite M_bind_unfold.
  rewrite listing_loop_pages; [|exact Hnum|exact Hpages].
  destruct (after_pages_frame pages w) as (_ & _ & _ & Hlen).
  rewrite listing_step_empty.
  - reflexivity.
  - apply after_pages_number; [exact Hnum|]. eapply pages_from_numbers, Hpages.
  - rewrite Hlen. exact Hempty.
Qed.

(** Where the listing stage does not return, neither does the run. *)
Lemma main_listing_exit fuel w c w' :
  retrieve_obs_ids_loop fuel [] w = (Exit c, w') →
  main fuel w = (Exit c, w').
Proof.
  intros Hloop. unfold main, retrieve_data_from_server, retrieve_obs_ids_from_server.
  rewrite !M_bind_unfold, Hloop. reflexivity.
Qed.

(** C2, as the code has it. Let the network send the pages [pages], each
    with at least one element and ending in an integer id, and then a page
    with zero elements. The first request carries no cursor; the request for
    every later page carries [id_below] equal to the last id of the page
    before it when that id is greater than 0, and no cursor otherwise (the
    guard [MIN_OBS_ID > 0]); the loop ends at the empty page and yields the
    ids of all pages, in order. Conversely, whenever the listing stage
    returns, the last answer it received was a page with zero elements. *)
Theorem listing_follows_cursor (fuel : nat) (fs : gmap pystr file) (pages : list (list pyval)) :
  pages_from 0 pages →
  is_page (net (length pages)) [] →
  length pages < fuel →
  (∃ w', retrieve_obs_ids_from_server fuel (initial_world fs) = (Ret (concat pages), w') ∧
         requests w' =
           listing_url [] ::
           map (λ ids, listing_url (id_below_of (List.last ids PyNone))) pages) ∧
  (∀ z, id_below_of (PyInt z) =
        if (0 <? z)%Z then lit "&id_below=" ++ str_of_Z z else []) ∧
  (∀ fuel' w ids w', retrieve_obs_ids_from_server fuel' w = (Ret ids, w') →
     ∃ n, length (requests w') = S n ∧ length (requests w) ≤ n ∧ is_page (net n) []).
Proof.
  intros Hpages Hempty Hfuel. split; [|split].
  - rewrite (listing_returns_pages fuel (initial_world fs) pages);
      [|exact I|exact Hpages|exact Hempty|exact Hfuel].
    eexists. split; [reflexivity|]. cbn.
    exact (after_pages_requests pages (initial_world fs)).
  - intros z. unfold id_below_of. cbn. destruct (0 <? z)%Z; reflexivity.
  - intros fuel' w ids w'. unfold retrieve_obs_ids_from_server. rewrite M_bind_unfold.
    destruct (retrieve_obs_ids_loop fuel' [] w) as [[ids'| | |] w1] eqn:Hloop;
      try discriminate.
    cbn. intros [= <- <-]. cbn.
    exact (listing_loop_returns _ _ _ _ _ Hloop).
Qed.

(** C6. Let the network send pages with ids and then fail a listing
    request, or answer it with a body that is not JSON, has no [results] or
    whose [results] are not a list. The process ends through [sys.exit(-1)],
    exit status 255; every request made is a listing request, no file was
    opened for writing and the files are as they were. *)
Theorem listing_failure_is_fatal (fuel : nat) (fs : gmap pystr file) (pages : list (list pyval)) :
  pages_from 0 pages →
  listing_failure (net (length pages)) →
  length pages < fuel →
  ∃ w', main fuel (initial_world fs) = (Exit (-1), w') ∧
        exit_status (fst (main fuel (initial_world fs))) = Some 255%Z ∧
        requests w' =
          listing_url [] ::
          map (λ ids, listing_url (id_below_of (List.last ids PyNone))) pages ∧
        files w' = fs ∧ nwrites w' = 0.
Proof.
  intros Hpages Hfail Hfuel.
  replace fuel with (length pages + S (fuel - S (length pages))) by lia.
  destruct (after_pages_frame pages (initial_world fs)) as (Hfiles & Hwrites & _ & Hlen).
  destruct (listing_step_failure (fuel - S (length pages)) (concat pages)
              (after_pages pages (initial_world fs)))
    as (w' & Hstep & Hreq & Hf & Hn).
  { apply after_pages_number; [exact I|]. eapply pages_from_numbers, Hpages. }
  { rewrite Hlen. exact Hfail. }
  assert (Hmain : main (length pages + S (fuel - S (length pages))) (initial_world fs)
                  = (Exit (-1), w')).
  { apply main_listing_exit. rewrite listing_loop_pages; [|exact I|exact Hpages].
    exact Hstep. }
  exists w'. rewrite Hmain. split; [reflexivity|]. split; [reflexivity|].
  split; [|split].
  - rewrite Hreq. exact (after_pages_requests pages (initial_world fs)).
  - rewrite Hf. exact Hfiles.
  - rewrite Hn. exact Hwrites.
Qed.

(** ** Reshaping *)

Arguments lookup_path : simpl never.

Lemma dict_keys_set k v d : dict_keys (dict_set k v d) = keys_add k (dict_keys d).
Proof.
  unfold keys_add, dict_keys. induction d as [|[k' v'] d IH]; simpl; [reflexivity|].
  destruct (decide (k = k')) as [->|Hne]; simpl.
  - rewrite bool_decide_true by apply list_elem_of_here. reflexivity.
  - rewrite IH. destruct (bool_decide (k ∈ map fst d)) eqn:Hin.
    + apply bool_decide_eq_true in Hin.
      rewrite bool_decide_true by (apply list_elem_of_further; exact Hin). reflexivity.
    + apply bool_decide_eq_false in Hin.
      rewrite bool_decide_false; [reflexivity|].
      intros Hin'. apply elem_of_cons in Hin' as [?|?]; congruence.
Qed.

Lemma py_getitem_cases o k :
  match py_getitem o k with
  | Ret v => lookup_path o [k] = Some v
  | Raise _ => lookup_path o [k] = None
  | _ => False
  end.
Proof.
  destruct o as [| | | | |d]; cbn; try reflexivity.
  unfold lookup_path. destruct (dict_get k d); reflexivity.
Qed.

Lemma lookup_path_step o k rest v :
  lookup_path o [k] = Some v → lookup_path o (k :: rest) = lookup_path v rest.
Proof.
  unfold lookup_path at 1 2. destruct o as [| | | | |d]; try discriminate.
  destruct (dict_get k d); [|discriminate]. intros [= ->]. reflexivity.
Qed.

Lemma lookup_path_step_none o k rest :
  lookup_path o [k] = None → lookup_path o (k :: rest) = None.
Proof.
  unfold lookup_path. destruct o as [| | | | |d]; try reflexivity.
  destruct (dict_get k d); [discriminate|reflexivity].
Qed.

(** The loop over [desired_fields]: it goes through when every key is
    there, and then adds the keys in order; otherwise it raises. *)
Lemma foldR_fields obs keys md :
  match foldR (λ md key, v ← py_getitem obs key; Ret (dict_set key v md)) keys md with
  | Ret md' =>
      Forall (λ k, is_Some (lookup_path obs [k])) keys ∧
      dict_keys md' = fold_left (λ ks k, keys_add k ks) keys (dict_keys md)
  | Raise _ => Exists (λ k, lookup_path obs [k] = None) keys
  | _ => False
  end.
Proof.
  revert md. induction keys as [|k keys IH]; intros md; cbn [foldR fold_left].
  - split; [constructor|reflexivity].
  - pose proof (py_getitem_cases obs k) as Hk.
    destruct (py_getitem obs k) as [v| | |]; cbn [mbind result_bind]; try tauto.
    + specialize (IH (dict_set k v md)).
      destruct (foldR _ keys (dict_set k v md)) as [md'| | |]; try tauto.
      * destruct IH as [Hall Hkeys]. split.
        -- constructor; [cbn beta; rewrite Hk; eauto|exact Hall].
        -- rewrite Hkeys, dict_keys_set. reflexivity.
      * apply Exists_cons_tl. exact IH.
    + apply Exists_cons_hd. exact Hk.
Qed.

(** [reformat_obs] returns exactly when every required field is there,
    and then the metadata has the keys [metadata_keys], in that order, and
    the content is empty; otherwise it raises. *)
Lemma reformat_obs_cases obsid obs :
  match reformat_obs obsid obs with
  | Ret r =>
      Forall (λ p, is_Some (lookup_path obs p)) required_fields ∧
      obs_id r = py_str obsid ∧
      dict_keys (obs_metadata r) = metadata_keys ∧
      obs_content r = []
  | Raise _ => Exists (λ p, lookup_path obs p = None) required_fields
  | _ => False
  end.
Proof.
  unfold reformat_obs, required_fields.
  pose proof (py_getitem_cases obs (lit "uri")) as Huri.
  destruct (py_getitem obs (lit "uri")) as [uri| | |]; cbn [mbind result_bind]; try tauto;
    [|apply Exists_app; left; apply Exists_cons_hd; exact Huri].
  pose proof (py_getitem_cases obs (lit "time_observed_at")) as Htime.
  destruct (py_getitem obs (lit "time_observed_at")) as [observed| | |];
    cbn [mbind result_bind]; try tauto;
    [|apply Exists_app; left; do 1 apply Exists_cons_tl; apply Exists_cons_hd; exact Htime].
  pose proof (py_getitem_cases obs (lit "taxon")) as Htaxon.
  destruct (py_getitem obs (lit "taxon")) as [taxon| | |];
    cbn [mbind result_bind]; try tauto;
    [|apply Exists_app; left; do 2 apply Exists_cons_tl; apply Exists_cons_hd;
      apply lookup_path_step_none; exact Htaxon].
  pose proof (py_getitem_cases taxon (lit "name")) as Hname.
  destruct (py_getitem taxon (lit "name")) as [name| | |];
    cbn [mbind result_bind]; try tauto;
    [|apply Exists_app; left; do 2 apply Exists_cons_tl; apply Exists_cons_hd;
      rewrite (lookup_path_step _ _ _ _ Htaxon); exact Hname].
  pose proof (py_getitem_cases taxon (lit "preferred_common_name")) as Hcommon.
  destruct (py_getitem taxon (lit "preferred_common_name")) as [common_name| | |];
    cbn [mbind result_bind]; try tauto;
    [|apply Exists_app; left; do 3 apply Exists_cons_tl; apply Exists_cons_hd;
      rewrite (lookup_path_step _ _ _ _ Htaxon); exact Hcommon].
  match goal with
  | |- context [foldR ?f ?keys ?md] =>
      pose proof (foldR_fields obs keys md) as Hfold;
      destruct (foldR f keys md) as [md'| | |]
  end; cbn [mbind result_bind]; try tauto.
  - destruct Hfold as [Hall Hkeys]. split; [|split; [reflexivity|split; [|reflexivity]]].
    + apply Forall_app. split.
      * repeat apply Forall_cons_2; [| | | |constructor].
        -- rewrite Huri; eauto.
        -- rewrite Htime; eauto.
        -- rewrite (lookup_path_step _ _ _ _ Htaxon), Hname; eauto.
        -- rewrite (lookup_path_step _ _ _ _ Htaxon), Hcommon; eauto.
      * apply Forall_fmap. exact Hall.
    + cbn [obs_metadata]. rewrite Hkeys, !dict_keys_set. vm_compute. reflexivity.
  - apply Exists_app. right. apply Exists_fmap. exact Hfold.
Qed.

Lemma reformat_obs_complete obsid obs :
  Forall (λ p, is_Some (lookup_path obs p)) required_fields →
  ∃ md, reformat_obs obsid obs = Ret (ObsData (py_str obsid) md []) ∧
        dict_keys md = metadata_keys.
Proof.
  intros Hall. pose proof (reformat_obs_cases obsid obs) as Hcases.
  destruct (reformat_obs obsid obs) as [[i md c]|e| |]; try tauto.
  - cbn in Hcases. destruct Hcases as (_ & -> & Hkeys & ->). eauto.
  - exfalso. apply Exists_exists in Hcases as (p & Hin & Hnone).
    rewrite Forall_forall in Hall. destruct (Hall p Hin) as [v Hv]. congruence.
Qed.

Lemma reformat_obs_missing obsid obs :
  Exists (λ p, lookup_path obs p = None) required_fields →
  ∃ e, reformat_obs obsid obs = Raise e.
Proof.
  intros Hmiss. pose proof (reformat_obs_cases obsid obs) as Hcases.
  destruct (reformat_obs obsid obs) as [r|e| |]; try tauto; [|eauto].
  exfalso. destruct Hcases as (Hall & _).
  apply Exists_exists in Hmiss as (p & Hin & Hnone).
  rewrite Forall_forall in Hall. destruct (Hall p Hin) as [v Hv]. congruence.
Qed.

(** ** The fetch loop *)

(** No detail document: the id is reported and skipped, the loop goes on. *)
Lemma fetch_step_failed id_num rest acc w :
  parsed_detail (net (length (requests w))) = None →
  retrieve_data_loop (id_num :: rest) acc w =
  retrieve_data_loop rest acc
    (add_line (failure_line id_num (net (length (requests w))))
       (add_request (detail_url id_num) w)).
Proof.
  intros Hnone. cbn. unfold mbind, M_bind, urlopen, parsed_detail, failure_line in *.
  destruct (net (length (requests w))) as [|body]; cbn; [reflexivity|].
  rewrite Hnone. reflexivity.
Qed.

(** A detail document: it is reshaped, and an exception of [reformat_obs]
    ends the loop there. *)
Lemma fetch_step_parsed id_num rest acc w obs :
  parsed_detail (net (length (requests w))) = Some obs →
  retrieve_data_loop (id_num :: rest) acc w =
  match reformat_obs id_num obs with
  | Ret r => retrieve_data_loop rest (acc ++ [r]) (add_request (detail_url id_num) w)
  | Raise e => (Raise e, add_request (detail_url id_num) w)
  | Exit c => (Exit c, add_request (detail_url id_num) w)
  | OutOfFuel => (OutOfFuel, add_request (detail_url id_num) w)
  end.
Proof.
  intros Hobs. cbn. unfold mbind, M_bind, urlopen, parsed_detail, lift in *.
  destruct (net (length (requests w))) as [|body]; [discriminate|]. cbn.
  rewrite Hobs. destruct (reformat_obs id_num obs); reflexivity.
Qed.

Arguments retrieve_data_loop : simpl never.

Lemma fetch_loop_app ids1 ids2 acc w acc' w' :
  retrieve_data_loop ids1 acc w = (Ret acc', w') →
  retrieve_data_loop (ids1 ++ ids2) acc w = retrieve_data_loop ids2 acc' w'.
Proof.
  revert acc w. induction ids1 as [|id_num ids1 IH]; intros acc w.
  - intros [= <- <-]. reflexivity.
  - rewrite <- app_comm_cons.
    destruct (parsed_detail (net (length (requests w)))) as [obs|] eqn:Hd.
    + rewrite !(fetch_step_parsed _ _ _ _ _ Hd).
      destruct (reformat_obs id_num obs); try discriminate. apply IH.
    + rewrite !(fetch_step_failed _ _ _ _ Hd). apply IH.
Qed.

(** The fetch stage leaves the files alone. *)
Lemma fetch_loop_frame ids acc w :
  files (snd (retrieve_data_loop ids acc w)) = files w ∧
  nwrites (snd (retrieve_data_loop ids acc w)) = nwrites w.
Proof.
  revert acc w. induction ids as [|id_num ids IH]; intros acc w; [cbn; auto|].
  destruct (parsed_detail (net (length (requests w)))) as [obs|] eqn:Hd.
  - rewrite (fetch_step_parsed _ _ _ _ _ Hd).
    destruct (reformat_obs id_num obs); cbn; auto.
    destruct (IH (acc ++ [a]) (add_request (detail_url id_num) w)) as [-> ->]. cbn. auto.
  - rewrite (fetch_step_failed _ _ _ _ Hd).
    match goal with
    | |- context [retrieve_data_loop ids acc ?w0] => destruct (IH acc w0) as [-> ->]
    end.
    cbn. auto.
Qed.

(** From the result of the two stages to the result of the run. *)
Lemma main_unfold fuel w ids w1 :
  retrieve_obs_ids_from_server fuel w = (Ret ids, w1) →
  main fuel w =
  match retrieve_data_loop ids [] w1 with
  | (Ret server_data, w2) =>
      (reconcile (saved_ids_of (files w)) server_data;; print (lit "Completed"))
        (add_line (lit "Successfully obtained "
                   ++ str_of_Z (Z.of_nat (length server_data))
                   ++ lit " observations from the server.") w2)
  | (Raise e, w2) => (Raise e, w2)
  | (Exit c, w2) => (Exit c, w2)
  | (OutOfFuel, w2) => (OutOfFuel, w2)
  end.
Proof.
  intros Hlist. unfold main, retrieve_data_from_server.
  rewrite !M_bind_unfold, Hlist. cbn beta iota. rewrite !M_bind_unfold.
  destruct (retrieve_data_loop ids [] w1) as [[server_data|e|c|] w2]; reflexivity.
Qed.

(** C3. Let the listing stage return, the fetch loop get through the ids
    before [id_num], and the detail document of [id_num] arrive with one of
    the fields that [reformat_obs] reads absent ([uri], [time_observed_at],
    [taxon.name], [taxon.preferred_common_name] or one of the fifteen
    desired fields). Then [reformat_obs] raises, nothing catches the
    exception, and the run ends there with exit status 1: the last request
    made is the one for [id_num], the ids after it are never asked for, and
    no file was written. *)
Theorem missing_field_aborts (fuel : nat) (fs : gmap pystr file)
    (ids1 : list pyval) (id_num : pyval) (ids2 : list pyval)
    (w1 : world) (acc : list obs_data) (w2 : world) (obs : pyval) :
  retrieve_obs_ids_from_server fuel (initial_world fs) = (Ret (ids1 ++ id_num :: ids2), w1) →
  retrieve_data_loop ids1 [] w1 = (Ret acc, w2) →
  parsed_detail (net (length (requests w2))) = Some obs →
  Exists (λ p, lookup_path obs p = None) required_fields →
  ∃ e, reformat_obs id_num obs = Raise e ∧
       main fuel (initial_world fs) = (Raise e, add_request (detail_url id_num) w2) ∧
       exit_status (fst (main fuel (initial_world fs))) = Some 1%Z ∧
       files w2 = fs ∧ nwrites w2 = 0.
Proof.
  intros Hlist Hloop Hobs Hmiss.
  destruct (reformat_obs_missing id_num obs Hmiss) as [e He].
  exists e. split; [exact He|].
  assert (Hmain : main fuel (initial_world fs)
                  = (Raise e, add_request (detail_url id_num) w2)).
  { rewrite (main_unfold _ _ _ _ Hlist), (fetch_loop_app _ _ _ _ _ _ Hloop).
    rewrite (fetch_step_parsed _ _ _ _ _ Hobs), He. reflexivity. }
  rewrite Hmain. split; [reflexivity|]. split; [reflexivity|].
  pose proof (listing_frame fuel (initial_world fs)) as [Hf1 Hn1].
  pose proof (fetch_loop_frame ids1 [] w1) as [Hf2 Hn2].
  rewrite Hlist in Hf1, Hn1. rewrite Hloop in Hf2, Hn2. cbn in *.
  split; congruence.
Qed.

(** ** The text [json.dumps] writes *)

Lemma printable_app a b : printable (a ++ b) = printable a && printable b.
Proof. apply forallb_app. Qed.

Lemma hexdigit_printable d : (d < 16)%N → is_printable (hexdigit d) = true.
Proof.
  intros Hd. unfold hexdigit, is_printable.
  destruct (d <? 10)%N eqn:Hlt; apply andb_true_iff; split; apply N.leb_le; lia.
Qed.

Lemma hex_printable width n : printable (hex width n) = true.
Proof.
  revert n. induction width as [|width IH]; intros n; [reflexivity|].
  cbn [hex]. rewrite printable_app, IH. cbn.
  rewrite hexdigit_printable; [reflexivity|].
  apply N.mod_lt. discriminate.
Qed.

Lemma json_escape_char_printable c : printable (json_escape_char c) = true.
Proof.
  unfold json_escape_char.
  repeat match goal with
         | |- context [if ?b then _ else _] => destruct b eqn:?
         end;
    rewrite ?printable_app, ?hex_printable; try reflexivity.
  cbn. unfold is_printable. rewrite Heqb1. reflexivity.
Qed.

Lemma flat_map_printable {A} (f : A → pystr) l :
  (∀ x, printable (f x) = true) → printable (flat_map f l) = true.
Proof.
  intros Hf. induction l as [|x l IH]; [reflexivity|].
  cbn [flat_map]. rewrite printable_app, Hf, IH. reflexivity.
Qed.

Lemma json_string_printable s : printable (json_string s) = true.
Proof.
  unfold json_string. rewrite !printable_app.
  rewrite (flat_map_printable _ _ json_escape_char_printable). reflexivity.
Qed.

Lemma string_of_uint_printable d : printable (lit (NilEmpty.string_of_uint d)) = true.
Proof.
  induction d; [reflexivity|..];
    (change (printable (lit (NilEmpty.string_of_uint d)) = true) in IHd;
     cbn [NilEmpty.string_of_uint]; unfold lit in *; cbn [list_ascii_of_string map];
     cbn [printable forallb]; fold (printable (map N_of_ascii (list_ascii_of_string (NilEmpty.string_of_uint d))));
     rewrite IHd; reflexivity).
Qed.

Lemma str_of_Z_printable z : printable (str_of_Z z) = true.
Proof.
  unfold str_of_Z. destruct (Z.to_int z) as [d|d]; cbn [NilZero.string_of_int].
  - destruct d; try reflexivity; apply string_of_uint_printable.
  - unfold lit. cbn [list_ascii_of_string map]. cbn [printable forallb].
    change (true && printable (lit (NilZero.string_of_uint d)) = true).
    destruct d; try reflexivity; apply string_of_uint_printable.
Qed.

Lemma join_printable sep parts :
  printable sep = true → Forall (λ p, printable p = true) parts →
  printable (join sep parts) = true.
Proof.
  intros Hsep Hparts. induction Hparts as [|p parts Hp Hrest IH]; [reflexivity|].
  cbn [join]. destruct parts as [|q parts]; [exact Hp|].
  rewrite !printable_app, Hp, Hsep, IH. reflexivity.
Qed.

Lemma json_dumps_printable v : printable (json_dumps v) = true.
Proof.
  induction v as [|b|z|s|l IH|d IH] using pyval_nested_ind.
  - reflexivity.
  - destruct b; reflexivity.
  - apply str_of_Z_printable.
  - apply json_string_printable.
  - change (printable (lit "[" ++ join (lit ", ") (map json_dumps l) ++ lit "]") = true).
    rewrite !printable_app, join_printable; [reflexivity|reflexivity|].
    apply Forall_fmap. exact IH.
  - change (printable
              (lit "{" ++
               join (lit ", ")
                 (map (λ kv, json_string (fst kv) ++ lit ": " ++ json_dumps (snd kv)) d)
               ++ lit "}") = true).
    rewrite !printable_app, join_printable; [reflexivity|reflexivity|].
    apply Forall_fmap. eapply Forall_impl; [exact IH|].
    intros kv Hkv. unfold compose. cbn beta in *. rewrite !printable_app, json_string_printable, Hkv. reflexivity.
Qed.

Lemma printable_encodable s : printable s = true → utf8_encodable s = true.
Proof.
  unfold printable, utf8_encodable. rewrite !forallb_forall.
  intros Hs c Hc. specialize (Hs c Hc). unfold is_printable in Hs.
  apply andb_true_iff in Hs as [_ Hle]. apply N.leb_le in Hle.
  apply orb_true_iff. left. apply N.ltb_lt. lia.
Qed.

Lemma utf8_encodable_app a b : utf8_encodable (a ++ b) = utf8_encodable a && utf8_encodable b.
Proof. apply forallb_app. Qed.

Lemma create_markdown_str_encodable fm content :
  utf8_encodable (create_markdown_str fm content) = utf8_encodable content.
Proof.
  unfold create_markdown_str. rewrite !utf8_encodable_app.
  rewrite (printable_encodable _ (json_dumps_printable (PyDict fm))).
  change (utf8_encodable (lit "---")) with true.
  change (utf8_encodable nl) with true.
  change (utf8_encodable (lit "{{< unsafe >}}")) with true.
  change (utf8_encodable (lit "{{< /unsafe >}}")) with true.
  cbn. rewrite andb_true_r. reflexivity.
Qed.

(** ** Files *)

Lemma file_from_id_inj a b : file_from_id a = file_from_id b → a = b.
Proof.
  unfold file_from_id. intros Heq.
  apply app_inv_head in Heq. apply app_inv_head in Heq.
  apply app_inv_tail in Heq. exact Heq.
Qed.

Lemma fs_write_other fault path text fs p :
  p ≠ path → snd (fs_write fault path text fs) !! p = fs !! p.
Proof.
  intros Hne. unfold fs_write.
  destruct fault; [| reflexivity |]; destruct (utf8_encodable text); cbn;
    apply lookup_insert_ne; congruence.
Qed.

Lemma fs_write_at fault path text fs :
  (fault = OpenFails ∧ fs_write fault path text fs = (false, fs)) ∨
  (∃ n, snd (fs_write fault path text fs) !! path = Some (Text (take n text)) ∧
        (fst (fs_write fault path text fs) = true → take n text = text)).
Proof.
  unfold fs_write. destruct fault as [| |n]; [|left; auto|];
    destruct (utf8_encodable text); cbn; right.
  - exists (length text). rewrite lookup_insert_eq, take_ge by lia. auto.
  - exists 0. rewrite lookup_insert_eq. split; [reflexivity|discriminate].
  - exists n. rewrite lookup_insert_eq. split; [reflexivity|discriminate].
  - exists 0. rewrite lookup_insert_eq. split; [reflexivity|discriminate].
Qed.

Lemma write_markdown_unfold id_num fm c w :
  write_markdown id_num fm c w =
  let r := fs_write (disk (nwrites w)) (file_from_id id_num)
             (create_markdown_str fm c) (files w) in
  (Ret (),
   if fst r then after_write (snd r) w
   else add_line (lit "Failed to write " ++ id_num) (after_write (snd r) w)).
Proof.
  unfold write_markdown.
  destruct (fs_write _ _ _ _) as [[|] fs']; reflexivity.
Qed.


Lemma read_hugo_markdown_files id_num w w' :
  files w' !! file_from_id id_num = files w !! file_from_id id_num →
  read_hugo_markdown id_num w' = read_hugo_markdown id_num w.
Proof. intros Heq. unfold read_hugo_markdown, fs_read. rewrite Heq. reflexivity. Qed.

(** ** Runs in which only detail requests fail *)


(** A round of the reconciler that can read what it has to read returns,
    and touches no file but the one of its record. *)
Lemma reconcile_one_safe saved data w :
  (obs_id data ∈ saved → is_Some (read_hugo_markdown (obs_id data) w)) →
  ∃ w', reconcile_one saved data w = (Ret (), w') ∧
        (∀ p, p ≠ file_from_id (obs_id data) → files w' !! p = files w !! p) ∧
        requests w' = requests w ∧
        (∀ l, l ∈ stdout w → l ∈ stdout w').
Proof.
  intros Hread. unfold reconcile_one.
  assert (Hwrite : ∀ line,
    ∃ w', (print line;; write_markdown (obs_id data) (obs_metadata data) (obs_content data)) w
          = (Ret (), w') ∧
          (∀ p, p ≠ file_from_id (obs_id data) → files w' !! p = files w !! p) ∧
          requests w' = requests w ∧ (∀ l, l ∈ stdout w → l ∈ stdout w')).
  { intros line. rewrite M_bind_unfold. cbn [print]. rewrite write_markdown_unfold. cbv zeta.
    eexists. split; [reflexivity|].
    pose proof (fs_write_other (disk (nwrites (add_line line w)))
                  (file_from_id (obs_id data))
                  (create_markdown_str (obs_metadata data) (obs_content data))
                  (files (add_line line w))) as Hother.
    destruct (fst (fs_write _ _ _ _)); cbn in *;
      (split; [exact Hother|]; split; [reflexivity|]);
      intros l Hl; rewrite ?elem_of_app; auto. }
  destruct (bool_decide (obs_id data ∈ saved)) eqn:Hin.
  - apply bool_decide_eq_true in Hin. destruct (Hread Hin) as [[fm c] ->].
    destruct fm as [fm|].
    + destruct (py_eq (PyDict fm) (PyDict (obs_metadata data))); cbn [negb].
      * eexists. split; [reflexivity|]. auto.
      * apply Hwrite.
    + eexists. split; [reflexivity|]. cbn. split; [auto|]. split; [reflexivity|].
      intros l Hl. apply elem_of_app. auto.
  - apply Hwrite.
Qed.

Lemma reconcile_safe saved recs w :
  NoDup (map obs_id recs) →
  (∀ r, r ∈ recs → obs_id r ∈ saved → is_Some (read_hugo_markdown (obs_id r) w)) →
  ∃ w', reconcile saved recs w = (Ret (), w') ∧
        (∀ p, p ∉ map (λ r, file_from_id (obs_id r)) recs → files w' !! p = files w !! p) ∧
        requests w' = requests w ∧
        (∀ l, l ∈ stdout w → l ∈ stdout w').
Proof.
  revert w. induction recs as [|data recs IH]; intros w Hdup Hread.
  - eexists. split; [reflexivity|]. auto.
  - apply NoDup_cons in Hdup as [Hfresh Hdup].
    destruct (reconcile_one_safe saved data w) as (w1 & Hone & Hf1 & Hr1 & Hs1).
    { apply Hread. apply list_elem_of_here. }
    destruct (IH w1 Hdup) as (w2 & Hrest & Hf2 & Hr2 & Hs2).
    { intros r Hr Hsaved.
      rewrite (read_hugo_markdown_files _ w w1).
      - apply Hread; [apply list_elem_of_further; exact Hr|exact Hsaved].
      - apply Hf1. intros Heq. apply file_from_id_inj in Heq.
        apply Hfresh. rewrite <- Heq. apply list_elem_of_fmap. eauto. }
    exists w2. cbn [reconcile]. rewrite M_bind_unfold, Hone. split; [exact Hrest|].
    split; [|split; [congruence|auto]].
    intros p Hp. cbn [map] in Hp. apply not_elem_of_cons in Hp as [Hp1 Hp2].
    rewrite (Hf2 p Hp2). apply Hf1. exact Hp1.
Qed.





(** ** A run that creates one file *)

Lemma saved_ids_of_empty : saved_ids_of ∅ = ∅.
Proof. unfold saved_ids_of. rewrite dom_empty_L, elements_empty. reflexivity. Qed.

Lemma reconcile_single saved data w :
  reconcile saved [data] w = reconcile_one saved data w.
Proof.
  cbn [reconcile]. rewrite M_bind_unfold.
  destruct (reconcile_one saved data w) as [[[]| | |] w']; reflexivity.
Qed.

Lemma reconcile_one_new saved data w :
  obs_id data ∉ saved →
  reconcile_one saved data w =
  write_markdown (obs_id data) (obs_metadata data) (obs_content data)
    (add_line (lit "Creating id " ++ obs_id data) w).
Proof.
  intros Hnew. unfold reconcile_one. rewrite bool_decide_false by exact Hnew.
  reflexivity.
Qed.

Lemma write_markdown_ok id_num fm c w :
  disk (nwrites w) = NoFault →
  utf8_encodable c = true →
  write_markdown id_num fm c w =
  (Ret (), after_write (<[file_from_id id_num := Text (create_markdown_str fm c)]> (files w)) w).
Proof.
  intros Hdisk Henc. rewrite write_markdown_unfold, Hdisk. unfold fs_write.
  rewrite create_markdown_str_encodable, Henc. reflexivity.
Qed.

(** C9, as the code has it. Start from an empty store; let the service
    list the single id 123 and then an empty page, send a complete detail
    document for it, and let the disk meet no fault. Then the run ends
    normally and the store holds exactly one file, [.//123.md], written from
    a metadata mapping with exactly the 18 keys [metadata_keys]:
    [syndication], [date], [taxon] and the fifteen desired fields. *)
Theorem single_record_creates_file (fuel : nat) (obs : pyval) :
  is_page (net 0) [PyInt 123] →
  is_page (net 1) [] →
  parsed_detail (net 2) = Some obs →
  Forall (λ p, is_Some (lookup_path obs p)) required_fields →
  disk 0 = NoFault →
  2 ≤ fuel →
  ∃ md w', main fuel (initial_world ∅) = (Ret (), w') ∧
     files w' = {[ lit ".//123.md" := Text (create_markdown_str md []) ]} ∧
     dict_keys md = metadata_keys ∧
     length metadata_keys = 18.
Proof.
  intros Hpage Hempty Hobs Hcomplete Hdisk Hfuel.
  assert (Hlist := listing_returns_pages fuel (initial_world ∅) [[PyInt 123]] I).
  destruct (reformat_obs_complete (PyInt 123) obs Hcomplete) as (md & Hre & Hkeys).
  exists md.
  rewrite (main_unfold _ _ _ _ (Hlist ltac:(intros [|i] ids Hi; [injection Hi as <-; cbn; repeat split; [exact Hpage|discriminate]|destruct i; discriminate]) Hempty ltac:(cbn; lia))).
  cbn [concat app].
  rewrite (fetch_step_parsed _ _ _ _ obs) by exact Hobs.
  rewrite Hre. unfold retrieve_data_loop. cbn [app].
  unfold mret, M_ret. cbn beta iota.
  rewrite M_bind_unfold, reconcile_single, reconcile_one_new;
    [|cbn [files initial_world]; rewrite saved_ids_of_empty; apply not_elem_of_empty].
  cbn [obs_id obs_metadata obs_content].
  rewrite write_markdown_ok; [|exact Hdisk|reflexivity].
  eexists. split; [reflexivity|].
  split; [|split; [exact Hkeys|reflexivity]].
  cbn. rewrite insert_empty. reflexivity.
Qed.

(** ** The round trip through a file *)

(** Writing a document and splitting it again, when the JSON text of the
    front matter has no [---] in it. *)
Lemma hugo_roundtrip fm content :
  occurrences (lit "---") (json_dumps (PyDict fm)) = [] →
  hugo_markdown_to_json (create_markdown_str fm content) =
  Ret (Some (dict_or_none (json_loads (nl ++ json_dumps (PyDict fm) ++ nl)), content)).
Proof.
  intros Hocc. rewrite hugo_markdown_to_json_occurrences.
  destruct (create_markdown_str_occurrences fm content Hocc) as [rest ->].
  set (D := json_dumps (PyDict fm)).
  do 3 f_equal.
  - do 2 f_equal. unfold create_markdown_str. fold D.
    set (tail := lit "---" ++ nl ++ lit "{{< unsafe >}}" ++ nl
                 ++ content ++ nl ++ lit "{{< /unsafe >}}" ++ nl).
    replace (lit "---" ++ nl ++ D ++ nl ++ tail)
      with (lit "---" ++ (nl ++ D ++ nl) ++ tail)
      by (rewrite <- !app_assoc; reflexivity).
    replace (Z.of_nat 0 + 3)%Z with (Z.of_nat (length (lit "---"))) by reflexivity.
    replace (Z.of_nat (length D + 5))
      with (Z.of_nat (length (lit "---") + length (nl ++ D ++ nl)))
      by (rewrite !length_app; change (length (lit "---")) with 3;
          change (length nl) with 1; lia).
    apply py_slice_middle.
  - unfold create_markdown_str. fold D.
    set (pre := lit "---" ++ nl ++ D ++ nl ++ lit "---" ++ nl ++ lit "{{< unsafe >}}" ++ nl).
    replace (lit "---" ++ nl ++ D ++ nl ++ lit "---" ++ nl ++ lit "{{< unsafe >}}" ++ nl
             ++ content ++ nl ++ lit "{{< /unsafe >}}" ++ nl)
      with (pre ++ content ++ (nl ++ lit "{{< /unsafe >}}" ++ nl))
      by (unfold pre; rewrite <- !app_assoc; reflexivity).
    replace (Z.of_nat (length D + 5) + 19)%Z with (Z.of_nat (length pre))
      by (unfold pre; rewrite !length_app; change (length (lit "---")) with 3;
          change (length nl) with 1; change (length (lit "{{< unsafe >}}")) with 14; lia).
    apply py_slice_tail; [reflexivity|discriminate].
Qed.

Lemma universal_newlines_no_cr s : no_cr s = true → universal_newlines s = s.
Proof.
  induction s as [|c s IH]; [reflexivity|].
  cbn [no_cr forallb universal_newlines]. intros Hs.
  apply andb_true_iff in Hs as [Hc Hs]. apply negb_true_iff in Hc. rewrite Hc.
  f_equal. apply IH. exact Hs.
Qed.

Lemma no_cr_app a b : no_cr (a ++ b) = no_cr a && no_cr b.
Proof. apply forallb_app. Qed.

Lemma printable_no_cr s : printable s = true → no_cr s = true.
Proof.
  unfold printable, no_cr. rewrite !forallb_forall.
  intros Hs c Hc. specialize (Hs c Hc). unfold is_printable in Hs.
  apply andb_true_iff in Hs as [Hle _]. apply N.leb_le in Hle.
  apply negb_true_iff, N.eqb_neq. lia.
Qed.

Lemma create_markdown_str_no_cr fm content :
  no_cr (create_markdown_str fm content) = no_cr content.
Proof.
  unfold create_markdown_str. rewrite !no_cr_app.
  rewrite (printable_no_cr _ (json_dumps_printable (PyDict fm))).
  change (no_cr (lit "---")) with true.
  change (no_cr nl) with true.
  change (no_cr (lit "{{< unsafe >}}")) with true.
  change (no_cr (lit "{{< /unsafe >}}")) with true.
  cbn. rewrite andb_true_r. reflexivity.
Qed.

(** Reading back what was just written. *)
Lemma read_after_write id_num fm content w :
  disk (nwrites w) = NoFault →
  utf8_encodable content = true →
  no_cr content = true →
  occurrences (lit "---") (json_dumps (PyDict fm)) = [] →
  read_hugo_markdown id_num (snd (write_markdown id_num fm content w)) =
  Some (dict_or_none (json_loads (nl ++ json_dumps (PyDict fm) ++ nl)), content).
Proof.
  intros Hdisk Henc Hcr Hocc.
  rewrite write_markdown_ok by assumption. cbn [snd].
  unfold read_hugo_markdown, fs_read. cbn [files after_write].
  rewrite lookup_insert_eq.
  rewrite universal_newlines_no_cr by (rewrite create_markdown_str_no_cr; exact Hcr).
  rewrite hugo_roundtrip by exact Hocc. reflexivity.
Qed.

(** X1. Round trip, where it holds. Let the write meet no fault, the
    content be encodable and free of carriage returns, and the JSON text of
    the front matter have no [---] in it. Then the file holds the document
    [create_markdown_str] builds, and reading it back gives the content
    unchanged, with both wrapper lines stripped, and as metadata what
    [json.loads] makes of the JSON text that [json.dumps] wrote (between
    two newlines). *)
Theorem write_then_read (id_num : pystr) (fm : pydict) (content : pystr) (w : world) :
  disk (nwrites w) = NoFault →
  utf8_encodable content = true →
  no_cr content = true →
  occurrences (lit "---") (json_dumps (PyDict fm)) = [] →
  let w1 := snd (write_markdown id_num fm content w) in
  fst (write_markdown id_num fm content w) = Ret () ∧
  files w1 !! file_from_id id_num = Some (Text (create_markdown_str fm content)) ∧
  read_hugo_markdown id_num w1 =
  Some (dict_or_none (json_loads (nl ++ json_dumps (PyDict fm) ++ nl)), content).
Proof.
  intros Hdisk Henc Hcr Hocc w1. unfold w1.
  split; [|split].
  - rewrite write_markdown_ok by assumption. reflexivity.
  - rewrite write_markdown_ok by assumption. cbn. apply lookup_insert_eq.
  - apply read_after_write; assumption.
Qed.

(** X2. Idempotence of one record. Under the conditions of the round
    trip, and when [json.loads] gives back a dict equal to the metadata,
    a record that was just written is left alone by the next round of the
    reconciler: the state does not change at all. *)
Theorem second_round_writes_nothing (saved : gset pystr) (data : obs_data) (w : world)
    (stored : pydict) :
  obs_id data ∈ saved →
  disk (nwrites w) = NoFault →
  utf8_encodable (obs_content data) = true →
  no_cr (obs_content data) = true →
  occurrences (lit "---") (json_dumps (PyDict (obs_metadata data))) = [] →
  json_loads (nl ++ json_dumps (PyDict (obs_metadata data)) ++ nl) = Some (PyDict stored) →
  py_eq (PyDict stored) (PyDict (obs_metadata data)) = true →
  let w1 := snd (write_markdown (obs_id data) (obs_metadata data) (obs_content data) w) in
  reconcile_one saved data w1 = (Ret (), w1).
Proof.
  intros Hin Hdisk Henc Hcr Hocc Hloads Heq w1. unfold reconcile_one.
  rewrite bool_decide_true by exact Hin.
  unfold w1. rewrite read_after_write by assumption.
  rewrite Hloads. cbn [dict_or_none]. rewrite Heq. reflexivity.
Qed.

(** ** More on reshaping and on the store *)

(** X5. What [reformat_obs] returns, when it returns: the id is the
    [str] of the id it was given, the metadata has the 18 keys
    [metadata_keys] in that order, and the content is empty. It never
    leaves the process by itself. *)
Theorem reformat_obs_shape (obsid obs : pyval) :
  match reformat_obs obsid obs with
  | Ret r =>
      obs_id r = py_str obsid ∧
      dict_keys (obs_metadata r) = metadata_keys ∧
      length (dict_keys (obs_metadata r)) = 18 ∧
      obs_content r = []
  | Raise _ => True
  | _ => False
  end.
Proof.
  pose proof (reformat_obs_cases obsid obs) as Hcases.
  destruct (reformat_obs obsid obs) as [r| | |]; try tauto.
  destruct Hcases as (_ & Hid & Hkeys & Hcontent).
  rewrite Hkeys. repeat split; assumption.
Qed.

Lemma fs_write_dom fault path text fs :
  dom fs ⊆ dom (snd (fs_write fault path text fs)).
Proof.
  unfold fs_write. destruct fault; [|set_solver|]; destruct (utf8_encodable text); cbn;
    rewrite dom_insert_L; set_solver.
Qed.

Lemma reconcile_one_dom saved data w :
  dom (files w) ⊆ dom (files (snd (reconcile_one saved data w))).
Proof.
  unfold reconcile_one.
  assert (Hwrite : ∀ line,
    dom (files w) ⊆ dom (files (snd ((print line;;
      write_markdown (obs_id data) (obs_metadata data) (obs_content data)) w)))).
  { intros line. rewrite M_bind_unfold. cbn [print]. rewrite write_markdown_unfold. cbv zeta.
    pose proof (fs_write_dom (disk (nwrites (add_line line w)))
                  (file_from_id (obs_id data))
                  (create_markdown_str (obs_metadata data) (obs_content data))
                  (files (add_line line w))) as Hdom.
    destruct (fst (fs_write _ _ _ _)); cbn in *; exact Hdom. }
  destruct (bool_decide (obs_id data ∈ saved)); [|apply Hwrite].
  destruct (read_hugo_markdown (obs_id data) w) as [[[fm|] c]|]; [|reflexivity|reflexivity].
  destruct (py_eq (PyDict fm) (PyDict (obs_metadata data))); cbn [negb]; [reflexivity|].
  apply Hwrite.
Qed.

Lemma reconcile_dom saved recs w :
  dom (files w) ⊆ dom (files (snd (reconcile saved recs w))).
Proof.
  revert w. induction recs as [|data recs IH]; intros w; [set_solver|].
  cbn [reconcile]. rewrite M_bind_unfold.
  pose proof (reconcile_one_dom saved data w) as Hone.
  destruct (reconcile_one saved data w) as [[[]| | |] w1]; cbn [snd] in *; try exact Hone.
  etransitivity; [exact Hone|apply IH].
Qed.

(** X6. The script never deletes a file: whatever the run does and
    however it ends, every path of the store is still there. *)
Theorem main_deletes_nothing (fuel : nat) (fs : gmap pystr file) :
  dom fs ⊆ dom (files (snd (main fuel (initial_world fs)))).
Proof.
  pose proof (listing_frame fuel (initial_world fs)) as [Hf1 _].
  destruct (retrieve_obs_ids_from_server fuel (initial_world fs)) as [[ids| | |] w1] eqn:Hlist;
    cbn [snd files initial_world] in Hf1.
  - rewrite (main_unfold _ _ _ _ Hlist).
    pose proof (fetch_loop_frame ids [] w1) as [Hf2 _].
    destruct (retrieve_data_loop ids [] w1) as [[recs| | |] w2];
      cbn [snd] in *; try (rewrite Hf2, Hf1; reflexivity).
    rewrite M_bind_unfold. cbn [files initial_world].
    match goal with
    | |- context [reconcile ?sv recs ?w0] =>
        pose proof (reconcile_dom sv recs w0) as Hdom;
        destruct (reconcile sv recs w0) as [[[]| | |] w3]
    end; cbn in *; rewrite Hf2, Hf1 in Hdom; exact Hdom.
  - unfold main, retrieve_data_from_server. rewrite !M_bind_unfold, Hlist.
    cbn. rewrite Hf1. reflexivity.
  - unfold main, retrieve_data_from_server. rewrite !M_bind_unfold, Hlist.
    cbn. rewrite Hf1. reflexivity.
  - unfold main, retrieve_data_from_server. rewrite !M_bind_unfold, Hlist.
    cbn. rewrite Hf1. reflexivity.
Qed.

(** ** More on the listing stage *)

Lemma listing_step_failure_lines fuel acc w :
  is_number (MIN_OBS_ID w) →
  listing_failure (net (length (requests w))) →
  ∃ w', retrieve_obs_ids_loop (S fuel) acc w = (Exit (-1), w') ∧
        stdout w' = stdout w ++ listing_failure_lines (net (length (requests w))).
Proof.
  intros Hnum Hfail.
  apply is_number_gt0 in Hnum as [b Hb].
  cbn. unfold mbind, M_bind, get_MIN_OBS_ID, lift. rewrite Hb.
  unfold urlopen, listing_failure, listing_failure_lines in *.
  destruct (net (length (requests w))) as [|body]; cbn.
  - eexists. split; [reflexivity|]. reflexivity.
  - destruct (results_of body) as [[]|]; cbn; try tauto;
      (eexists; split; [reflexivity|]; cbn; rewrite <- ?app_assoc; reflexivity).
Qed.

(** X7. What a fatal listing failure prints. Let the network send pages
    with ids and then fail a listing request. When [urlopen] raises, the
    one line printed is [Unable to grab observations from iNaturalist.].
    When the body cannot be parsed or has no [results], the script prints
    [Malformed JSON response from server.] and goes on (the test
    [if server_data is None] looks at the list collected so far, which is
    never [None]), so the next test prints [Unexpected JSON response, should
    be of form list.] as well before [sys.exit(-1)]. When [results] is
    there but is not a list, only the second line is printed. Nothing else
    is on standard output. *)
Theorem listing_failure_prints (fuel : nat) (fs : gmap pystr file)
    (pages : list (list pyval)) :
  pages_from 0 pages →
  listing_failure (net (length pages)) →
  length pages < fuel →
  stdout (snd (main fuel (initial_world fs))) = listing_failure_lines (net (length pages)) ∧
  (∀ body, net (length pages) = Response body → results_of body = None →
     stdout (snd (main fuel (initial_world fs))) =
       [lit "Malformed JSON response from server.";
        lit "Unexpected JSON response, should be of form list."]).
Proof.
  intros Hpages Hfail Hfuel.
  replace fuel with (length pages + S (fuel - S (length pages))) by lia.
  destruct (after_pages_frame pages (initial_world fs)) as (_ & _ & Hout & Hlen).
  destruct (listing_step_failure_lines (fuel - S (length pages)) (concat pages)
              (after_pages pages (initial_world fs)))
    as (w' & Hstep & Hlines).
  { apply after_pages_number; [exact I|]. eapply pages_from_numbers, Hpages. }
  { rewrite Hlen. exact Hfail. }
  rewrite (main_listing_exit _ _ (-1) w').
  2:{ rewrite listing_loop_pages; [|exact I|exact Hpages]. exact Hstep. }
  cbn [snd]. rewrite Hlines, Hout, Hlen. cbn [initial_world stdout requests length app Nat.add].
  split; [reflexivity|].
  intros body Hnet Hres. unfold listing_failure_lines. rewrite Hnet, Hres. reflexivity.
Qed.

Lemma main_listing_raise fuel w e w' :
  retrieve_obs_ids_loop fuel [] w = (Raise e, w') →
  main fuel w = (Raise e, w').
Proof.
  intros Hloop. unfold main, retrieve_data_from_server, retrieve_obs_ids_from_server.
  rewrite !M_bind_unfold, Hloop. reflexivity.
Qed.

Lemma mapR_getitem_raise page k e :
  mapR (λ d, py_getitem d k) page = Raise e → e = KeyError ∨ e = TypeError.
Proof.
  induction page as [|d page IH]; [discriminate|].
  unfold mapR; fold (@mapR pyval pyval).
  destruct (py_getitem d k) eqn:Hd; cbn.
  - destruct (mapR _ page); cbn; try discriminate. intros [= <-]. apply IH. reflexivity.
  - intros [= <-]. destruct d; cbn in Hd; try (injection Hd as <-; auto).
    destruct (dict_get k d); [discriminate|]. injection Hd as <-. auto.
  - discriminate.
  - discriminate.
Qed.

(** X8. A listing page with an entry that has no [id]. Let the network
    send pages with ids and then a body whose [results] is a list in which
    some entry is not an object or has no [id]. The comprehension
    [[d['id'] for d in server_data_part]] raises [KeyError] or [TypeError],
    nothing catches it, and the run ends with exit status 1 (not through
    [sys.exit(-1)]): nothing was printed, no file was touched. *)
Theorem listing_entry_without_id_aborts (fuel : nat) (fs : gmap pystr file)
    (pages : list (list pyval)) (body : pyval) (page : list pyval) (e : exn) :
  pages_from 0 pages →
  net (length pages) = Response (Some body) →
  py_getitem body (lit "results") = Ret (PyList page) →
  mapR (λ d, py_getitem d (lit "id")) page = Raise e →
  length pages < fuel →
  ∃ w', main fuel (initial_world fs) = (Raise e, w') ∧
        (e = KeyError ∨ e = TypeError) ∧
        exit_status (fst (main fuel (initial_world fs))) = Some 1%Z ∧
        length (requests w') = S (length pages) ∧
        stdout w' = [] ∧ files w' = fs ∧ nwrites w' = 0.
Proof.
  intros Hpages Hnet Hres Hids Hfuel.
  replace fuel with (length pages + S (fuel - S (length pages))) by lia.
  destruct (after_pages_frame pages (initial_world fs)) as (Hfiles & Hwrites & Hout & Hlen).
  pose proof (after_pages_number pages (initial_world fs) I
                (pages_from_numbers _ _ Hpages)) as Hnum.
  apply is_number_gt0 in Hnum as [b Hb].
  eexists. split.
  - apply main_listing_raise. rewrite listing_loop_pages; [|exact I|exact Hpages].
    cbn. unfold mbind, M_bind, get_MIN_OBS_ID, lift. rewrite Hb.
    unfold urlopen. rewrite Hlen. cbn [initial_world requests length Nat.add].
    rewrite Hnet. cbn. rewrite Hres. cbn.
    destruct page as [|d page]; [discriminate|].
    cbn. unfold lift. rewrite Hids. reflexivity.
  - split; [exact (mapR_getitem_raise _ _ _ Hids)|].
    rewrite main_listing_raise with (e := e)
      (w' := add_request (listing_url (if b then lit "&id_below=" ++ py_str (MIN_OBS_ID (after_pages pages (initial_world fs))) else [])) (after_pages pages (initial_world fs))).
    + cbn. rewrite length_app, Hlen, Hfiles, Hwrites, Hout. cbn. repeat split; lia.
    + rewrite listing_loop_pages; [|exact I|exact Hpages].
      cbn. unfold mbind, M_bind, get_MIN_OBS_ID, lift. rewrite Hb.
      unfold urlopen. rewrite Hlen. cbn [initial_world requests length Nat.add].
      rewrite Hnet. cbn. rewrite Hres. cbn.
      destruct page as [|d page]; [discriminate|].
      cbn. unfold lift. rewrite Hids. reflexivity.
Qed.

(** X9. Ids must be numbers. Let the network send pages with ids and
    then a page whose last id is not an [int] (a string, [null], a list, an
    object). The page is accepted and the cursor is set to that id; the next
    round of the loop evaluates [MIN_OBS_ID > 0], which raises [TypeError]
    before any request is made: the run ends with exit status 1. *)
Theorem listing_cursor_must_be_number (fuel : nat) (fs : gmap pystr file)
    (pages : list (list pyval)) (ids : list pyval) :
  pages_from 0 pages →
  is_page (net (length pages)) ids →
  ids ≠ [] →
  ¬ is_number (List.last ids PyNone) →
  S (length pages) < fuel →
  ∃ w', main fuel (initial_world fs) = (Raise TypeError, w') ∧
        exit_status (fst (main fuel (initial_world fs))) = Some 1%Z ∧
        length (requests w') = S (length pages) ∧
        MIN_OBS_ID w' = List.last ids PyNone ∧
        stdout w' = [] ∧ files w' = fs ∧ nwrites w' = 0.
Proof.
  intros Hpages Hpage Hne Hlast Hfuel.
  replace fuel with (length pages + S (S (fuel - S (S (length pages))))) by lia.
  destruct (after_pages_frame pages (initial_world fs)) as (Hfiles & Hwrites & Hout & Hlen).
  pose proof (after_pages_number pages (initial_world fs) I
                (pages_from_numbers _ _ Hpages)) as Hnum.
  assert (Hloop : retrieve_obs_ids_loop (length pages + S (S (fuel - S (S (length pages)))))
                    [] (initial_world fs) =
                  (Raise TypeError,
                   set_cursor (List.last ids PyNone)
                     (add_request
                        (listing_url (id_below_of (MIN_OBS_ID (after_pages pages (initial_world fs)))))
                        (after_pages pages (initial_world fs))))).
  { rewrite listing_loop_pages; [|exact I|exact Hpages].
    rewrite (listing_step_page _ _ _ ids Hnum); [|rewrite Hlen; exact Hpage|exact Hne].
    cbn. unfold mbind, M_bind, get_MIN_OBS_ID, lift. cbn.
    destruct (List.last ids PyNone); cbn in *; try tauto; reflexivity. }
  eexists. rewrite (main_listing_raise _ _ _ _ Hloop).
  split; [reflexivity|]. cbn. rewrite length_app, Hlen, Hfiles, Hwrites, Hout. cbn.
  repeat split; lia.
Qed.

Lemma listing_loop_endless fuel acc w :
  (∀ k, ∃ ids, is_page (net k) ids ∧ ids ≠ [] ∧ is_number (List.last ids PyNone)) →
  is_number (MIN_OBS_ID w) →
  fst (retrieve_obs_ids_loop fuel acc w) = OutOfFuel.
Proof.
  intros Hnet. revert acc w. induction fuel as [|fuel IH]; intros acc w Hnum; [reflexivity|].
  destruct (Hnet (length (requests w))) as (ids & Hpage & Hne & Hlast).
  rewrite (listing_step_page _ _ _ ids Hnum Hpage Hne). apply IH. exact Hlast.
Qed.

(** X10. The listing loop has no bound of its own. If the service
    answers every listing request with a page that has ids (ending in a
    number), the loop never ends: whatever the number of rounds granted, the
    model runs out of them. No file is touched meanwhile. *)
Theorem listing_needs_empty_page (fuel : nat) (fs : gmap pystr file) :
  (∀ k, ∃ ids, is_page (net k) ids ∧ ids ≠ [] ∧ is_number (List.last ids PyNone)) →
  fst (retrieve_obs_ids_from_server fuel (initial_world fs)) = OutOfFuel ∧
  fst (main fuel (initial_world fs)) = OutOfFuel ∧
  files (snd (main fuel (initial_world fs))) = fs.
Proof.
  intros Hnet.
  pose proof (listing_loop_endless fuel [] (initial_world fs) Hnet I) as Hloop.
  pose proof (listing_loop_frame fuel [] (initial_world fs)) as [Hfiles _].
  unfold main, retrieve_data_from_server, retrieve_obs_ids_from_server.
  rewrite !M_bind_unfold.
  destruct (retrieve_obs_ids_loop fuel [] (initial_world fs)) as [[ids| | |] w'];
    try discriminate.
  cbn in *. auto.
Qed.

Lemma last_cons {A} (x : A) (l : list A) (d : A) : List.last (x :: l) d = List.last l x.
Proof.
  revert x d. induction l as [|y l IH]; intros x d; [reflexivity|].
  change (List.last (x :: y :: l) d) with (List.last (y :: l) d).
  rewrite !IH. reflexivity.
Qed.

Lemma last_app_default {A} (a b : list A) (d : A) :
  List.last (a ++ b) d = List.last b (List.last a d).
Proof.
  revert d. induction a as [|x a IH]; intros d; [reflexivity|].
  rewrite <- app_comm_cons, !last_cons. apply IH.
Qed.

Lemma after_pages_cursor pages w :
  Forall (λ ids, ids ≠ []) pages →
  MIN_OBS_ID (after_pages pages w) = List.last (concat pages) (MIN_OBS_ID w).
Proof.
  intros Hne. revert w. induction Hne as [|ids pages Hids _ IH]; intros w; [reflexivity|].
  cbn [after_pages concat]. rewrite IH, last_app_default. cbn [MIN_OBS_ID set_cursor].
  destruct ids as [|x ids]; [congruence|]. rewrite !last_cons. reflexivity.
Qed.

(** X11. What the listing stage leaves behind when it returns: one line
    on standard output with the number of ids, one request per page and one
    for the empty page, and the module-level cursor [MIN_OBS_ID] at the last
    id listed (it is not reset, so a second listing in the same process
    would start below it). *)
Theorem listing_summary (fuel : nat) (fs : gmap pystr file) (pages : list (list pyval)) :
  pages_from 0 pages →
  is_page (net (length pages)) [] →
  length pages < fuel →
  let w' := snd (retrieve_obs_ids_from_server fuel (initial_world fs)) in
  stdout w' = [lit "Parsed a total of " ++ str_of_Z (Z.of_nat (length (concat pages)))
               ++ lit " ids from server"] ∧
  length (requests w') = S (length pages) ∧
  MIN_OBS_ID w' = List.last (concat pages) (PyInt (-1)) ∧
  files w' = fs ∧ nwrites w' = 0.
Proof.
  intros Hpages Hempty Hfuel.
  rewrite (listing_returns_pages fuel (initial_world fs) pages);
    [|exact I|exact Hpages|exact Hempty|exact Hfuel].
  destruct (after_pages_frame pages (initial_world fs)) as (Hfiles & Hwrites & Hout & Hlen).
  cbn. rewrite length_app, Hlen, Hfiles, Hwrites, Hout. cbn.
  rewrite after_pages_cursor.
  - repeat split; lia.
  - apply Forall_lookup. intros i ids Hi. apply (Hpages i ids Hi).
Qed.

(** ** More on the fetch stage and on reshaping *)

Lemma mapR_cons {A B} (f : A → result B) x l :
  mapR f (x :: l) = (y ← f x; ys ← mapR f l; Ret (y :: ys)).
Proof. reflexivity. Qed.

Lemma fetch_loop_result ids acc w :
  fst (retrieve_data_loop ids acc w) =
  (recs ← mapR (λ p, reformat_obs p.1 p.2) (fetched_details (length (requests w)) ids);
   Ret (acc ++ recs)).
Proof.
  revert acc w. induction ids as [|id_num ids IH]; intros acc w.
  - unfold retrieve_data_loop, mapR. cbn. rewrite app_nil_r. reflexivity.
  - cbn [fetched_details].
    destruct (parsed_detail (net (length (requests w)))) as [obs|] eqn:Hd.
    + rewrite (fetch_step_parsed _ _ _ _ _ Hd). cbn [app]. rewrite mapR_cons. cbn [fst snd].
      destruct (reformat_obs id_num obs) as [r| | |]; cbn [mbind result_bind fst]; try reflexivity.
      rewrite IH. cbn [requests add_request]. rewrite length_app. cbn [length].
      replace (length (requests w) + 1) with (S (length (requests w))) by lia.
      destruct (mapR _ (fetched_details (S (length (requests w))) ids)) as [recs| | |];
        cbn [mbind result_bind]; try reflexivity.
      rewrite <- app_assoc. reflexivity.
    + rewrite (fetch_step_failed _ _ _ _ Hd). rewrite IH.
      cbn [requests add_request add_line]. rewrite length_app. cbn [length app].
      replace (length (requests w) + 1) with (S (length (requests w))) by lia.
      reflexivity.
Qed.

Lemma fetch_loop_requests ids acc w recs w' :
  retrieve_data_loop ids acc w = (Ret recs, w') →
  requests w' = requests w ++ map detail_url ids.
Proof.
  revert acc w. induction ids as [|id_num ids IH]; intros acc w.
  - intros [= <- <-]. cbn. rewrite app_nil_r. reflexivity.
  - destruct (parsed_detail (net (length (requests w)))) as [obs|] eqn:Hd.
    + rewrite (fetch_step_parsed _ _ _ _ _ Hd).
      destruct (reformat_obs id_num obs) as [r| | |]; try discriminate.
      intros Hloop. apply IH in Hloop. rewrite Hloop. cbn. rewrite <- app_assoc. reflexivity.
    + rewrite (fetch_step_failed _ _ _ _ Hd).
      intros Hloop. apply IH in Hloop. rewrite Hloop. cbn. rewrite <- app_assoc. reflexivity.
Qed.

(** The fetch stage, as a function of what the network answers, for
    text that [print] can encode. *)
Lemma fetch_stage_result (fuel : nat) (w : world) (ids : list pyval) (w1 : world) :
  retrieve_obs_ids_from_server fuel w = (Ret ids, w1) →
  fst (retrieve_data_from_server fuel w) =
    mapR (λ p, reformat_obs p.1 p.2) (fetched_details (length (requests w1)) ids) ∧
  ∀ recs w', retrieve_data_from_server fuel w = (Ret recs, w') →
    requests w' = requests w1 ++ map detail_url ids ∧
    List.last (stdout w') [] =
      lit "Successfully obtained " ++ str_of_Z (Z.of_nat (length recs))
      ++ lit " observations from the server." ∧
    files w' = files w ∧ nwrites w' = nwrites w.
Proof.
  intros Hlist. unfold retrieve_data_from_server.
  rewrite !M_bind_unfold, Hlist. cbn beta iota. rewrite !M_bind_unfold.
  pose proof (fetch_loop_result ids [] w1) as Hres.
  pose proof (fetch_loop_frame ids [] w1) as [Hf Hn].
  pose proof (listing_frame fuel w) as [Hf1 Hn1]. rewrite Hlist in Hf1, Hn1. cbn in Hf1, Hn1.
  destruct (retrieve_data_loop ids [] w1) as [[server_data|e|c|] w2] eqn:Hloop;
    cbn [fst] in Hres; cbn [snd] in Hf, Hn; cbn [fst].
  - split.
    + destruct (mapR _ _) as [recs| | |]; cbn in Hres; try discriminate.
      injection Hres as ->. reflexivity.
    + intros recs w' [= <- <-]. cbn [requests stdout files nwrites add_line].
      rewrite last_last. split; [exact (fetch_loop_requests _ _ _ _ _ Hloop)|].
      split; [reflexivity|]. split; congruence.
  - split; [|discriminate].
    destruct (mapR _ _) as [recs| | |]; cbn in Hres; congruence.
  - split; [|discriminate].
    destruct (mapR _ _) as [recs| | |]; cbn in Hres; congruence.
  - split; [|discriminate].
    destruct (mapR _ _) as [recs| | |]; cbn in Hres; congruence.
Qed.

Lemma dict_set_fresh k v d : k ∉ dict_keys d → dict_set k v d = d ++ [(k, v)].
Proof.
  unfold dict_keys. induction d as [|[k' v'] d IH]; intros Hk; [reflexivity|].
  cbn [dict_set]. cbn in Hk. apply not_elem_of_cons in Hk as [Hne Hk].
  destruct (decide (k = k')); [congruence|]. rewrite IH by exact Hk. reflexivity.
Qed.

Lemma py_getitem_field o k :
  is_Some (lookup_path o [k]) → py_getitem o k = Ret (field o [k]).
Proof.
  intros [v Hv]. unfold field. rewrite Hv. cbn.
  pose proof (py_getitem_cases o k) as Hk.
  destruct (py_getitem o k); try tauto; congruence.
Qed.

Lemma foldR_copies obs keys md :
  NoDup keys →
  (∀ k, k ∈ keys → k ∉ dict_keys md) →
  Forall (λ k, is_Some (lookup_path obs [k])) keys →
  foldR (λ md key, v ← py_getitem obs key; Ret (dict_set key v md)) keys md
  = Ret (md ++ map (λ k, (k, field obs [k])) keys).
Proof.
  revert md. induction keys as [|k keys IH]; intros md Hnd Hfresh Hall; cbn [foldR map].
  - rewrite app_nil_r. reflexivity.
  - apply NoDup_cons in Hnd as [Hk Hnd]. apply Forall_cons in Hall as [Hhere Hall].
    rewrite (py_getitem_field _ _ Hhere). cbn [mbind result_bind].
    rewrite dict_set_fresh by (apply Hfresh; left).
    rewrite IH; [|exact Hnd| |exact Hall].
    + rewrite <- app_assoc. reflexivity.
    + intros k' Hk'. unfold dict_keys. rewrite map_app. cbn.
      intros Hin. apply elem_of_app in Hin as [Hin|Hin].
      * apply (Hfresh k'); [right; exact Hk'|exact Hin].
      * apply list_elem_of_singleton in Hin. congruence.
Qed.

Lemma desired_fields_NoDup : NoDup desired_fields.
Proof. apply (bool_decide_unpack _). vm_compute. reflexivity. Qed.

(** X13. What [reformat_obs] copies. When the document has every
    required field, the record has the id [str(obsid)], empty content, and
    exactly the metadata [reshaped_metadata]: [uri] under [syndication],
    [time_observed_at] under [date], [taxon.name] and
    [taxon.preferred_common_name] as [name] and [common_name] of a new dict
    under [taxon], then each of the fifteen desired fields under its own
    name, with its value unchanged, in the order of the list. Every other
    field of the document is dropped. *)
Theorem reformat_obs_copies_fields (obsid obs : pyval) :
  Forall (λ p, is_Some (lookup_path obs p)) required_fields →
  reformat_obs obsid obs = Ret (ObsData (py_str obsid) (reshaped_metadata obs) []).
Proof.
  intros Hall. unfold required_fields in Hall. apply Forall_app in Hall as [Hfirst Hrest].
  apply Forall_cons in Hfirst as [Huri Hfirst].
  apply Forall_cons in Hfirst as [Htime Hfirst].
  apply Forall_cons in Hfirst as [Hname Hfirst].
  apply Forall_cons in Hfirst as [Hcommon _].
  assert (Hrest' : Forall (λ k, is_Some (lookup_path obs [k])) desired_fields).
  { apply Forall_forall. intros k Hk. rewrite Forall_forall in Hrest. apply Hrest.
    apply (list_elem_of_fmap_2 (λ k : pystr, [k])). exact Hk. }
  unfold reformat_obs.
  rewrite (py_getitem_field _ _ Huri). cbn [mbind result_bind].
  rewrite (py_getitem_field _ _ Htime). cbn [mbind result_bind].
  assert (Htaxon : is_Some (lookup_path obs [lit "taxon"])).
  { destruct (lookup_path obs [lit "taxon"]) eqn:Ht; [eauto|].
    rewrite (lookup_path_step_none _ _ _ Ht) in Hname. exact Hname. }
  rewrite (py_getitem_field _ _ Htaxon). cbn [mbind result_bind].
  destruct Htaxon as [taxon Htaxon].
  assert (Hf : field obs [lit "taxon"] = taxon) by (unfold field; rewrite Htaxon; reflexivity).
  rewrite Hf.
  rewrite (lookup_path_step _ _ _ _ Htaxon) in Hname.
  rewrite (lookup_path_step _ _ _ _ Htaxon) in Hcommon.
  rewrite (py_getitem_field _ _ Hname). cbn [mbind result_bind].
  rewrite (py_getitem_field _ _ Hcommon). cbn [mbind result_bind].
  rewrite foldR_copies; [| exact desired_fields_NoDup | | exact Hrest'].
  - cbn [mbind result_bind]. unfold reshaped_metadata.
    assert (Hn : field obs [lit "taxon"; lit "name"] = field taxon [lit "name"])
      by (unfold field; rewrite (lookup_path_step _ _ _ _ Htaxon); reflexivity).
    assert (Hc : field obs [lit "taxon"; lit "preferred_common_name"]
                 = field taxon [lit "preferred_common_name"])
      by (unfold field; rewrite (lookup_path_step _ _ _ _ Htaxon); reflexivity).
    rewrite Hn, Hc. reflexivity.
  - assert (Hdisj : Forall (λ k, k ∉ [lit "syndication"; lit "date"; lit "taxon"])
                      desired_fields)
      by (apply (bool_decide_unpack _); vm_compute; reflexivity).
    rewrite Forall_forall in Hdisj. intros k Hk. rewrite !dict_keys_set. exact (Hdisj k Hk).
Qed.

(** X14. [taxon] must be an object. If the document has [uri],
    [time_observed_at] and a [taxon] that is not an object ([null], say),
    [obs_json['taxon']['name']] raises [TypeError]: for [reformat_obs] such
    a document lacks the required field [taxon.name]. *)
Theorem reformat_obs_needs_taxon_object (obsid : pyval) (d : pydict)
    (uri observed taxon : pyval) :
  dict_get (lit "uri") d = Some uri →
  dict_get (lit "time_observed_at") d = Some observed →
  dict_get (lit "taxon") d = Some taxon →
  (∀ t, taxon ≠ PyDict t) →
  reformat_obs obsid (PyDict d) = Raise TypeError ∧
  lookup_path (PyDict d) [lit "taxon"; lit "name"] = None.
Proof.
  intros Huri Htime Htaxon Hnot. unfold reformat_obs. cbn [py_getitem].
  rewrite Huri, Htime, Htaxon. cbn [mbind result_bind].
  unfold lookup_path. rewrite Htaxon.
  destruct taxon; try (split; reflexivity). exfalso. eapply Hnot. reflexivity.
Qed.

(** ** Edge cases of [findall]; the files the script wrote *)

Lemma occurrences_from_empty_pattern s i :
  occurrences_from [] s i = seq i (S (length s)).
Proof.
  revert i. induction s as [|c s IH]; intros i; [reflexivity|].
  cbn [occurrences_from starts_with app length]. rewrite IH. reflexivity.
Qed.

Lemma starts_with_length p s : starts_with p s = true → length p ≤ length s.
Proof.
  revert s. induction p as [|a p IH]; intros s; cbn; [lia|].
  destruct s as [|b s]; [discriminate|].
  intros Hs. apply andb_true_iff in Hs as [_ Hs]. apply IH in Hs. cbn. lia.
Qed.

Lemma occurrences_from_short p s i :
  length s < length p → occurrences_from p s i = [].
Proof.
  revert i. induction s as [|c s IH]; intros i Hlen; cbn [occurrences_from].
  - destruct (starts_with p []) eqn:Hs; [apply starts_with_length in Hs; lia|reflexivity].
  - destruct (starts_with p (c :: s)) eqn:Hs; [apply starts_with_length in Hs; lia|].
    cbn [app]. apply IH. cbn in Hlen. lia.
Qed.

(** X15. [findall] at the edges. The empty pattern is found at every
    position from 0 to [len(s)] inclusive (and the loop still ends); a
    pattern longer than the text is found nowhere; in the empty text the
    empty pattern is found once, at 0, and any other pattern not at all. *)
Theorem findall_edge_cases (p s : pystr) :
  findall [] s = map Z.of_nat (seq 0 (S (length s))) ∧
  (length s < length p → findall p s = []) ∧
  findall p [] = match p with [] => [0%Z] | _ :: _ => [] end.
Proof.
  rewrite !findall_occurrences. unfold occurrences. split; [|split].
  - rewrite occurrences_from_empty_pattern. reflexivity.
  - intros Hlen. rewrite occurrences_from_short by exact Hlen. reflexivity.
  - destruct p as [|a p]; [reflexivity|].
    rewrite occurrences_from_short by (cbn; lia). reflexivity.
Qed.

Lemma universal_newlines_app_no_cr a b :
  no_cr a = true → universal_newlines (a ++ b) = a ++ universal_newlines b.
Proof.
  induction a as [|c a IH]; [reflexivity|].
  cbn [no_cr forallb]. intros Ha. apply andb_true_iff in Ha as [Hc Ha].
  apply negb_true_iff in Hc. rewrite <- !app_comm_cons. cbn [universal_newlines].
  rewrite Hc. f_equal. apply IH. exact Ha.
Qed.

Lemma two_members {A} (l : list A) (a b : A) :
  a ∈ l → b ∈ l → a ≠ b → ∃ x y rest, l = x :: y :: rest.
Proof.
  intros Ha Hb Hne. destruct l as [|x [|y rest]].
  - inversion Ha.
  - apply list_elem_of_singleton in Ha, Hb. congruence.
  - eauto.
Qed.

Lemma written_text_delimiters fm content :
  ∃ i0 i1 rest,
    occurrences (lit "---") (universal_newlines (create_markdown_str fm content))
    = i0 :: i1 :: rest.
Proof.
  set (J := json_dumps (PyDict fm)).
  set (tail := lit "{{< unsafe >}}" ++ nl ++ content ++ nl ++ lit "{{< /unsafe >}}" ++ nl).
  assert (Hdoc : create_markdown_str fm content
                 = (lit "---" ++ nl ++ J ++ nl) ++ (lit "---" ++ nl) ++ tail).
  { unfold create_markdown_str, tail. fold J. rewrite <- !app_assoc. reflexivity. }
  assert (Hcr : no_cr ((lit "---" ++ nl ++ J ++ nl) ++ lit "---" ++ nl) = true).
  { rewrite !no_cr_app. unfold J.
    rewrite (printable_no_cr _ (json_dumps_printable (PyDict fm))). reflexivity. }
  rewrite Hdoc, app_assoc, (universal_newlines_app_no_cr _ _ Hcr).
  set (rest := universal_newlines tail).
  apply (two_members _ 0 (length (lit "---" ++ nl ++ J ++ nl))).
  - apply occurrences_from_spec. split; [lia|]. split; [lia|].
    cbn [Nat.sub drop]. rewrite <- !app_assoc. reflexivity.
  - apply occurrences_from_spec. split; [lia|]. split.
    + rewrite !length_app. lia.
    + rewrite Nat.sub_0_r, <- (app_assoc (lit "---" ++ nl ++ J ++ nl)), drop_app_length.
      reflexivity.
  - rewrite !length_app. change (length (lit "---")) with 3. lia.
Qed.

(** X16. A file the script wrote can always be read back. Whatever the
    metadata (a [---] inside a string included) and whatever the content,
    after a write without fault [read_hugo_markdown] returns a pair: the
    text starts with a delimiter and has a second one, at the latest after
    the JSON line. So a record written by an earlier run never makes the
    unpacking in the module-level loop fail; at worst its front matter
    reads back as [None]. *)
Theorem written_record_is_readable (id_num : pystr) (fm : pydict) (content : pystr)
    (w : world) :
  disk (nwrites w) = NoFault →
  utf8_encodable content = true →
  ∃ saved_fm saved_content,
    read_hugo_markdown id_num (snd (write_markdown id_num fm content w))
    = Some (saved_fm, saved_content).
Proof.
  intros Hdisk Henc.
  rewrite write_markdown_ok by assumption. cbn [snd].
  unfold read_hugo_markdown, fs_read. cbn [files after_write].
  rewrite lookup_insert_eq, hugo_markdown_to_json_occurrences.
  destruct (written_text_delimiters fm content) as (i0 & i1 & rest & ->). eauto.
Qed.

(** X17. The front matter is one line of printable ASCII. [json.dumps]
    with its defaults escapes every character outside U+0020..U+007E, so
    the JSON text has no newline in it and sits alone on the second line of
    the document, between the two delimiter lines; and whether the document
    can be encoded as UTF-8 depends on the content only. *)
Theorem front_matter_is_one_line (fm : pydict) (content : pystr) :
  let J := json_dumps (PyDict fm) in
  Forall (λ c, (32 ≤ c ≤ 126)%N) J ∧
  (10%N ∉ J) ∧
  create_markdown_str fm content =
    (lit "---" ++ nl ++ J ++ nl ++ lit "---" ++ nl) ++
    lit "{{< unsafe >}}" ++ nl ++ content ++ nl ++ lit "{{< /unsafe >}}" ++ nl ∧
  utf8_encodable (create_markdown_str fm content) = utf8_encodable content.
Proof.
  intros J.
  assert (Hall : Forall (λ c, (32 ≤ c ≤ 126)%N) J).
  { pose proof (json_dumps_printable (PyDict fm)) as Hp. fold J in Hp.
    unfold printable in Hp. rewrite forallb_forall in Hp.
    apply Forall_forall. intros c Hc. apply list_elem_of_In in Hc. specialize (Hp c Hc).
    unfold is_printable in Hp. apply andb_true_iff in Hp as [H1 H2].
    apply N.leb_le in H1, H2. lia. }
  split; [exact Hall|]. split; [|split].
  - intros Hin. rewrite Forall_forall in Hall. specialize (Hall _ Hin). lia.
  - unfold create_markdown_str. fold J. rewrite <- !app_assoc. reflexivity.
  - apply create_markdown_str_encodable.
Qed.

(** X18. The branch [Unable to read saved data id]. If the stored file
    of a saved id can be read and has two delimiters, but the text between
    them is not a JSON object (it does not parse, or parses to a list, a
    number, ...), the record is reported and skipped: one line is printed,
    and nothing else changes, so the file is never repaired by a later
    run. *)
Theorem unparsable_front_matter_is_skipped (saved : gset pystr) (data : obs_data)
    (w : world) (text : pystr) (i0 i1 : nat) (rest : list nat) :
  obs_id data ∈ saved →
  fs_read (file_from_id (obs_id data)) (files w) = Some text →
  occurrences (lit "---") text = i0 :: i1 :: rest →
  (∀ d, json_loads (py_slice text (Z.of_nat i0 + 3) (Z.of_nat i1)) ≠ Some (PyDict d)) →
  reconcile_one saved data w =
  (Ret (), add_line (lit "Unable to read saved data id " ++ obs_id data) w).
Proof.
  intros Hin Hread Hocc Hbad. unfold reconcile_one.
  rewrite bool_decide_true by exact Hin.
  unfold read_hugo_markdown. rewrite Hread, hugo_markdown_to_json_occurrences, Hocc.
  destruct (json_loads _) as [[| | | | |d]|] eqn:Hj; cbn [dict_or_none]; try reflexivity.
  exfalso. exact (Hbad d eq_refl).
Qed.

Lemma path_stem_file_from_id id_num :
  plain_name id_num → path_stem (file_from_id id_num) = Some id_num.
Proof.
  intros (Hne & Hslash & Hdot). unfold path_stem, file_from_id.
  rewrite app_assoc, drop_app_length.
  replace (length (id_num ++ lit ".md") - 3) with (length id_num)
    by (rewrite length_app; change (length (lit ".md")) with 3; lia).
  rewrite take_app_length, <- app_assoc.
  rewrite bool_decide_true by reflexivity.
  rewrite bool_decide_false by exact Hne.
  rewrite bool_decide_false by exact Hslash.
  rewrite Hdot. reflexivity.
Qed.

Lemma path_stem_inv path stem :
  path_stem path = Some stem → path = file_from_id stem ∧ plain_name stem.
Proof.
  unfold path_stem. set (name := drop _ path). set (st := take _ name).
  destruct (bool_decide (path = _)) eqn:Hpath; [|discriminate].
  destruct (bool_decide (st = [])) eqn:Hne; [discriminate|].
  destruct (bool_decide (47%N ∈ st)) eqn:Hslash; [discriminate|].
  destruct (starts_with (lit ".") st) eqn:Hdot; [discriminate|].
  cbn. intros [= <-].
  apply bool_decide_eq_true in Hpath. apply bool_decide_eq_false in Hne, Hslash.
  split; [|split; [exact Hne|split; [exact Hslash|exact Hdot]]].
  unfold file_from_id. rewrite <- app_assoc in Hpath. exact Hpath.
Qed.

Lemma string_of_uint_id_chars d : forallb id_char (lit (NilEmpty.string_of_uint d)) = true.
Proof.
  induction d; [reflexivity|..];
    (change (forallb id_char (lit (NilEmpty.string_of_uint d)) = true) in IHd;
     cbn [NilEmpty.string_of_uint]; unfold lit in *; cbn [list_ascii_of_string map];
     cbn [forallb]; rewrite IHd; reflexivity).
Qed.

Lemma str_of_Z_id_chars z : forallb id_char (str_of_Z z) = true ∧ str_of_Z z ≠ [].
Proof.
  unfold str_of_Z. destruct (Z.to_int z) as [d|d]; cbn [NilZero.string_of_int].
  - destruct d; (split; [try reflexivity; apply string_of_uint_id_chars|discriminate]).
  - unfold lit. cbn [list_ascii_of_string map]. split; [|discriminate].
    cbn [forallb].
    change (true && forallb id_char (lit (NilZero.string_of_uint d)) = true).
    destruct d; try reflexivity; apply string_of_uint_id_chars.
Qed.

Lemma int_id_plain z : plain_name (py_str (PyInt z)).
Proof.
  change (py_str (PyInt z)) with (str_of_Z z).
  destruct (str_of_Z_id_chars z) as [Hall Hne]. split; [exact Hne|].
  rewrite forallb_forall in Hall. split.
  - intros Hin. apply list_elem_of_In in Hin. specialize (Hall _ Hin). discriminate.
  - destruct (str_of_Z z) as [|c s]; [congruence|].
    specialize (Hall c (or_introl eq_refl)).
    change (lit ".") with [46%N]. cbn [starts_with].
    destruct (46 =? c)%N eqn:Hc; [|reflexivity].
    apply N.eqb_eq in Hc. subst c. discriminate.
Qed.

Lemma saved_ids_of_spec (fs : gmap pystr file) id_num :
  id_num ∈ saved_ids_of fs ↔ file_from_id id_num ∈ dom fs ∧ plain_name id_num.
Proof.
  unfold saved_ids_of. rewrite elem_of_list_to_set, list_elem_of_omap. split.
  - intros (path & Hpath & Hstem). apply path_stem_inv in Hstem as [-> Hplain].
    apply elem_of_elements in Hpath. auto.
  - intros [Hdom Hplain]. exists (file_from_id id_num). split.
    + apply elem_of_elements. exact Hdom.
    + apply path_stem_file_from_id. exact Hplain.
Qed.

(** X19. [saved_ids] and the files. An id is among the saved ids exactly
    when the file [file_from_id] names for it is in the content directory
    and the id is a plain file name (not empty, no slash, no leading dot).
    For an integer id the side condition always holds: such a record is
    created exactly when its file does not exist. *)
Theorem saved_ids_are_files (fs : gmap pystr file) :
  (∀ id_num, id_num ∈ saved_ids_of fs ↔ file_from_id id_num ∈ dom fs ∧ plain_name id_num) ∧
  (∀ z, py_str (PyInt z) ∈ saved_ids_of fs ↔ file_from_id (py_str (PyInt z)) ∈ dom fs).
Proof.
  split; [apply saved_ids_of_spec|].
  intros z. rewrite saved_ids_of_spec. split; [tauto|].
  intros Hdom. split; [exact Hdom|apply int_id_plain].
Qed.

(** ** What a run touches, and how it reports *)

Lemma write_markdown_frame id_num fm c w :
  let w' := snd (write_markdown id_num fm c w) in
  (∀ p, p ≠ file_from_id id_num → files w' !! p = files w !! p) ∧
  nwrites w' = S (nwrites w) ∧ requests w' = requests w.
Proof.
  cbv zeta. rewrite write_markdown_unfold. cbv zeta. cbn [snd].
  split; [|split].
  - intros p Hp. destruct (fst (fs_write _ _ _ _)); cbn [files after_write add_line];
      apply fs_write_other; exact Hp.
  - destruct (fst (fs_write _ _ _ _)); reflexivity.
  - destruct (fst (fs_write _ _ _ _)); reflexivity.
Qed.

Lemma reconcile_one_frame saved data w :
  let w' := snd (reconcile_one saved data w) in
  (∀ p, p ≠ file_from_id (obs_id data) → files w' !! p = files w !! p) ∧
  nwrites w' ≤ S (nwrites w) ∧ requests w' = requests w.
Proof.
  cbv zeta. unfold reconcile_one.
  assert (Hwrite : ∀ line,
    let w' := snd ((print line;;
      write_markdown (obs_id data) (obs_metadata data) (obs_content data)) w) in
    (∀ p, p ≠ file_from_id (obs_id data) → files w' !! p = files w !! p) ∧
    nwrites w' ≤ S (nwrites w) ∧ requests w' = requests w).
  { intros line. cbv zeta. rewrite M_bind_unfold. cbn [print].
    destruct (write_markdown_frame (obs_id data) (obs_metadata data) (obs_content data)
                (add_line line w)) as (Hf & Hn & Hr).
    destruct (write_markdown _ _ _ (add_line line w)) as [[[]| | |] w'] eqn:Hw;
      cbn [snd] in *; (split; [exact Hf|split; [rewrite Hn; cbn; lia|exact Hr]]). }
  destruct (bool_decide (obs_id data ∈ saved)); [|apply Hwrite].
  destruct (read_hugo_markdown (obs_id data) w) as [[[fm|] c]|]; cbn [snd].
  - destruct (py_eq (PyDict fm) (PyDict (obs_metadata data))); cbn [negb].
    + cbn [snd]. repeat split; auto.
    + apply Hwrite.
  - cbn. repeat split; auto.
  - repeat split; auto.
Qed.

Lemma reconcile_frame saved recs w :
  let w' := snd (reconcile saved recs w) in
  (∀ p, p ∉ map (λ r, file_from_id (obs_id r)) recs → files w' !! p = files w !! p) ∧
  nwrites w' ≤ nwrites w + length recs ∧ requests w' = requests w.
Proof.
  cbv zeta. revert w. induction recs as [|data recs IH]; intros w.
  - cbn. repeat split; auto. lia.
  - cbn [reconcile]. rewrite M_bind_unfold.
    destruct (reconcile_one_frame saved data w) as (Hf & Hn & Hr).
    assert (Hhead : ∀ p, p ∉ map (λ r, file_from_id (obs_id r)) (data :: recs) →
                         p ≠ file_from_id (obs_id data)).
    { intros p Hp ->. apply Hp. cbn. left. }
    destruct (reconcile_one saved data w) as [[[]| | |] w1]; cbn [snd] in *;
      try (split; [intros p Hp; apply Hf, Hhead, Hp|split; [cbn; lia|exact Hr]]).
    destruct (IH w1) as (Hf' & Hn' & Hr').
    split; [|split].
    + intros p Hp. rewrite Hf'; [apply Hf, Hhead, Hp|].
      intros Hin. apply Hp. cbn. right. exact Hin.
    + cbn [length]. lia.
    + congruence.
Qed.

Lemma fetch_loop_ids ids acc w recs w' :
  retrieve_data_loop ids acc w = (Ret recs, w') →
  ∃ new, recs = acc ++ new ∧ length new ≤ length ids ∧
         ∀ r, r ∈ new → obs_id r ∈ map py_str ids.
Proof.
  revert acc w. induction ids as [|id_num ids IH]; intros acc w.
  - intros [= <- <-]. exists []. rewrite app_nil_r. split; [reflexivity|].
    split; [reflexivity|]. intros r Hr. inversion Hr.
  - destruct (parsed_detail (net (length (requests w)))) as [obs|] eqn:Hd.
    + rewrite (fetch_step_parsed _ _ _ _ _ Hd).
      pose proof (reformat_obs_cases id_num obs) as Hcases.
      destruct (reformat_obs id_num obs) as [r0| | |]; try discriminate.
      destruct Hcases as (_ & Hid & _).
      intros Hloop. apply IH in Hloop as (new & -> & Hlen & Hids).
      exists (r0 :: new). rewrite <- app_assoc. split; [reflexivity|].
      split; [cbn; lia|].
      intros r Hr. apply elem_of_cons in Hr as [->|Hr]; cbn.
      * rewrite Hid. left.
      * right. apply Hids. exact Hr.
    + rewrite (fetch_step_failed _ _ _ _ Hd).
      intros Hloop. apply IH in Hloop as (new & -> & Hlen & Hids).
      exists new. split; [reflexivity|]. split; [cbn; lia|].
      intros r Hr. cbn. right. apply Hids. exact Hr.
Qed.


Lemma reconcile_app saved pre post w w1 :
  reconcile saved pre w = (Ret (), w1) →
  reconcile saved (pre ++ post) w = reconcile saved post w1.
Proof.
  revert w. induction pre as [|data pre IH]; intros w.
  - intros [= <-]. reflexivity.
  - cbn [reconcile app]. rewrite !M_bind_unfold.
    destruct (reconcile_one saved data w) as [[[]| | |] w0]; try discriminate. apply IH.
Qed.

Lemma main_reconcile fuel w recs w0 :
  retrieve_data_from_server fuel w = (Ret recs, w0) →
  main fuel w = (reconcile (saved_ids_of (files w)) recs;; print (lit "Completed")) w0.
Proof.
  intros Hfetch. unfold main. rewrite M_bind_unfold, Hfetch. reflexivity.
Qed.

Lemma read_hugo_markdown_none id_num w :
  read_hugo_markdown id_num w = None ↔
  match fs_read (file_from_id id_num) (files w) with
  | Some text => length (occurrences (lit "---") text) < 2
  | None => True
  end.
Proof.
  unfold read_hugo_markdown.
  destruct (fs_read (file_from_id id_num) (files w)) as [text|]; [|tauto].
  rewrite hugo_markdown_to_json_occurrences.
  destruct (occurrences (lit "---") text) as [|i0 [|i1 rest]]; cbn; split;
    try reflexivity; try lia; try discriminate.
Qed.

(** X21. A stored file that cannot be read ends the run. Let the two
    network stages return the records [pre ++ data :: post], the reconciler
    get through [pre], and the id of [data] be among the saved ids while its
    file cannot be opened or decoded, or has fewer than two delimiters. Then
    [read_hugo_markdown] returns [None], the unpacking of line 244 raises
    [TypeError], and the run ends there with exit status 1, in the state
    reached after [pre]: the records of [post] are not processed and
    [Completed] is not printed. *)
Theorem unreadable_record_aborts (fuel : nat) (fs : gmap pystr file)
    (pre : list obs_data) (data : obs_data) (post : list obs_data) (w0 w1 : world) :
  retrieve_data_from_server fuel (initial_world fs) = (Ret (pre ++ data :: post), w0) →
  reconcile (saved_ids_of fs) pre w0 = (Ret (), w1) →
  obs_id data ∈ saved_ids_of fs →
  match fs_read (file_from_id (obs_id data)) (files w1) with
  | Some text => length (occurrences (lit "---") text) < 2
  | None => True
  end →
  read_hugo_markdown (obs_id data) w1 = None ∧
  main fuel (initial_world fs) = (Raise TypeError, w1) ∧
  exit_status (fst (main fuel (initial_world fs))) = Some 1%Z.
Proof.
  intros Hfetch Hpre Hin Hfile.
  apply read_hugo_markdown_none in Hfile.
  split; [exact Hfile|].
  assert (Hmain : main fuel (initial_world fs) = (Raise TypeError, w1)).
  { rewrite (main_reconcile _ _ _ _ Hfetch). cbn [files initial_world].
    rewrite M_bind_unfold, (reconcile_app _ _ _ _ _ Hpre).
    cbn [reconcile]. rewrite M_bind_unfold. unfold reconcile_one.
    rewrite bool_decide_true by exact Hin. rewrite Hfile. reflexivity. }
  rewrite Hmain. split; reflexivity.
Qed.

Lemma no_completed_refl w : no_completed w w.
Proof. exists []. rewrite app_nil_r. split; [reflexivity|]. intros Hin. inversion Hin. Qed.

Lemma no_completed_trans w1 w2 w3 :
  no_completed w1 w2 → no_completed w2 w3 → no_completed w1 w3.
Proof.
  intros (l1 & H1 & Hn1) (l2 & H2 & Hn2). exists (l1 ++ l2).
  rewrite H2, H1, app_assoc. split; [reflexivity|].
  intros Hin. apply elem_of_app in Hin as [Hin|Hin]; tauto.
Qed.

Lemma no_completed_line line w :
  line ≠ lit "Completed" → no_completed w (add_line line w).
Proof.
  intros Hne. exists [line]. split; [reflexivity|].
  intros Hin. apply list_elem_of_singleton in Hin. congruence.
Qed.

Lemma no_completed_stdout w w' : stdout w' = stdout w → no_completed w w'.
Proof.
  intros Heq. exists []. rewrite app_nil_r. split; [exact Heq|]. intros Hin. inversion Hin.
Qed.

Lemma listing_loop_lines fuel acc w :
  no_completed w (snd (retrieve_obs_ids_loop fuel acc w)).
Proof.
  revert acc w. induction fuel as [|fuel IH]; intros acc w; [apply no_completed_refl|].
  cbn. unfold mbind, M_bind, get_MIN_OBS_ID, lift.
  destruct (py_gt0 (MIN_OBS_ID w)) as [b| | |]; cbn; try apply no_completed_refl.
  unfold urlopen.
  destruct (net (length (requests w))) as [|body]; cbn.
  { eapply no_completed_trans; [|apply no_completed_line; not_completed].
    apply no_completed_stdout. reflexivity. }
  destruct (results_of body) as [v|]; cbn.
  - destruct v as [| | | |page|]; cbn;
      try (eapply no_completed_trans; [|apply no_completed_line; not_completed];
           apply no_completed_stdout; reflexivity).
    destruct page as [|d page]; cbn; [apply no_completed_stdout; reflexivity|].
    unfold lift. destruct (mapR _ (d :: page)) as [ids'| | |]; cbn;
      try (apply no_completed_stdout; reflexivity).
    eapply no_completed_trans; [|apply IH]. apply no_completed_stdout. reflexivity.
  - eapply no_completed_trans; [|apply no_completed_line; not_completed].
    eapply no_completed_trans; [|apply no_completed_line; not_completed].
    apply no_completed_stdout. reflexivity.
Qed.

Lemma listing_lines fuel w :
  no_completed w (snd (retrieve_obs_ids_from_server fuel w)).
Proof.
  unfold retrieve_obs_ids_from_server. rewrite M_bind_unfold.
  pose proof (listing_loop_lines fuel [] w) as Hloop.
  destruct (retrieve_obs_ids_loop fuel [] w) as [[ids| | |] w']; cbn [snd] in *; try exact Hloop.
  cbn. eapply no_completed_trans; [exact Hloop|]. apply no_completed_line. not_completed.
Qed.

Lemma fetch_loop_lines ids acc w :
  no_completed w (snd (retrieve_data_loop ids acc w)).
Proof.
  revert acc w. induction ids as [|id_num ids IH]; intros acc w; [apply no_completed_refl|].
  destruct (parsed_detail (net (length (requests w)))) as [obs|] eqn:Hd.
  - rewrite (fetch_step_parsed _ _ _ _ _ Hd).
    destruct (reformat_obs id_num obs); cbn [snd];
      try (apply no_completed_stdout; reflexivity).
    eapply no_completed_trans; [|apply IH]. apply no_completed_stdout. reflexivity.
  - rewrite (fetch_step_failed _ _ _ _ Hd).
    eapply no_completed_trans; [|apply IH].
    eapply no_completed_trans; [|apply no_completed_line].
    + apply (no_completed_stdout w (add_request (detail_url id_num) w)). reflexivity.
    + unfold failure_line. destruct (net (length (requests w))); not_completed.
Qed.

Lemma fetch_lines fuel w :
  no_completed w (snd (retrieve_data_from_server fuel w)).
Proof.
  unfold retrieve_data_from_server. rewrite M_bind_unfold.
  pose proof (listing_lines fuel w) as Hlist.
  destruct (retrieve_obs_ids_from_server fuel w) as [[ids| | |] w1]; cbn [snd] in *;
    try exact Hlist.
  rewrite M_bind_unfold.
  pose proof (fetch_loop_lines ids [] w1) as Hloop.
  destruct (retrieve_data_loop ids [] w1) as [[recs| | |] w2]; cbn [snd] in *;
    try (eapply no_completed_trans; [exact Hlist|exact Hloop]).
  cbn. eapply no_completed_trans; [exact Hlist|].
  eapply no_completed_trans; [exact Hloop|]. apply no_completed_line. not_completed.
Qed.

Lemma write_markdown_lines id_num fm c w :
  no_completed w (snd (write_markdown id_num fm c w)).
Proof.
  rewrite write_markdown_unfold. cbv zeta. cbn [snd].
  destruct (fst (fs_write _ _ _ _)).
  - apply no_completed_stdout. reflexivity.
  - eapply no_completed_trans; [|apply no_completed_line; not_completed].
    apply no_completed_stdout. reflexivity.
Qed.

Lemma reconcile_one_lines saved data w :
  no_completed w (snd (reconcile_one saved data w)).
Proof.
  unfold reconcile_one.
  assert (Hwrite : ∀ line, line ≠ lit "Completed" →
    no_completed w (snd ((print line;;
      write_markdown (obs_id data) (obs_metadata data) (obs_content data)) w))).
  { intros line Hline. rewrite M_bind_unfold. cbn [print].
    pose proof (write_markdown_lines (obs_id data) (obs_metadata data) (obs_content data)
                  (add_line line w)) as Hw.
    destruct (write_markdown _ _ _ (add_line line w)) as [[[]| | |] w']; cbn [snd] in *;
      (eapply no_completed_trans; [apply no_completed_line; exact Hline|exact Hw]). }
  destruct (bool_decide (obs_id data ∈ saved)); [|apply Hwrite; not_completed].
  destruct (read_hugo_markdown (obs_id data) w) as [[[fm|] c]|]; cbn [snd].
  - destruct (py_eq (PyDict fm) (PyDict (obs_metadata data))); cbn [negb].
    + apply no_completed_refl.
    + apply Hwrite. not_completed.
  - apply no_completed_line. not_completed.
  - apply no_completed_refl.
Qed.

Lemma reconcile_lines saved recs w :
  no_completed w (snd (reconcile saved recs w)).
Proof.
  revert w. induction recs as [|data recs IH]; intros w; [apply no_completed_refl|].
  cbn [reconcile]. rewrite M_bind_unfold.
  pose proof (reconcile_one_lines saved data w) as Hone.
  destruct (reconcile_one saved data w) as [[[]| | |] w1]; cbn [snd] in *; try exact Hone.
  eapply no_completed_trans; [exact Hone|apply IH].
Qed.

(** Among the texts printed, [Completed] occurs exactly when the run
    reached its end, and then once, as the last of them. *)
Lemma completed_entry (fuel : nat) (fs : gmap pystr file) :
  let run := main fuel (initial_world fs) in
  (fst run = Ret () ↔ lit "Completed" ∈ stdout (snd run)) ∧
  (fst run = Ret () →
   ∃ lines, stdout (snd run) = lines ++ [lit "Completed"] ∧ lit "Completed" ∉ lines).
Proof.
  cbv zeta. unfold main. rewrite M_bind_unfold.
  pose proof (fetch_lines fuel (initial_world fs)) as Hfetch.
  destruct (retrieve_data_from_server fuel (initial_world fs)) as [[recs| | |] w0];
    cbn [fst snd] in *.
  2-4: destruct Hfetch as (lines & -> & Hno); cbn [stdout initial_world app];
       split; [split; [discriminate|tauto]|discriminate].
  rewrite M_bind_unfold. cbn [files initial_world].
  pose proof (reconcile_lines (saved_ids_of fs) recs w0) as Hrec.
  pose proof (no_completed_trans _ _ _ Hfetch Hrec) as (lines & Hout & Hno).
  cbn [stdout initial_world app] in Hout.
  destruct (reconcile (saved_ids_of fs) recs w0) as [[[]| | |] w1]; cbn [fst snd] in *.
  2-4: rewrite Hout; split; [split; [discriminate|tauto]|discriminate].
  cbn [print fst snd stdout add_line]. rewrite Hout. split.
  - split; [intros _; apply elem_of_app; right; left|reflexivity].
  - intros _. exists lines. split; [reflexivity|exact Hno].
Qed.

(** ** A second run *)

Lemma listing_loop_with_files fs fuel acc w :
  retrieve_obs_ids_loop fuel acc (with_files fs w) =
  (fst (retrieve_obs_ids_loop fuel acc w), with_files fs (snd (retrieve_obs_ids_loop fuel acc w))).
Proof.
  revert acc w. induction fuel as [|fuel IH]; intros acc w; [reflexivity|].
  cbn. unfold mbind, M_bind, get_MIN_OBS_ID, lift. cbn.
  destruct (py_gt0 (MIN_OBS_ID w)) as [b| | |]; cbn; try reflexivity.
  unfold urlopen. cbn.
  destruct (net (length (requests w))) as [|body]; cbn; [reflexivity|].
  destruct (results_of body) as [v|]; cbn; [|reflexivity].
  destruct v as [| | | |page|]; cbn; try reflexivity.
  destruct page as [|d page]; cbn; [reflexivity|].
  unfold lift. destruct (mapR _ (d :: page)) as [ids'| | |]; cbn; try reflexivity.
  match goal with
  | |- _ = (fst (retrieve_obs_ids_loop fuel ?a ?w0), _) => rewrite <- (IH a w0)
  end.
  reflexivity.
Qed.

Lemma fetch_loop_with_files fs ids acc w :
  retrieve_data_loop ids acc (with_files fs w) =
  (fst (retrieve_data_loop ids acc w), with_files fs (snd (retrieve_data_loop ids acc w))).
Proof.
  revert acc w. induction ids as [|id_num ids IH]; intros acc w; [reflexivity|].
  destruct (parsed_detail (net (length (requests w)))) as [obs|] eqn:Hd.
  - rewrite (fetch_step_parsed _ _ _ _ _ Hd).
    rewrite (fetch_step_parsed id_num ids acc (with_files fs w) obs) by exact Hd.
    destruct (reformat_obs id_num obs) as [r| | |]; try reflexivity.
    rewrite <- IH. reflexivity.
  - rewrite (fetch_step_failed _ _ _ _ Hd).
    rewrite (fetch_step_failed id_num ids acc (with_files fs w)) by exact Hd.
    rewrite <- IH. reflexivity.
Qed.

Lemma fetch_with_files fs fuel w :
  retrieve_data_from_server fuel (with_files fs w) =
  (fst (retrieve_data_from_server fuel w),
   with_files fs (snd (retrieve_data_from_server fuel w))).
Proof.
  unfold retrieve_data_from_server, retrieve_obs_ids_from_server.
  rewrite !M_bind_unfold, listing_loop_with_files.
  destruct (retrieve_obs_ids_loop fuel [] w) as [[ids| | |] w1]; cbn [fst snd]; try reflexivity.
  unfold mbind, M_bind, print, mret, M_ret. cbn beta iota.
  match goal with
  | |- context [retrieve_data_loop ids [] (add_line ?l (with_files fs w1))] =>
      change (add_line l (with_files fs w1)) with (with_files fs (add_line l w1))
  end.
  rewrite fetch_loop_with_files.
  destruct (retrieve_data_loop ids [] _) as [[recs| | |] w2]; reflexivity.
Qed.

Lemma fetch_frame fuel w :
  files (snd (retrieve_data_from_server fuel w)) = files w ∧
  nwrites (snd (retrieve_data_from_server fuel w)) = nwrites w.
Proof.
  unfold retrieve_data_from_server. rewrite M_bind_unfold.
  pose proof (listing_frame fuel w) as [Hf1 Hn1].
  destruct (retrieve_obs_ids_from_server fuel w) as [[ids| | |] w1]; cbn [snd] in *; auto.
  rewrite M_bind_unfold.
  pose proof (fetch_loop_frame ids [] w1) as [Hf2 Hn2].
  destruct (retrieve_data_loop ids [] w1) as [[recs| | |] w2]; cbn [snd] in *;
    unfold mbind, M_bind, print, mret, M_ret; cbn; split; congruence.
Qed.

Lemma settled_files data w w' :
  files w' !! file_from_id (obs_id data) = files w !! file_from_id (obs_id data) →
  settled data w → settled data w'.
Proof.
  intros Heq. unfold settled. rewrite (read_hugo_markdown_files _ _ _ Heq). tauto.
Qed.

Lemma settled_file_exists data w : settled data w → file_from_id (obs_id data) ∈ dom (files w).
Proof.
  unfold settled, read_hugo_markdown, fs_read. intros Hs. apply elem_of_dom.
  destruct (files w !! file_from_id (obs_id data)); [eauto|contradiction].
Qed.

Lemma reconcile_one_settles saved data w w' :
  (∀ n, disk n = NoFault) →
  round_trips data →
  reconcile_one saved data w = (Ret (), w') →
  settled data w'.
Proof.
  intros Hdisk (Henc & Hcr & Hocc & stored & Hloads & Heq).
  assert (Hwritten : ∀ line,
    (print line;; write_markdown (obs_id data) (obs_metadata data) (obs_content data)) w
    = (Ret (), w') → settled data w').
  { intros line. rewrite M_bind_unfold. cbn [print]. intros Hw.
    pose proof (read_after_write (obs_id data) (obs_metadata data) (obs_content data)
                  (add_line line w) (Hdisk _) Henc Hcr Hocc) as Hread.
    rewrite Hw in Hread. cbn [snd] in Hread.
    unfold settled. rewrite Hread, Hloads. exact Heq. }
  unfold reconcile_one. destruct (bool_decide (obs_id data ∈ saved)); [|apply Hwritten].
  destruct (read_hugo_markdown (obs_id data) w) as [[[fm|] c]|] eqn:Hread.
  - destruct (py_eq (PyDict fm) (PyDict (obs_metadata data))) eqn:Hpe; cbn [negb].
    + intros [= <-]. unfold settled. rewrite Hread. exact Hpe.
    + apply Hwritten.
  - cbn [print]. intros [= <-]. unfold settled.
    rewrite (read_hugo_markdown_files _ w (add_line _ w)) by reflexivity.
    rewrite Hread. exact I.
  - discriminate.
Qed.

Lemma reconcile_settles saved recs w w' :
  (∀ n, disk n = NoFault) →
  NoDup (map obs_id recs) →
  Forall round_trips recs →
  reconcile saved recs w = (Ret (), w') →
  Forall (λ r, settled r w') recs.
Proof.
  intros Hdisk. revert w. induction recs as [|data recs IH]; intros w Hnd Hall; [constructor|].
  cbn [map] in Hnd. apply NoDup_cons in Hnd as [Hfresh Hnd].
  apply Forall_cons in Hall as [Hdata Hall].
  cbn [reconcile]. rewrite M_bind_unfold.
  destruct (reconcile_one saved data w) as [[[]| | |] w1] eqn:Hone; try discriminate.
  intros Hrest. constructor.
  - destruct (reconcile_frame saved recs w1) as (Hf & _ & _). rewrite Hrest in Hf.
    cbn [snd] in Hf.
    apply (settled_files data w1 w').
    + apply Hf. intros Hin. apply list_elem_of_fmap in Hin as (r & Heq & Hr).
      apply file_from_id_inj in Heq. apply Hfresh. rewrite Heq.
      apply list_elem_of_fmap. exists r. split; [reflexivity|exact Hr].
    + exact (reconcile_one_settles _ _ _ _ Hdisk Hdata Hone).
  - exact (IH w1 Hnd Hall Hrest).
Qed.

Lemma reconcile_settled saved recs w :
  Forall (λ r, obs_id r ∈ saved ∧ settled r w) recs →
  ∃ w', reconcile saved recs w = (Ret (), w') ∧ files w' = files w ∧ nwrites w' = nwrites w.
Proof.
  revert w. induction recs as [|data recs IH]; intros w Hall.
  - exists w. repeat split; reflexivity.
  - apply Forall_cons in Hall as [[Hin Hs] Hall].
    cbn [reconcile]. rewrite M_bind_unfold.
    assert (Hone : ∃ w1, reconcile_one saved data w = (Ret (), w1) ∧
                         files w1 = files w ∧ nwrites w1 = nwrites w).
    { unfold reconcile_one. rewrite bool_decide_true by exact Hin.
      unfold settled in Hs.
      destruct (read_hugo_markdown (obs_id data) w) as [[[fm|] c]|]; [| |contradiction].
      - rewrite Hs. cbn [negb]. exists w. repeat split; reflexivity.
      - eexists. split; [reflexivity|]. split; reflexivity. }
    destruct Hone as (w1 & -> & Hf1 & Hn1).
    destruct (IH w1) as (w' & Hrest & Hf & Hn).
    { eapply Forall_impl; [exact Hall|]. intros r [Hr Hsr]. split; [exact Hr|].
      apply (settled_files r w w1); [rewrite Hf1; reflexivity|exact Hsr]. }
    exists w'. split; [exact Hrest|]. split; congruence.
Qed.

(** X23. Idempotence of a run. Let a run end normally on a disk without
    faults, with records of distinct ids that are plain file names and that
    survive the trip through a file ([round_trips]). Then a second run from
    the files the first one left, against the same answers of the network,
    ends normally as well, opens no file for writing and leaves the files
    as they are. *)
Theorem rerun_writes_nothing (fuel : nat) (fs : gmap pystr file)
    (recs : list obs_data) (w0 w1 : world) :
  retrieve_data_from_server fuel (initial_world fs) = (Ret recs, w0) →
  main fuel (initial_world fs) = (Ret (), w1) →
  (∀ n, disk n = NoFault) →
  NoDup (map obs_id recs) →
  Forall (λ r, plain_name (obs_id r) ∧ round_trips r) recs →
  ∃ w2, main fuel (initial_world (files w1)) = (Ret (), w2) ∧
        files w2 = files w1 ∧ nwrites w2 = 0.
Proof.
  intros Hfetch Hmain Hdisk Hnd Hall.
  rewrite (main_reconcile _ _ _ _ Hfetch) in Hmain. cbn [files initial_world] in Hmain.
  rewrite M_bind_unfold in Hmain.
  destruct (reconcile (saved_ids_of fs) recs w0) as [[[]| | |] w1'] eqn:Hrec; try discriminate.
  cbn [print] in Hmain. injection Hmain as <-. cbn [files add_line].
  assert (Hsettled : Forall (λ r, settled r w1') recs).
  { apply (reconcile_settles (saved_ids_of fs) recs w0 w1' Hdisk Hnd); [|exact Hrec].
    eapply Forall_impl; [exact Hall|]. intros r [_ Hr]. exact Hr. }
  set (F := files w1').
  pose proof (fetch_with_files F fuel (initial_world fs)) as Hfetch2.
  rewrite Hfetch in Hfetch2. cbn [fst snd] in Hfetch2.
  change (with_files F (initial_world fs)) with (initial_world F) in Hfetch2.
  rewrite (main_reconcile _ _ _ _ Hfetch2). cbn [files initial_world].
  rewrite M_bind_unfold.
  destruct (reconcile_settled (saved_ids_of F) recs (with_files F w0)) as (w' & -> & Hf & Hn).
  { apply Forall_forall. intros r Hr.
    rewrite Forall_forall in Hsettled, Hall.
    specialize (Hsettled r Hr). destruct (Hall r Hr) as [Hplain _].
    split.
    - apply saved_ids_of_spec. split; [|exact Hplain].
      apply settled_file_exists. exact Hsettled.
    - apply (settled_files r w1' (with_files F w0)); [reflexivity|exact Hsettled]. }
  eexists. split; [reflexivity|]. cbn [files nwrites add_line].
  split; [exact Hf|]. rewrite Hn. cbn [nwrites with_files].
  pose proof (fetch_frame fuel (initial_world fs)) as [_ Hn0]. rewrite Hfetch in Hn0.
  exact Hn0.
Qed.

(** ** How a run can end *)










Lemma listing_loop_requests fuel acc w :
  ∃ cursors, requests (snd (retrieve_obs_ids_loop fuel acc w))
             = requests w ++ map listing_url cursors.
Proof.
  revert acc w. induction fuel as [|fuel IH]; intros acc w.
  { exists []. cbn. rewrite app_nil_r. reflexivity. }
  cbn. unfold mbind, M_bind, get_MIN_OBS_ID, lift.
  destruct (py_gt0 (MIN_OBS_ID w)) as [b| | |]; cbn;
    try (exists []; cbn; rewrite app_nil_r; reflexivity).
  unfold urlopen.
  set (cursor := if b then lit "&id_below=" ++ py_str (MIN_OBS_ID w) else []).
  assert (Hone : ∀ l, l = requests w ++ [listing_url cursor] →
                      ∃ cursors, l = requests w ++ map listing_url cursors).
  { intros l Hl. exists [cursor]. exact Hl. }
  destruct (net (length (requests w))) as [|body]; cbn; [apply Hone; reflexivity|].
  destruct (results_of body) as [v|]; cbn; [|apply Hone; reflexivity].
  destruct v as [| | | |page|]; cbn; try (apply Hone; reflexivity).
  destruct page as [|d page]; cbn; [apply Hone; reflexivity|].
  unfold lift. destruct (mapR _ (d :: page)) as [ids'| | |]; cbn;
    try (apply Hone; reflexivity).
  match goal with
  | |- context [retrieve_obs_ids_loop fuel ?a ?w0] => destruct (IH a w0) as [cursors Hc]
  end.
  exists (cursor :: cursors). rewrite Hc. cbn. rewrite <- app_assoc. reflexivity.
Qed.

Lemma fetch_loop_requests_prefix ids acc w :
  ∃ n, requests (snd (retrieve_data_loop ids acc w))
       = requests w ++ map detail_url (take n ids).
Proof.
  revert acc w. induction ids as [|id_num ids IH]; intros acc w.
  { exists 0. cbn. rewrite app_nil_r. reflexivity. }
  destruct (parsed_detail (net (length (requests w)))) as [obs|] eqn:Hd.
  - rewrite (fetch_step_parsed _ _ _ _ _ Hd).
    destruct (reformat_obs id_num obs) as [r| | |]; cbn [snd];
      try (exists 1; reflexivity).
    destruct (IH (acc ++ [r]) (add_request (detail_url id_num) w)) as [n Hn].
    exists (S n). rewrite Hn. cbn. rewrite <- app_assoc. reflexivity.
  - rewrite (fetch_step_failed _ _ _ _ Hd).
    match goal with
    | |- context [retrieve_data_loop ids acc ?w0] => destruct (IH acc w0) as [n Hn]
    end.
    exists (S n). rewrite Hn. cbn. rewrite <- app_assoc. reflexivity.
Qed.

Lemma listing_requests fuel w :
  ∃ cursors, requests (snd (retrieve_obs_ids_from_server fuel w))
             = requests w ++ map listing_url cursors.
Proof.
  unfold retrieve_obs_ids_from_server. rewrite M_bind_unfold.
  destruct (listing_loop_requests fuel [] w) as [cursors Hc]. exists cursors.
  destruct (retrieve_obs_ids_loop fuel [] w) as [[ids| | |] w1]; cbn [snd] in *; exact Hc.
Qed.

(** X25. The requests of a run, in order: first listing requests only,
    then, if the listing stage returned, detail requests for an initial
    segment of the ids in listing order, all of them if the run ends
    normally. The reconciler makes no request. *)
Theorem requests_are_listing_then_details (fuel : nat) (fs : gmap pystr file) :
  let listed := retrieve_obs_ids_from_server fuel (initial_world fs) in
  let run := main fuel (initial_world fs) in
  ∃ cursors,
    requests (snd listed) = map listing_url cursors ∧
    match fst listed with
    | Ret ids =>
        ∃ n, requests (snd run) = map listing_url cursors ++ map detail_url (take n ids) ∧
             (fst run = Ret () → take n ids = ids)
    | _ => requests (snd run) = map listing_url cursors
    end.
Proof.
  cbv zeta. destruct (listing_requests fuel (initial_world fs)) as [cursors Hc].
  cbn [requests initial_world app] in Hc. exists cursors. split; [exact Hc|].
  destruct (retrieve_obs_ids_from_server fuel (initial_world fs)) as [[ids| | |] w1] eqn:Hlist;
    cbn [fst snd] in *.
  2-4: unfold main, retrieve_data_from_server; rewrite !M_bind_unfold, Hlist; exact Hc.
  rewrite (main_unfold _ _ _ _ Hlist).
  destruct (fetch_loop_requests_prefix ids [] w1) as [n Hn].
  destruct (retrieve_data_loop ids [] w1) as [[recs| | |] w2] eqn:Hloop; cbn [fst snd] in *.
  2-4: exists n; rewrite Hn, Hc; split; [reflexivity|discriminate].
  exists (length ids). rewrite firstn_all. split; [|reflexivity].
  rewrite M_bind_unfold. cbn [files initial_world].
  match goal with
  | |- context [reconcile ?sv recs ?w0] =>
      destruct (reconcile_frame sv recs w0) as (_ & _ & Hr);
      destruct (reconcile sv recs w0) as [[[]| | |] w3]
  end; cbn [snd print requests add_line] in *; rewrite Hr;
    rewrite (fetch_loop_requests _ _ _ _ _ Hloop), Hc; reflexivity.
Qed.

(** ** Integer ids; writes and their notices *)

Lemma lit_inj s1 s2 : lit s1 = lit s2 → s1 = s2.
Proof.
  unfold lit. intros Heq.
  rewrite <- (string_of_list_ascii_of_string s1), <- (string_of_list_ascii_of_string s2).
  f_equal. revert Heq. generalize (list_ascii_of_string s1) (list_ascii_of_string s2).
  intros l1. induction l1 as [|a l1 IH]; intros [|b l2]; cbn; try discriminate; [reflexivity|].
  intros [= Hab Hl]. f_equal; [|apply IH; exact Hl].
  rewrite <- (ascii_N_embedding a), <- (ascii_N_embedding b), Hab. reflexivity.
Qed.

Lemma str_of_Z_inj a b : str_of_Z a = str_of_Z b → a = b.
Proof.
  unfold str_of_Z. intros Heq. apply lit_inj in Heq.
  apply DecimalZ.to_int_inj.
  assert (Hnn : ∀ z, Z.to_int z ≠ Decimal.Pos Decimal.Nil ∧ Z.to_int z ≠ Decimal.Neg Decimal.Nil).
  { intros [|p|p]; cbn; split; try discriminate; intros [= Hp];
      exact (DecimalPos.Unsigned.to_uint_nonnil p Hp). }
  assert (Some (Z.to_int a) = Some (Z.to_int b)) as [= ->]; [|reflexivity].
  rewrite <- (NilZero.isi (Z.to_int a)), <- (NilZero.isi (Z.to_int b)), Heq;
    [reflexivity|apply Hnn..].
Qed.

(** X26. Integer ids keep records apart. [str] of two different
    integers differs (decimal notation is injective), so two different
    integer ids never share a file name or a detail URL. *)
Theorem integer_ids_have_their_own_files (a b : Z) :
  a ≠ b →
  py_str (PyInt a) ≠ py_str (PyInt b) ∧
  file_from_id (py_str (PyInt a)) ≠ file_from_id (py_str (PyInt b)) ∧
  detail_url (PyInt a) ≠ detail_url (PyInt b).
Proof.
  intros Hne.
  assert (Hstr : py_str (PyInt a) ≠ py_str (PyInt b)).
  { intros Heq. apply Hne. apply str_of_Z_inj. exact Heq. }
  split; [exact Hstr|]. split.
  - intros Heq. apply Hstr. apply file_from_id_inj. exact Heq.
  - unfold detail_url. intros Heq. apply Hstr. eapply app_inv_head. exact Heq.
Qed.

Lemma announced_refl w : announced w w.
Proof. exists []. rewrite app_nil_r. cbn. split; [reflexivity|lia]. Qed.

Lemma announced_trans w1 w2 w3 : announced w1 w2 → announced w2 w3 → announced w1 w3.
Proof.
  intros (l1 & H1 & Hn1) (l2 & H2 & Hn2). exists (l1 ++ l2).
  rewrite H2, H1, app_assoc. split; [reflexivity|].
  rewrite filter_app, length_app. lia.
Qed.

Lemma announced_quiet w w' :
  stdout w' = stdout w → nwrites w' = nwrites w → announced w w'.
Proof.
  intros Hout Hn. exists []. rewrite app_nil_r. cbn. split; [exact Hout|lia].
Qed.

Lemma announced_line line w :
  write_notice line = false → announced w (add_line line w).
Proof.
  intros Hline. exists [line]. split; [reflexivity|].
  rewrite filter_cons_False by (rewrite Hline; discriminate). cbn. lia.
Qed.

Lemma listing_loop_announced fuel acc w :
  announced w (snd (retrieve_obs_ids_loop fuel acc w)).
Proof.
  revert acc w. induction fuel as [|fuel IH]; intros acc w; [apply announced_refl|].
  cbn. unfold mbind, M_bind, get_MIN_OBS_ID, lift.
  destruct (py_gt0 (MIN_OBS_ID w)) as [b| | |]; cbn; try apply announced_refl.
  unfold urlopen.
  destruct (net (length (requests w))) as [|body]; cbn.
  { eapply announced_trans; [|apply announced_line; reflexivity].
    apply announced_quiet; reflexivity. }
  destruct (results_of body) as [v|]; cbn.
  - destruct v as [| | | |page|]; cbn;
      try (eapply announced_trans; [|apply announced_line; reflexivity];
           apply announced_quiet; reflexivity).
    destruct page as [|d page]; cbn; [apply announced_quiet; reflexivity|].
    unfold lift. destruct (mapR _ (d :: page)) as [ids'| | |]; cbn;
      try (apply announced_quiet; reflexivity).
    eapply announced_trans; [|apply IH]. apply announced_quiet; reflexivity.
  - eapply announced_trans; [|apply announced_line; reflexivity].
    eapply announced_trans; [|apply announced_line; reflexivity].
    apply announced_quiet; reflexivity.
Qed.

Lemma fetch_loop_announced ids acc w :
  announced w (snd (retrieve_data_loop ids acc w)).
Proof.
  revert acc w. induction ids as [|id_num ids IH]; intros acc w; [apply announced_refl|].
  destruct (parsed_detail (net (length (requests w)))) as [obs|] eqn:Hd.
  - rewrite (fetch_step_parsed _ _ _ _ _ Hd).
    destruct (reformat_obs id_num obs); cbn [snd];
      try (apply announced_quiet; reflexivity).
    eapply announced_trans; [|apply IH]. apply announced_quiet; reflexivity.
  - rewrite (fetch_step_failed _ _ _ _ Hd).
    eapply announced_trans; [|apply IH].
    eapply announced_trans; [|apply announced_line].
    + apply (announced_quiet w (add_request (detail_url id_num) w)); reflexivity.
    + unfold failure_line. destruct (net (length (requests w))); reflexivity.
Qed.

Lemma fetch_announced fuel w :
  announced w (snd (retrieve_data_from_server fuel w)).
Proof.
  unfold retrieve_data_from_server, retrieve_obs_ids_from_server. rewrite !M_bind_unfold.
  pose proof (listing_loop_announced fuel [] w) as Hlist.
  destruct (retrieve_obs_ids_loop fuel [] w) as [[ids| | |] w1]; cbn [snd] in *;
    try exact Hlist.
  unfold mbind, M_bind, print, mret, M_ret. cbn beta iota.
  match goal with
  | |- context [retrieve_data_loop ids [] ?w0] =>
      pose proof (fetch_loop_announced ids [] w0) as Hloop;
      assert (Hw0 : announced w w0)
        by (eapply announced_trans; [exact Hlist|apply announced_line; reflexivity]);
      destruct (retrieve_data_loop ids [] w0) as [[recs| | |] w2]
  end; cbn [snd] in *; try (eapply announced_trans; [exact Hw0|exact Hloop]).
  eapply announced_trans; [exact Hw0|].
  eapply announced_trans; [exact Hloop|]. apply announced_line. reflexivity.
Qed.

Lemma reconcile_one_announced saved data w :
  announced w (snd (reconcile_one saved data w)).
Proof.
  unfold reconcile_one.
  assert (Hwrite : ∀ line, write_notice line = true →
    announced w (snd ((print line;;
      write_markdown (obs_id data) (obs_metadata data) (obs_content data)) w))).
  { intros line Hline. rewrite M_bind_unfold. cbn [print].
    rewrite write_markdown_unfold. cbv zeta. cbn [snd].
    destruct (fst (fs_write _ _ _ _)).
    - exists [line]. split; [reflexivity|].
      rewrite filter_cons_True by exact Hline. cbn. lia.
    - exists [line; lit "Failed to write " ++ obs_id data]. split.
      + cbn. rewrite <- app_assoc. reflexivity.
      + rewrite filter_cons_True by exact Hline.
        rewrite filter_cons_False by (cbv; discriminate). cbn. lia. }
  destruct (bool_decide (obs_id data ∈ saved)); [|apply Hwrite; reflexivity].
  destruct (read_hugo_markdown (obs_id data) w) as [[[fm|] c]|]; cbn [snd].
  - destruct (py_eq (PyDict fm) (PyDict (obs_metadata data))); cbn [negb].
    + apply announced_refl.
    + apply Hwrite. reflexivity.
  - apply announced_line. reflexivity.
  - apply announced_refl.
Qed.

Lemma reconcile_announced saved recs w :
  announced w (snd (reconcile saved recs w)).
Proof.
  revert w. induction recs as [|data recs IH]; intros w; [apply announced_refl|].
  cbn [reconcile]. rewrite M_bind_unfold.
  pose proof (reconcile_one_announced saved data w) as Hone.
  destruct (reconcile_one saved data w) as [[[]| | |] w1]; cbn [snd] in *; try exact Hone.
  eapply announced_trans; [exact Hone|apply IH].
Qed.

(** The number of writes is the number of texts printed that start like
    a notice. *)
Lemma writes_match_notices (fuel : nat) (fs : gmap pystr file) :
  let w' := snd (main fuel (initial_world fs)) in
  nwrites w' = length (filter (λ l, write_notice l = true) (stdout w')).
Proof.
  cbv zeta. unfold main. rewrite M_bind_unfold.
  pose proof (fetch_announced fuel (initial_world fs)) as Hfetch.
  assert (Hend : ∀ w', announced (initial_world fs) w' →
            nwrites w' = length (filter (λ l, write_notice l = true) (stdout w'))).
  { intros w' (lines & -> & ->). reflexivity. }
  destruct (retrieve_data_from_server fuel (initial_world fs)) as [[recs| | |] w0];
    cbn [snd] in *; try (apply Hend; exact Hfetch).
  rewrite M_bind_unfold. cbn [files initial_world].
  pose proof (reconcile_announced (saved_ids_of fs) recs w0) as Hrec.
  pose proof (announced_trans _ _ _ Hfetch Hrec) as Hall.
  destruct (reconcile (saved_ids_of fs) recs w0) as [[[]| | |] w1]; cbn [snd] in *;
    try (apply Hend; exact Hall).
  apply Hend. eapply announced_trans; [exact Hall|]. apply announced_line. reflexivity.
Qed.

(** ** A record that is already stored *)

(** X28. The run on one record that is already stored. Let the service
    list the single integer id [z] and send its detail document, from which
    [reformat_obs] builds [data], and let the stored file of that id read
    back with the front matter [old]. The run ends normally. If [old] is
    equal to the new metadata (as dicts, whatever the order of the keys), no
    file is opened for writing and the files are as they were. Otherwise
    the file is opened once, and on a disk without fault it then holds the
    document built from the new metadata, with empty content, and
    [Updating id] followed by the id was printed. *)
Theorem stored_record_is_compared (fuel : nat) (fs : gmap pystr file) (z : Z)
    (obs : pyval) (data : obs_data) (old : pydict) (c : pystr) :
  is_page (net 0) [PyInt z] →
  is_page (net 1) [] →
  parsed_detail (net 2) = Some obs →
  reformat_obs (PyInt z) obs = Ret data →
  read_hugo_markdown (obs_id data) (initial_world fs) = Some (Some old, c) →
  disk 0 = NoFault →
  2 ≤ fuel →
  ∃ w', main fuel (initial_world fs) = (Ret (), w') ∧
        if py_eq (PyDict old) (PyDict (obs_metadata data))
        then files w' = fs ∧ nwrites w' = 0
        else files w' = <[file_from_id (obs_id data) :=
                            Text (create_markdown_str (obs_metadata data) [])]> fs ∧
             nwrites w' = 1 ∧
             lit "Updating id " ++ obs_id data ∈ stdout w'.
Proof.
  intros Hpage Hempty Hobs Hre Hread Hdisk Hfuel.
  assert (Hlist := listing_returns_pages fuel (initial_world fs) [[PyInt z]] I).
  pose proof (reformat_obs_cases (PyInt z) obs) as Hcases. rewrite Hre in Hcases.
  destruct Hcases as (_ & Hid & _ & Hcontent).
  assert (Hsaved : obs_id data ∈ saved_ids_of fs).
  { apply saved_ids_of_spec. split; [|rewrite Hid; apply int_id_plain].
    unfold read_hugo_markdown, fs_read in Hread. cbn [files initial_world] in Hread.
    apply elem_of_dom. destruct (fs !! file_from_id (obs_id data)); [eauto|discriminate]. }
  rewrite (main_unfold _ _ _ _ (Hlist ltac:(intros [|i] ids Hi; [injection Hi as <-; cbn; repeat split; [exact Hpage|discriminate]|destruct i; discriminate]) Hempty ltac:(cbn; lia))).
  cbn [concat app].
  rewrite (fetch_step_parsed _ _ _ _ obs) by exact Hobs.
  rewrite Hre. unfold retrieve_data_loop. cbn [app].
  unfold mret, M_ret. cbn beta iota.
  rewrite M_bind_unfold, reconcile_single. cbn [files initial_world].
  unfold reconcile_one. rewrite bool_decide_true by exact Hsaved.
  match goal with
  | |- context [read_hugo_markdown (obs_id data) ?w0] =>
      rewrite (read_hugo_markdown_files (obs_id data) (initial_world fs) w0) by reflexivity
  end.
  rewrite Hread.
  destruct (py_eq (PyDict old) (PyDict (obs_metadata data))); cbn [negb].
  - eexists. split; [reflexivity|]. split; reflexivity.
  - rewrite M_bind_unfold. cbn [print]. rewrite Hcontent.
    rewrite write_markdown_ok; [|exact Hdisk|reflexivity].
    eexists. split; [reflexivity|]. cbn. split; [reflexivity|]. split; [reflexivity|].
    do 2 apply list_elem_of_further. apply list_elem_of_here.
Qed.

(** ** Standard output, line by line *)

(** [stdout] lists the texts handed to [print]. The lemmas of this part
    show when these are the lines of the output, and when [print] meets
    only text it can encode: when the ids are printable ASCII. *)

Lemma split_lines_line l rest cur :
  printable l = true →
  split_lines (l ++ nl ++ rest) cur = (cur ++ l) :: split_lines rest [].
Proof.
  revert cur. induction l as [|c l IH]; intros cur Hl.
  - cbn. rewrite app_nil_r. reflexivity.
  - cbn in Hl. apply andb_true_iff in Hl as [Hc Hl].
    cbn [app split_lines].
    assert (Hne : (c =? 10)%N = false).
    { apply N.eqb_neq. intros ->. discriminate. }
    rewrite Hne, IH by exact Hl. rewrite <- app_assoc. reflexivity.
Qed.

Lemma split_lines_printable lines :
  Forall (λ l, printable l = true) lines →
  split_lines (flat_map (λ line, line ++ nl) lines) [] = lines.
Proof.
  induction 1 as [|l lines Hl Hrest IH]; [reflexivity|].
  cbn [flat_map]. rewrite <- app_assoc, split_lines_line by exact Hl.
  rewrite IH. reflexivity.
Qed.

Lemma output_lines_printable w :
  Forall (λ l, printable l = true) (stdout w) → output_lines w = stdout w.
Proof. apply split_lines_printable. Qed.

Lemma int_id_is_printable z : printable_id (PyInt z).
Proof. apply str_of_Z_printable. Qed.

Lemma printable_output_refl w : printable_output w w.
Proof. exists []. rewrite app_nil_r. split; [reflexivity|constructor]. Qed.

Lemma printable_output_trans w1 w2 w3 :
  printable_output w1 w2 → printable_output w2 w3 → printable_output w1 w3.
Proof.
  intros (l1 & H1 & Hn1) (l2 & H2 & Hn2). exists (l1 ++ l2).
  rewrite H2, H1, app_assoc. split; [reflexivity|].
  apply Forall_app. split; assumption.
Qed.

Lemma printable_output_line line w :
  printable line = true → printable_output w (add_line line w).
Proof. intros Hline. exists [line]. split; [reflexivity|]. repeat constructor. exact Hline. Qed.

Lemma printable_output_stdout w w' : stdout w' = stdout w → printable_output w w'.
Proof. intros Heq. exists []. rewrite app_nil_r. split; [exact Heq|constructor]. Qed.

Lemma listing_loop_printable fuel acc w :
  printable_output w (snd (retrieve_obs_ids_loop fuel acc w)).
Proof.
  revert acc w. induction fuel as [|fuel IH]; intros acc w; [apply printable_output_refl|].
  cbn. unfold mbind, M_bind, get_MIN_OBS_ID, lift.
  destruct (py_gt0 (MIN_OBS_ID w)) as [b| | |]; cbn; try apply printable_output_refl.
  unfold urlopen.
  destruct (net (length (requests w))) as [|body]; cbn.
  { eapply printable_output_trans; [|apply printable_output_line; reflexivity].
    apply printable_output_stdout. reflexivity. }
  destruct (results_of body) as [v|]; cbn.
  - destruct v as [| | | |page|]; cbn;
      try (eapply printable_output_trans; [|apply printable_output_line; reflexivity];
           apply printable_output_stdout; reflexivity).
    destruct page as [|d page]; cbn; [apply printable_output_stdout; reflexivity|].
    unfold lift. destruct (mapR _ (d :: page)) as [ids'| | |]; cbn;
      try (apply printable_output_stdout; reflexivity).
    eapply printable_output_trans; [|apply IH]. apply printable_output_stdout. reflexivity.
  - eapply printable_output_trans; [|apply printable_output_line; reflexivity].
    eapply printable_output_trans; [|apply printable_output_line; reflexivity].
    apply printable_output_stdout. reflexivity.
Qed.

Lemma listing_printable fuel w :
  printable_output w (snd (retrieve_obs_ids_from_server fuel w)).
Proof.
  unfold retrieve_obs_ids_from_server. rewrite M_bind_unfold.
  pose proof (listing_loop_printable fuel [] w) as Hloop.
  destruct (retrieve_obs_ids_loop fuel [] w) as [[ids| | |] w']; cbn [snd] in *; try exact Hloop.
  cbn. eapply printable_output_trans; [exact Hloop|]. apply printable_output_line.
  rewrite !printable_app, str_of_Z_printable. reflexivity.
Qed.

Lemma failure_line_printable id_num r :
  printable_id id_num → printable (failure_line id_num r) = true.
Proof.
  intros Hid. unfold failure_line. destruct r; rewrite !printable_app, Hid; reflexivity.
Qed.

Lemma fetch_loop_printable ids acc w :
  Forall printable_id ids → printable_output w (snd (retrieve_data_loop ids acc w)).
Proof.
  intros Hids. revert acc w.
  induction Hids as [|id_num ids Hid Hids IH]; intros acc w; [apply printable_output_refl|].
  destruct (parsed_detail (net (length (requests w)))) as [obs|] eqn:Hd.
  - rewrite (fetch_step_parsed _ _ _ _ _ Hd).
    destruct (reformat_obs id_num obs); cbn [snd];
      try (apply printable_output_stdout; reflexivity).
    eapply printable_output_trans; [|apply IH]. apply printable_output_stdout. reflexivity.
  - rewrite (fetch_step_failed _ _ _ _ Hd).
    eapply printable_output_trans; [|apply IH].
    eapply printable_output_trans; [|apply printable_output_line].
    + apply (printable_output_stdout w (add_request (detail_url id_num) w)). reflexivity.
    + apply failure_line_printable. exact Hid.
Qed.

Lemma fetch_printable fuel w :
  (∀ ids w1, retrieve_obs_ids_from_server fuel w = (Ret ids, w1) → Forall printable_id ids) →
  printable_output w (snd (retrieve_data_from_server fuel w)).
Proof.
  intros Hids. unfold retrieve_data_from_server. rewrite M_bind_unfold.
  pose proof (listing_printable fuel w) as Hlist.
  destruct (retrieve_obs_ids_from_server fuel w) as [[ids| | |] w1]; cbn [snd] in *;
    try exact Hlist.
  rewrite M_bind_unfold.
  pose proof (fetch_loop_printable ids [] w1 (Hids ids w1 eq_refl)) as Hloop.
  destruct (retrieve_data_loop ids [] w1) as [[recs| | |] w2]; cbn [snd] in *;
    try (eapply printable_output_trans; [exact Hlist|exact Hloop]).
  cbn. eapply printable_output_trans; [exact Hlist|].
  eapply printable_output_trans; [exact Hloop|]. apply printable_output_line.
  rewrite !printable_app, str_of_Z_printable. reflexivity.
Qed.

Lemma write_markdown_printable id_num fm c w :
  printable id_num = true → printable_output w (snd (write_markdown id_num fm c w)).
Proof.
  intros Hid. rewrite write_markdown_unfold. cbv zeta. cbn [snd].
  destruct (fst (fs_write _ _ _ _)).
  - apply printable_output_stdout. reflexivity.
  - eapply printable_output_trans; [|apply printable_output_line].
    + apply printable_output_stdout. reflexivity.
    + rewrite printable_app, Hid. reflexivity.
Qed.

Lemma reconcile_one_printable saved data w :
  printable (obs_id data) = true → printable_output w (snd (reconcile_one saved data w)).
Proof.
  intros Hid. unfold reconcile_one.
  assert (Hwrite : ∀ line, printable line = true →
    printable_output w (snd ((print line;;
      write_markdown (obs_id data) (obs_metadata data) (obs_content data)) w))).
  { intros line Hline. rewrite M_bind_unfold. cbn [print].
    pose proof (write_markdown_printable (obs_id data) (obs_metadata data) (obs_content data)
                  (add_line line w) Hid) as Hw.
    destruct (write_markdown _ _ _ (add_line line w)) as [[[]| | |] w']; cbn [snd] in *;
      (eapply printable_output_trans; [apply printable_output_line; exact Hline|exact Hw]). }
  destruct (bool_decide (obs_id data ∈ saved));
    [|apply Hwrite; rewrite printable_app, Hid; reflexivity].
  destruct (read_hugo_markdown (obs_id data) w) as [[[fm|] c]|]; cbn [snd].
  - destruct (py_eq (PyDict fm) (PyDict (obs_metadata data))); cbn [negb].
    + apply printable_output_refl.
    + apply Hwrite. rewrite printable_app, Hid. reflexivity.
  - apply printable_output_line. rewrite printable_app, Hid. reflexivity.
  - apply printable_output_refl.
Qed.

Lemma reconcile_printable saved recs w :
  Forall (λ r, printable (obs_id r) = true) recs →
  printable_output w (snd (reconcile saved recs w)).
Proof.
  intros Hrecs. revert w.
  induction Hrecs as [|data recs Hid Hrecs IH]; intros w; [apply printable_output_refl|].
  cbn [reconcile]. rewrite M_bind_unfold.
  pose proof (reconcile_one_printable saved data w Hid) as Hone.
  destruct (reconcile_one saved data w) as [[[]| | |] w1]; cbn [snd] in *; try exact Hone.
  eapply printable_output_trans; [exact Hone|apply IH].
Qed.

Lemma fetched_records_printable fuel w recs w0 :
  (∀ ids w1, retrieve_obs_ids_from_server fuel w = (Ret ids, w1) → Forall printable_id ids) →
  retrieve_data_from_server fuel w = (Ret recs, w0) →
  Forall (λ r, printable (obs_id r) = true) recs.
Proof.
  intros Hids. unfold retrieve_data_from_server. rewrite M_bind_unfold.
  destruct (retrieve_obs_ids_from_server fuel w) as [[ids| | |] w1]; try discriminate.
  specialize (Hids ids w1 eq_refl).
  rewrite M_bind_unfold.
  destruct (retrieve_data_loop ids [] w1) as [[recs'| | |] w2] eqn:Hloop; try discriminate.
  cbn. intros [= <- <-].
  apply fetch_loop_ids in Hloop as (new & -> & _ & Hnew). cbn [app].
  apply Forall_forall. intros r Hr. specialize (Hnew r Hr).
  apply list_elem_of_fmap in Hnew as (id_num & -> & Hid).
  rewrite Forall_forall in Hids. apply Hids. exact Hid.
Qed.

(** With printable ids, everything a run prints is printable ASCII:
    [print] meets no text it cannot encode, and the texts printed are the
    lines of standard output. *)
Lemma main_printable fuel fs :
  (∀ ids w1, retrieve_obs_ids_from_server fuel (initial_world fs) = (Ret ids, w1) →
     Forall printable_id ids) →
  Forall (λ l, printable l = true) (stdout (snd (main fuel (initial_world fs)))).
Proof.
  intros Hids.
  assert (Hend : ∀ w', printable_output (initial_world fs) w' →
            Forall (λ l, printable l = true) (stdout w')).
  { intros w' (lines & -> & Hl). exact Hl. }
  unfold main. rewrite M_bind_unfold.
  pose proof (fetch_printable fuel (initial_world fs) Hids) as Hfetch.
  pose proof (fetched_records_printable fuel (initial_world fs)) as Hrecs.
  destruct (retrieve_data_from_server fuel (initial_world fs)) as [[recs| | |] w0];
    cbn [snd] in *; try (apply Hend; exact Hfetch).
  specialize (Hrecs recs w0 Hids eq_refl).
  rewrite M_bind_unfold. cbn [files initial_world].
  pose proof (reconcile_printable (saved_ids_of fs) recs w0 Hrecs) as Hrec.
  pose proof (printable_output_trans _ _ _ Hfetch Hrec) as Hall.
  destruct (reconcile (saved_ids_of fs) recs w0) as [[[]| | |] w1]; cbn [snd] in *;
    try (apply Hend; exact Hall).
  apply Hend. eapply printable_output_trans; [exact Hall|]. apply printable_output_line. reflexivity.
Qed.

Lemma main_output_lines fuel fs :
  (∀ ids w1, retrieve_obs_ids_from_server fuel (initial_world fs) = (Ret ids, w1) →
     Forall printable_id ids) →
  output_lines (snd (main fuel (initial_world fs))) = stdout (snd (main fuel (initial_world fs))).
Proof. intros Hids. apply output_lines_printable, main_printable, Hids. Qed.

(** X12. The fetch stage, as a function of what the network answers.
    Let the listing stage return [ids], each an id of printable ASCII (as
    every integer id is), so that the stage can print every line that
    shows an id. Then the result of [retrieve_data_from_server] is
    [reformat_obs] mapped, in listing order, over the ids whose detail
    document arrived ([fetched_details]): an id whose request failed or
    whose body was malformed is dropped, and the first exception of
    [reformat_obs] is the result of the stage. Everything the stage prints
    is printable ASCII. When the stage returns, it has asked for every id
    once, in order, its last line on standard output gives the number of
    records, and no file was touched. *)
Theorem fetch_keeps_listing_order (fuel : nat) (w : world) (ids : list pyval) (w1 : world) :
  retrieve_obs_ids_from_server fuel w = (Ret ids, w1) →
  Forall printable_id ids →
  fst (retrieve_data_from_server fuel w) =
    mapR (λ p, reformat_obs p.1 p.2) (fetched_details (length (requests w1)) ids) ∧
  printable_output w (snd (retrieve_data_from_server fuel w)) ∧
  ∀ recs w', retrieve_data_from_server fuel w = (Ret recs, w') →
    requests w' = requests w1 ++ map detail_url ids ∧
    List.last (stdout w') [] =
      lit "Successfully obtained " ++ str_of_Z (Z.of_nat (length recs))
      ++ lit " observations from the server." ∧
    files w' = files w ∧ nwrites w' = nwrites w.
Proof.
  intros Hlist Hids.
  destruct (fetch_stage_result fuel w ids w1 Hlist) as [Hres Hret].
  split; [exact Hres|]. split; [|exact Hret].
  apply fetch_printable. intros ids' w1' Heq. rewrite Hlist in Heq.
  injection Heq as <- <-. exact Hids.
Qed.

(** X22. The closing line. Let the ids the listing stage returns, if it
    returns, be printable ASCII, so that every text printed is one line of
    the output. Then the line [Completed] is on standard output exactly
    when the run reached its end, and then it is the last line and occurs
    once: no other line the script prints is equal to it. *)
Theorem completed_marks_normal_end (fuel : nat) (fs : gmap pystr file) :
  (∀ ids w1, retrieve_obs_ids_from_server fuel (initial_world fs) = (Ret ids, w1) →
     Forall printable_id ids) →
  let run := main fuel (initial_world fs) in
  (fst run = Ret () ↔ lit "Completed" ∈ output_lines (snd run)) ∧
  (fst run = Ret () →
   ∃ lines, output_lines (snd run) = lines ++ [lit "Completed"] ∧ lit "Completed" ∉ lines).
Proof.
  intros Hids. cbv zeta. rewrite (main_output_lines fuel fs Hids).
  apply (completed_entry fuel fs).
Qed.


(** X27. Every write is announced. Let the ids the listing stage
    returns, if it returns, be printable ASCII, so that every text printed
    is one line of the output. Then, however the run ends, the number of
    times it opened a file for writing is the number of lines of standard
    output that start with [Creating id ] or [Updating id ]: each write
    follows its notice, a notice is always followed by the write, and no
    other line starts like a notice. *)
Theorem every_write_is_announced (fuel : nat) (fs : gmap pystr file) :
  (∀ ids w1, retrieve_obs_ids_from_server fuel (initial_world fs) = (Ret ids, w1) →
     Forall printable_id ids) →
  let w' := snd (main fuel (initial_world fs)) in
  nwrites w' = length (filter (λ l, write_notice l = true) (output_lines w')).
Proof.
  intros Hids. cbv zeta. rewrite (main_output_lines fuel fs Hids).
  apply (writes_match_notices fuel fs).
Qed.

(** ** The reconciler, record by record *)



(** ** A failed detail request, and what becomes of the other records *)









End Properties.

(** ** Closed examples *)

(** C2, witness: two pages and the empty page. *)
Lemma listing_follows_cursor_two_pages :
  (∃ w', @retrieve_obs_ids_from_server env_two_pages 5 (initial_world ∅)
         = (Ret (concat [[PyInt 31; PyInt 30]; [PyInt 7]]), w') ∧
         requests w' =
           @listing_url [] ::
           map (λ ids, listing_url (@id_below_of env_two_pages (List.last ids PyNone)))
             [[PyInt 31; PyInt 30]; [PyInt 7]]) ∧
  (∀ z, @id_below_of env_two_pages (PyInt z) =
        if (0 <? z)%Z then lit "&id_below=" ++ str_of_Z z else []) ∧
  (∀ fuel' w ids w',
     @retrieve_obs_ids_from_server env_two_pages fuel' w = (Ret ids, w') →
     ∃ n, length (requests w') = S n ∧ length (requests w) ≤ n ∧
          is_page (@net env_two_pages n) []).
Proof.
  apply (@listing_follows_cursor env_two_pages 5 ∅ [[PyInt 31; PyInt 30]; [PyInt 7]]).
  - intros [|[|i]] ids Hi; simpl in Hi; try discriminate; injection Hi as <-.
    + split; [|split; [discriminate|exact I]].
      eexists _, _. split; [reflexivity|]. split; reflexivity.
    + split; [|split; [discriminate|exact I]].
      eexists _, _. split; [reflexivity|]. split; reflexivity.
  - eexists _, _. split; [reflexivity|]. split; reflexivity.
  - simpl. lia.
Defined.

(** C2, counterexample to the claim as stated: the first page ends in the
    id 0, and the request for the next page carries no cursor instead of
    [id_below=0]. *)
Lemma listing_drops_cursor_zero :
  ∃ w', @retrieve_obs_ids_from_server env_id_zero 3 (initial_world ∅)
        = (Ret [PyInt 0], w') ∧
        requests w' = [listing_url []; listing_url []] ∧
        listing_url [] ≠ listing_url (lit "&id_below=" ++ @py_str env_id_zero (PyInt 0)).
Proof.
  eexists. split; [vm_compute; reflexivity|]. split; [reflexivity|].
  vm_compute. discriminate.
Qed.

(** C6, witness: one page, then the network is down. *)
Lemma listing_failure_is_fatal_network_down :
  ∃ w', @main env_listing_down 3 (initial_world ∅) = (Exit (-1), w') ∧
        exit_status (fst (@main env_listing_down 3 (initial_world ∅))) = Some 255%Z ∧
        requests w' =
          listing_url [] ::
          map (λ ids, listing_url (@id_below_of env_listing_down (List.last ids PyNone)))
            [[PyInt 9; PyInt 8]] ∧
        files w' = ∅ ∧ nwrites w' = 0.
Proof.
  apply (@listing_failure_is_fatal env_listing_down 3 ∅ [[PyInt 9; PyInt 8]]).
  - intros [|i] ids Hi; simpl in Hi; try discriminate; injection Hi as <-.
    split; [|split; [discriminate|exact I]].
    eexists _, _. split; [reflexivity|]. split; reflexivity.
  - exact I.
  - simpl. lia.
Defined.

(** C3, witness: the second of two observations has no [photos]. *)
Lemma missing_field_aborts_photos :
  let w1 := snd (@retrieve_obs_ids_from_server env_missing_photos 3 (initial_world ∅)) in
  let w2 := snd (@retrieve_data_loop env_missing_photos [PyInt 5] [] w1) in
  let obs := without (lit "photos") (sample_obs (lit "casual")) in
  ∃ e, @reformat_obs env_missing_photos (PyInt 6) obs = Raise e ∧
       @main env_missing_photos 3 (initial_world ∅)
       = (Raise e, add_request (@detail_url env_missing_photos (PyInt 6)) w2) ∧
       exit_status (fst (@main env_missing_photos 3 (initial_world ∅))) = Some 1%Z ∧
       files w2 = ∅ ∧ nwrites w2 = 0.
Proof.
  cbv zeta.
  apply (@missing_field_aborts env_missing_photos 3 ∅ [PyInt 5] (PyInt 6) []
           (snd (@retrieve_obs_ids_from_server env_missing_photos 3 (initial_world ∅)))
           match @reformat_obs env_missing_photos (PyInt 5)
                   (sample_obs (lit "research")) with
           | Ret r => [r]
           | _ => []
           end).
  - vm_compute. reflexivity.
  - vm_compute. reflexivity.
  - vm_compute. reflexivity.
  - apply Exists_exists. exists [lit "photos"]. split; [|vm_compute; reflexivity].
    unfold required_fields, desired_fields. cbn [app map].
    repeat first [apply list_elem_of_here | apply list_elem_of_further].
Defined.

(** C9, witness: the run of [env_single_record]. *)
Lemma single_record_creates_file_sample :
  ∃ md w', @main env_single_record 3 (initial_world ∅) = (Ret (), w') ∧
     files w' = {[ lit ".//123.md" := Text (create_markdown_str md []) ]} ∧
     dict_keys md = metadata_keys ∧
     length metadata_keys = 18.
Proof.
  apply (@single_record_creates_file env_single_record 3 (sample_obs (lit "research"))).
  - eexists _, _. split; [reflexivity|]. split; reflexivity.
  - eexists _, _. split; [reflexivity|]. split; reflexivity.
  - reflexivity.
  - apply Forall_forall. intros p Hp. apply list_elem_of_In in Hp.
    unfold required_fields, desired_fields in Hp. cbn [app map In] in Hp.
    repeat (destruct Hp as [<-|Hp]; [vm_compute; eauto|]). destruct Hp.
  - reflexivity.
  - lia.
Defined.

(** C9, counterexample to the claim as stated: after the run of
    [env_single_record] from an empty store, the one file holds a metadata
    mapping that reads back with 18 keys, not 15. *)
Lemma single_record_has_eighteen_keys :
  let run := @main env_single_record 3 (initial_world ∅) in
  fst run = Ret () ∧
  dom (files (snd run)) = {[ lit ".//123.md" ]} ∧
  ∃ md, @read_hugo_markdown env_single_record (lit "123") (snd run) = Some (Some md, []) ∧
        length (dict_keys md) = 18 ∧
        length (dict_keys md) ≠ 15.
Proof.
  cbv zeta. split; [vm_compute; reflexivity|]. split; [vm_compute; reflexivity|].
  exists (match @reformat_obs env_single_record (PyInt 123) (sample_obs (lit "research")) with
          | Ret r => obs_metadata r
          | _ => []
          end).
  split; [vm_compute; reflexivity|]. split; [vm_compute; reflexivity|].
  vm_compute. discriminate.
Qed.






(** C4, at the failing input: the store holds [.//123.md] with a text
    that has no front matter, and the service lists 123 and 124. Reading
    the stored file fails ([read_hugo_markdown] returns [None]), and the run
    ends there with [TypeError] and exit status 1: the failure is not
    reported with [Unable to read saved data id], the record 124 is never
    processed (no file is created for it), and [Completed] is not printed. *)
Theorem unreadable_file_aborts_run :
  let w0 := initial_world (store_with (lit "123") (lit "not a hugo file")) in
  let run := @main env_two_records 3 w0 in
  saved_ids_of (files w0) = {[ lit "123" ]} ∧
  @read_hugo_markdown env_two_records (lit "123") w0 = None ∧
  fst run = Raise TypeError ∧
  exit_status (fst run) = Some 1%Z ∧
  files (snd run) = files w0 ∧
  stdout (snd run) = [ lit "Parsed a total of 2 ids from server";
                       lit "Successfully obtained 2 observations from the server." ].
Proof. cbv zeta. repeat split; vm_compute; reflexivity. Qed.

(** C7, at the failing input: metadata with [---] inside a string. The
    record is written without a fault, and reading it back yields no
    metadata at all: the second [---] that [hugo_markdown_to_json] finds is
    the one inside the string, so what reaches [json.loads] is the text cut
    there, whatever the parser. *)
Theorem roundtrip_breaks_on_delimiter :
  let doc := create_markdown_str metadata_dashes [] in
  let written := @write_markdown env_quiet (lit "123") metadata_dashes [] (initial_world ∅) in
  fst written = Ret () ∧
  files (snd written) !! file_from_id (lit "123") = Some (Text doc) ∧
  @read_hugo_markdown env_quiet (lit "123") (snd written)
  = Some (None, py_slice doc 42 (-17)) ∧
  occurrences (lit "---") doc = [0; 23; 31] ∧
  ∀ E : Env,
    @hugo_markdown_to_json E doc =
    Ret (Some (dict_or_none
                 (@json_loads E (nl ++ lit "{" ++ [dquote] ++ lit "place_guess" ++ [dquote]
                                 ++ lit ": " ++ [dquote] ++ lit "A ")),
               py_slice doc 42 (-17))).
Proof.
  cbv zeta. repeat split; try (vm_compute; reflexivity).
Qed.

(** X1, witness: the small record, written and read back. *)
Lemma write_then_read_sample :
  let written := @write_markdown env_quiet (lit "7") (obs_metadata data_small) []
                   (initial_world ∅) in
  fst written = Ret () ∧
  files (snd written) !! file_from_id (lit "7")
  = Some (Text (create_markdown_str (obs_metadata data_small) [])) ∧
  @read_hugo_markdown env_quiet (lit "7") (snd written)
  = Some (dict_or_none
            (@json_loads env_quiet (nl ++ json_dumps (PyDict (obs_metadata data_small)) ++ nl)),
          []).
Proof.
  apply (@write_then_read env_quiet (lit "7") (obs_metadata data_small) [] (initial_world ∅));
    vm_compute; reflexivity.
Defined.

(** X2, witness: the small record, written and reconciled again. *)
Lemma second_round_writes_nothing_sample :
  let w1 := snd (@write_markdown env_quiet (obs_id data_small) (obs_metadata data_small)
                   (obs_content data_small) (initial_world ∅)) in
  @reconcile_one env_quiet {[lit "7"]} data_small w1 = (Ret (), w1).
Proof.
  apply (@second_round_writes_nothing env_quiet {[lit "7"]} data_small (initial_world ∅)
           (obs_metadata data_small)).
  - apply elem_of_singleton. reflexivity.
  - reflexivity.
  - reflexivity.
  - reflexivity.
  - vm_compute. reflexivity.
  - vm_compute. reflexivity.
  - vm_compute. reflexivity.
Defined.

(** X3, witness: two keys in either order. *)
Lemma py_eq_ignores_key_order_sample :
  py_eq (PyDict (obs_metadata data_small)) (PyDict metadata_swapped) = true ∧
  py_eq (PyDict metadata_swapped) (PyDict (obs_metadata data_small)) = true.
Proof.
  apply (py_eq_ignores_key_order (obs_metadata data_small) metadata_swapped).
  - apply perm_swap.
  - apply wf_dict.
    + cbn. apply NoDup_cons. split; [|apply NoDup_singleton].
      intros Hin. apply list_elem_of_singleton in Hin. vm_compute in Hin. discriminate.
    + repeat constructor.
Defined.

(** X7, witness: one page, then an answer that is not JSON. *)
Lemma listing_failure_prints_garbled :
  stdout (snd (@main env_listing_garbled 3 (initial_world ∅)))
  = listing_failure_lines (@net env_listing_garbled 1) ∧
  (∀ body, @net env_listing_garbled 1 = Response body → results_of body = None →
     stdout (snd (@main env_listing_garbled 3 (initial_world ∅))) =
       [lit "Malformed JSON response from server.";
        lit "Unexpected JSON response, should be of form list."]).
Proof.
  apply (@listing_failure_prints env_listing_garbled 3 ∅ [[PyInt 9]]).
  - intros [|i] ids Hi; simpl in Hi; try discriminate; injection Hi as <-.
    split; [|split; [discriminate|exact I]].
    eexists _, _. split; [reflexivity|]. split; reflexivity.
  - exact I.
  - simpl. lia.
Defined.

(** X8, witness: the second entry of the page is an empty object. *)
Lemma listing_entry_without_id_aborts_sample :
  ∃ w', @main env_entry_without_id 3 (initial_world ∅) = (Raise KeyError, w') ∧
        (KeyError = KeyError ∨ KeyError = TypeError) ∧
        exit_status (fst (@main env_entry_without_id 3 (initial_world ∅))) = Some 1%Z ∧
        length (requests w') = 1 ∧
        stdout w' = [] ∧ files w' = ∅ ∧ nwrites w' = 0.
Proof.
  apply (@listing_entry_without_id_aborts env_entry_without_id 3 ∅ []
           (PyDict [(lit "results", PyList [PyDict [(lit "id", PyInt 4)]; PyDict []])])
           [PyDict [(lit "id", PyInt 4)]; PyDict []] KeyError).
  - intros i ids Hi. destruct i; discriminate.
  - reflexivity.
  - reflexivity.
  - reflexivity.
  - simpl. lia.
Defined.

(** X9, witness: a page whose only id is the string ["12"]. *)
Lemma listing_cursor_must_be_number_strings :
  ∃ w', @main env_string_ids 3 (initial_world ∅) = (Raise TypeError, w') ∧
        exit_status (fst (@main env_string_ids 3 (initial_world ∅))) = Some 1%Z ∧
        length (requests w') = 1 ∧
        MIN_OBS_ID w' = PyStr (lit "12") ∧
        stdout w' = [] ∧ files w' = ∅ ∧ nwrites w' = 0.
Proof.
  apply (@listing_cursor_must_be_number env_string_ids 3 ∅ [] [PyStr (lit "12")]).
  - intros i ids Hi. destruct i; discriminate.
  - eexists _, _. split; [reflexivity|]. split; reflexivity.
  - discriminate.
  - intros [].
  - simpl. lia.
Defined.

(** X10, witness: the same page for ever, fifty rounds. *)
Lemma listing_needs_empty_page_endless :
  fst (@retrieve_obs_ids_from_server env_endless 50 (initial_world ∅)) = OutOfFuel ∧
  fst (@main env_endless 50 (initial_world ∅)) = OutOfFuel ∧
  files (snd (@main env_endless 50 (initial_world ∅))) = ∅.
Proof.
  apply (@listing_needs_empty_page env_endless 50 ∅).
  intros k. exists [PyInt 5]. split; [|split; [discriminate|exact I]].
  eexists _, _. split; [reflexivity|]. split; reflexivity.
Defined.

(** X11, witness: two pages and the empty page. *)
Lemma listing_summary_two_pages :
  let w' := snd (@retrieve_obs_ids_from_server env_two_pages 5 (initial_world ∅)) in
  stdout w' = [lit "Parsed a total of "
               ++ str_of_Z (Z.of_nat (length (concat [[PyInt 31; PyInt 30]; [PyInt 7]])))
               ++ lit " ids from server"] ∧
  length (requests w') = 3 ∧
  MIN_OBS_ID w' = List.last (concat [[PyInt 31; PyInt 30]; [PyInt 7]]) (PyInt (-1)) ∧
  files w' = ∅ ∧ nwrites w' = 0.
Proof.
  apply (@listing_summary env_two_pages 5 ∅ [[PyInt 31; PyInt 30]; [PyInt 7]]).
  - intros [|[|i]] ids Hi; simpl in Hi; try discriminate; injection Hi as <-.
    + split; [|split; [discriminate|exact I]].
      eexists _, _. split; [reflexivity|]. split; reflexivity.
    + split; [|split; [discriminate|exact I]].
      eexists _, _. split; [reflexivity|]. split; reflexivity.
  - eexists _, _. split; [reflexivity|]. split; reflexivity.
  - simpl. lia.
Defined.

(** X14, witness: a document with [taxon: null]. *)
Lemma reformat_obs_needs_taxon_object_sample :
  @reformat_obs env_quiet (PyInt 2) obs_without_taxon = Raise TypeError ∧
  lookup_path obs_without_taxon [lit "taxon"; lit "name"] = None.
Proof.
  apply (@reformat_obs_needs_taxon_object env_quiet (PyInt 2) _
           (PyStr (lit "https://www.inaturalist.org/observations/2")) PyNone PyNone).
  - reflexivity.
  - reflexivity.
  - reflexivity.
  - discriminate.
Defined.

(** X13, witness: the sample document. *)
Lemma reformat_obs_copies_fields_sample :
  @reformat_obs env_quiet (PyInt 123) (sample_obs (lit "research"))
  = Ret (ObsData (@py_str env_quiet (PyInt 123))
           (reshaped_metadata (sample_obs (lit "research"))) []).
Proof.
  apply (@reformat_obs_copies_fields env_quiet (PyInt 123) (sample_obs (lit "research"))).
  apply Forall_forall. intros p Hp. apply list_elem_of_In in Hp.
  unfold required_fields, desired_fields in Hp. cbn [app map In] in Hp.
  repeat (destruct Hp as [<-|Hp]; [vm_compute; eauto|]). destruct Hp.
Defined.

(** X12, witness: two ids, the detail request of the first fails. *)
Lemma fetch_keeps_listing_order_sample :
  let w := initial_world ∅ in
  let ids := [PyInt 456; PyInt 123] in
  let w1 := snd (@retrieve_obs_ids_from_server env_detail_down 3 w) in
  fst (@retrieve_data_from_server env_detail_down 3 w) =
    mapR (λ p, @reformat_obs env_detail_down p.1 p.2)
      (@fetched_details env_detail_down (length (requests w1)) ids) ∧
  printable_output w (snd (@retrieve_data_from_server env_detail_down 3 w)) ∧
  ∀ recs w', @retrieve_data_from_server env_detail_down 3 w = (Ret recs, w') →
    requests w' = requests w1 ++ map (@detail_url env_detail_down) ids ∧
    List.last (stdout w') [] =
      lit "Successfully obtained " ++ str_of_Z (Z.of_nat (length recs))
      ++ lit " observations from the server." ∧
    files w' = files w ∧ nwrites w' = nwrites w.
Proof.
  cbv zeta.
  apply (@fetch_keeps_listing_order env_detail_down 3 (initial_world ∅)
           [PyInt 456; PyInt 123]).
  - vm_compute. reflexivity.
  - repeat constructor.
Defined.

(** X16, witness: metadata with [---] inside a string. *)
Lemma written_record_is_readable_dashes :
  ∃ saved_fm saved_content,
    @read_hugo_markdown env_quiet (lit "123")
      (snd (@write_markdown env_quiet (lit "123") metadata_dashes [] (initial_world ∅)))
    = Some (saved_fm, saved_content).
Proof.
  apply (@written_record_is_readable env_quiet (lit "123") metadata_dashes [] (initial_world ∅));
    reflexivity.
Defined.

(** X18, witness: a stored file whose front matter is the list [[1, 2]]. *)
Lemma unparsable_front_matter_is_skipped_list :
  let w := initial_world (store_with (lit "7") text_with_list) in
  @reconcile_one env_quiet {[lit "7"]} data_small w =
  (Ret (), add_line (lit "Unable to read saved data id " ++ obs_id data_small) w).
Proof.
  cbv zeta.
  apply (@unparsable_front_matter_is_skipped env_quiet {[lit "7"]} data_small
           (initial_world (store_with (lit "7") text_with_list)) text_with_list 0 11 []).
  - apply elem_of_singleton. reflexivity.
  - vm_compute. reflexivity.
  - vm_compute. reflexivity.
  - intros d. vm_compute. discriminate.
Defined.

(** X23, witness: the run of [env_single_record], twice. *)
Lemma rerun_writes_nothing_sample :
  let w1 := snd (@main env_single_record 3 (initial_world ∅)) in
  ∃ w2, @main env_single_record 3 (initial_world (files w1)) = (Ret (), w2) ∧
        files w2 = files w1 ∧ nwrites w2 = 0.
Proof.
  cbv zeta.
  apply (@rerun_writes_nothing env_single_record 3 ∅
           match @reformat_obs env_single_record (PyInt 123) (sample_obs (lit "research")) with
           | Ret r => [r]
           | _ => []
           end
           (snd (@retrieve_data_from_server env_single_record 3 (initial_world ∅)))).
  - vm_compute. reflexivity.
  - vm_compute. reflexivity.
  - intros n. reflexivity.
  - vm_compute. apply NoDup_singleton.
  - apply Forall_singleton. split; [split; [|split]|split; [|split; [|split]]].
    + vm_compute. discriminate.
    + apply (bool_decide_unpack _). vm_compute. reflexivity.
    + vm_compute. reflexivity.
    + vm_compute. reflexivity.
    + vm_compute. reflexivity.
    + vm_compute. reflexivity.
    + eexists. split; vm_compute; reflexivity.
Defined.


(** X21, witness: [123.md] has no front matter; 124 is never processed. *)
Lemma unreadable_record_aborts_sample :
  let fs := store_with (lit "123") (lit "not a hugo file") in
  let w0 := snd (@retrieve_data_from_server env_two_records 3 (initial_world fs)) in
  let data := ObsData (lit "123") (reshaped_metadata (sample_obs (lit "research"))) [] in
  @read_hugo_markdown env_two_records (obs_id data) w0 = None ∧
  @main env_two_records 3 (initial_world fs) = (Raise TypeError, w0) ∧
  exit_status (fst (@main env_two_records 3 (initial_world fs))) = Some 1%Z.
Proof.
  cbv zeta.
  apply (@unreadable_record_aborts env_two_records 3
           (store_with (lit "123") (lit "not a hugo file")) []
           (ObsData (lit "123") (reshaped_metadata (sample_obs (lit "research"))) [])
           [ObsData (lit "124") (reshaped_metadata (sample_obs (lit "casual"))) []]
           (snd (@retrieve_data_from_server env_two_records 3
                   (initial_world (store_with (lit "123") (lit "not a hugo file")))))
           (snd (@retrieve_data_from_server env_two_records 3
                   (initial_world (store_with (lit "123") (lit "not a hugo file")))))).
  - vm_compute. reflexivity.
  - reflexivity.
  - apply saved_ids_of_spec. split.
    + apply elem_of_dom. unfold store_with. rewrite lookup_singleton_eq. eauto.
    + split; [discriminate|]. split; [|reflexivity].
      apply (bool_decide_unpack _). vm_compute. reflexivity.
  - vm_compute. lia.
Defined.

(** X26, witness: 123 and 124. *)
Lemma integer_ids_have_their_own_files_sample :
  @py_str env_quiet (PyInt 123) ≠ @py_str env_quiet (PyInt 124) ∧
  file_from_id (@py_str env_quiet (PyInt 123)) ≠ file_from_id (@py_str env_quiet (PyInt 124)) ∧
  @detail_url env_quiet (PyInt 123) ≠ @detail_url env_quiet (PyInt 124).
Proof.
  apply (@integer_ids_have_their_own_files env_quiet 123 124). lia.
Defined.

(** X28, witness: [123.md] holds the record with the grade [casual], the
    service now sends [research]. *)
Lemma stored_record_is_compared_sample :
  let data := ObsData (lit "123") (reshaped_metadata (sample_obs (lit "research"))) [] in
  let old := reshaped_metadata (sample_obs (lit "casual")) in
  let fs := store_with (lit "123") (create_markdown_str old []) in
  ∃ w', @main env_single_record 3 (initial_world fs) = (Ret (), w') ∧
        if py_eq (PyDict old) (PyDict (obs_metadata data))
        then files w' = fs ∧ nwrites w' = 0
        else files w' = <[file_from_id (obs_id data) :=
                            Text (create_markdown_str (obs_metadata data) [])]> fs ∧
             nwrites w' = 1 ∧
             lit "Updating id " ++ obs_id data ∈ stdout w'.
Proof.
  cbv zeta.
  apply (@stored_record_is_compared env_single_record 3
           (store_with (lit "123")
              (create_markdown_str (reshaped_metadata (sample_obs (lit "casual"))) []))
           123 (sample_obs (lit "research"))
           (ObsData (lit "123") (reshaped_metadata (sample_obs (lit "research"))) [])
           (reshaped_metadata (sample_obs (lit "casual"))) []).
  - eexists _, _. split; [reflexivity|]. split; reflexivity.
  - eexists _, _. split; [reflexivity|]. split; reflexivity.
  - reflexivity.
  - vm_compute. reflexivity.
  - vm_compute. reflexivity.
  - reflexivity.
  - lia.
Defined.

(** X22, witness: the run of [env_detail_down], which prints a failure
    line with an id and ends normally. *)
Lemma completed_marks_normal_end_sample :
  let run := @main env_detail_down 3 (initial_world ∅) in
  (fst run = Ret () ↔ lit "Completed" ∈ output_lines (snd run)) ∧
  (fst run = Ret () →
   ∃ lines, output_lines (snd run) = lines ++ [lit "Completed"] ∧ lit "Completed" ∉ lines).
Proof.
  apply (@completed_marks_normal_end env_detail_down 3 ∅). listed_ids_printable.
Defined.


(** X27, witness: the run of [env_two_records], which creates two
    files. *)
Lemma every_write_is_announced_sample :
  let w' := snd (@main env_two_records 3 (initial_world ∅)) in
  nwrites w' = length (filter (λ l, write_notice l = true) (output_lines w')).
Proof.
  apply (@every_write_is_announced env_two_records 3 ∅). listed_ids_printable.
Defined.
